(** * Online examination: authorization, attempt life cycle and scoring

    A shallow embedding of the examination application.  The hosted
    relational backend is a record of tables, each table a list of
    rows; a query of the client library is a filter over a table, and
    every handler of the pages is a function from the backend (and the
    state of its component) to the backend (and the state) after it.

    Conventions of the embedding:
    - identifiers, roles, statuses and answers are the strings the
      source stores, held in UTF-8; the length JavaScript gives a
      string is its number of UTF-16 code units;
    - integer columns ([marks], [total_marks], [duration_minutes]) and
      JavaScript times in milliseconds are in [Z]: every integer an
      integer column holds is exact as a JavaScript number, and so is
      every sum of marks;
    - the percentage a submit stores, a JavaScript quotient and a
      product, is the rational the binary64 operations return: each
      exact result rounded to 53 significant bits, to nearest, a tie
      to the even neighbour.  The exponent is not bounded, since
      quotients of integers of an integer column stay far from the
      limits of the format.  The percentage of an exam card, which is
      only compared with the thresholds of the colours, is the exact
      rational;
    - values the backend supplies (the identifier of a new row, the
      current time) are arguments of the handler that needs them;
    - columns that no handler reads ([created_at], [created_by], the
      description of an exam) and the order of a listing by
      [created_at] are left out;
    - a request fails only where the data make it fail (a [single]
      lookup that does not find exactly one row, a row-level policy);
      network failures are left out. *)

From Stdlib Require Import ZArith QArith Qround Qabs Qpower Lia Lqa.
From Stdlib Require Import Ascii String DecimalString DecimalZ.
From Stdlib Require Floats.SpecFloat.
From stdpp Require Import base strings list sorting gmap.

Local Open Scope Z_scope.
Local Open Scope string_scope.

(** ** Strings as JavaScript uses them *)

(** [c.toLowerCase()] on one ASCII character. *)
Definition lower_ascii (c : ascii) : ascii :=
  let n := nat_of_ascii c in
  if ((65 <=? n) && (n <=? 90))%nat then ascii_of_nat (n + 32) else c.

(** [s.toLowerCase()]. *)
Fixpoint toLowerCase (s : string) : string :=
  match s with
  | EmptyString => EmptyString
  | String c s' => String (lower_ascii c) (toLowerCase s')
  end.

(** [s.endsWith(t)]: the last [length t] characters of [s] are [t]. *)
Definition endsWith (s t : string) : bool :=
  let n := String.length s in
  let m := String.length t in
  if (m <=? n)%nat then String.eqb (substring (n - m) m s) t else false.

(** [s.includes(t)]. *)
Definition includes (s t : string) : bool :=
  match index 0 t s with Some _ => true | None => false end.

(** Truthiness of a string: the empty string is falsy. *)
Definition truthy (s : string) : bool :=
  match s with EmptyString => false | String _ _ => true end.

(** The UTF-16 code units a byte of UTF-8 stands for: a character of
    one, two or three bytes is one code unit, a character of four bytes
    is two (a surrogate pair), counted at the first byte; the bytes
    [10xxxxxx] that continue a character count nothing. *)
Definition code_units (c : ascii) : nat :=
  let n := nat_of_ascii c in
  if (n <? 128)%nat then 1%nat
  else if (n <? 192)%nat then 0%nat
  else if (n <? 240)%nat then 1%nat
  else 2%nat.

(** [s.length]: the number of UTF-16 code units of the string. *)
Fixpoint js_length (s : string) : nat :=
  match s with
  | EmptyString => 0%nat
  | String c s' => (code_units c + js_length s')%nat
  end.

(** ** Numbers as JavaScript computes them *)

(** The integer nearest to [x], a tie going to the even one. *)
Definition round_half_even (x : Q) : Z :=
  let f := Qfloor x in
  match (x - inject_Z f ?= 1 # 2)%Q with
  | Lt => f
  | Gt => f + 1
  | Eq => if Z.even f then f else f + 1
  end.

(** The binary logarithm of a positive rational, rounded down. *)
Definition ilog2 (q : Q) : Z :=
  let k := Z.log2 (Qnum q) - Z.log2 (Zpos (Qden q)) in
  if Qle_bool (2 ^ k) q then k else k - 1.

(** The binary64 number nearest to [q]: with [e] the exponent of the
    last of 53 significant bits, [q] is scaled by [2 ^ -e], rounded to
    the nearest integer, a tie to the even one, and scaled back. *)
Definition binary64 (q : Q) : Q :=
  if Qeq_bool q 0 then 0%Q
  else
    let e := ilog2 (Qabs q) - 52 in
    (inject_Z (round_half_even (q / 2 ^ e)) * 2 ^ e)%Q.

(** ** The sign-in and sign-up page *)

Inductive Route : Type :=
| RHome
| RAuth
| RDashboard
| RAdmin
| RExam (examId : string).

(** What the identity provider answers to a request: [{ error: null }],
    [{ error: { message } }], or a rejected promise. *)
Inductive AuthReply : Type :=
| AuthOk
| AuthError (message : string)
| AuthThrow.

(** The requests the page can issue to the identity provider. *)
Inductive AuthCall : Type :=
| CallSignIn (email password : string)
| CallSignUp (email password fullName role : string).

Record SignInData : Type := mkSignInData {
  si_email : string;
  si_password : string;
  si_role : string
}.

Record SignUpData : Type := mkSignUpData {
  su_email : string;
  su_password : string;
  su_fullName : string;
  su_confirmPassword : string;
  su_role : string
}.

(** [const isNeuEmail = (email) => email.toLowerCase().endsWith('@neu.edu.ph')] *)
Definition isNeuEmail (email : string) : bool :=
  endsWith (toLowerCase email) "@neu.edu.ph".

Section Auth.
(** The identity provider: its state (accounts and session) and its
    two entry points. *)
Variable AuthState : Type.
Variable signIn : string -> string -> AuthState -> AuthState * AuthReply.
Variable signUp :
  string -> string -> string -> string -> AuthState -> AuthState * AuthReply.

(** What a handler of the page leaves behind. *)
Record AuthOutcome : Type := mkAuthOutcome {
  ao_auth : AuthState;
  ao_calls : list AuthCall;
  ao_toasts : list string;
  ao_navigate : option Route
}.

Definition auth_rejected (st : AuthState) (msg : string) : AuthOutcome :=
  mkAuthOutcome st [] [msg] None.

Definition handleSignIn (d : SignInData) (st : AuthState) : AuthOutcome :=
  if negb (truthy (si_email d)) || negb (truthy (si_password d))
     || negb (truthy (si_role d))
  then auth_rejected st "Please fill in all fields"
  else if String.eqb (si_role d) "admin" && negb (isNeuEmail (si_email d))
  then auth_rejected st "Admin accounts require @neu.edu.ph email addresses"
  else
    let call := CallSignIn (si_email d) (si_password d) in
    match signIn (si_email d) (si_password d) st with
    | (st', AuthError message) => mkAuthOutcome st' [call] [message] None
    | (st', AuthOk) => mkAuthOutcome st' [call] ["Welcome back!"] (Some RHome)
    | (st', AuthThrow) =>
        mkAuthOutcome st' [call] ["An unexpected error occurred"] None
    end.

Definition handleSignUp (d : SignUpData) (st : AuthState) : AuthOutcome :=
  if negb (truthy (su_email d)) || negb (truthy (su_password d))
     || negb (truthy (su_fullName d)) || negb (truthy (su_confirmPassword d))
     || negb (truthy (su_role d))
  then auth_rejected st "Please fill in all fields"
  else if String.eqb (su_role d) "admin" && negb (isNeuEmail (su_email d))
  then auth_rejected st
         "Admin accounts can only be created with @neu.edu.ph email addresses"
  else if negb (String.eqb (su_password d) (su_confirmPassword d))
  then auth_rejected st "Passwords do not match"
  else if (js_length (su_password d) <? 6)%nat
  then auth_rejected st "Password must be at least 6 characters"
  else
    let call :=
      CallSignUp (su_email d) (su_password d) (su_fullName d) (su_role d) in
    match signUp (su_email d) (su_password d) (su_fullName d) (su_role d) st with
    | (st', AuthError message) =>
        if includes message "already registered"
        then mkAuthOutcome st' [call]
               ["This email is already registered. Please sign in instead."] None
        else mkAuthOutcome st' [call] [message] None
    | (st', AuthOk) =>
        mkAuthOutcome st' [call]
          ["Account created successfully! Please check your email for verification."]
          (Some RHome)
    | (st', AuthThrow) =>
        mkAuthOutcome st' [call] ["An unexpected error occurred"] None
    end.
End Auth.

Arguments mkAuthOutcome {AuthState}.
Arguments ao_auth {AuthState}.
Arguments ao_calls {AuthState}.
Arguments ao_toasts {AuthState}.
Arguments ao_navigate {AuthState}.
Arguments handleSignIn {AuthState}.
Arguments handleSignUp {AuthState}.

(** A small identity provider to run the handlers on: the state is the
    list of registered e-mail addresses. *)
Definition demo_signIn (email password : string) (st : list string)
  : list string * AuthReply :=
  if bool_decide (email ∈ st) then (st, AuthOk)
  else (st, AuthError "Invalid login credentials").

Definition demo_signUp (email password fullName role : string) (st : list string)
  : list string * AuthReply :=
  if bool_decide (email ∈ st) then (st, AuthError "User already registered")
  else (email :: st, AuthOk).

(** ** The tables of the backend *)

Record Profile : Type := mkProfile {
  p_id : string;
  p_full_name : string;
  p_email : string;
  p_role : string
}.

Record Subject : Type := mkSubject {
  s_id : string;
  s_name : string;
  s_description : string;
  s_is_active : bool
}.

Record Exam : Type := mkExam {
  e_id : string;
  e_subject_id : string;
  e_title : string;
  e_duration_minutes : Z;
  e_total_marks : Z;
  e_passing_marks : Z;
  e_is_active : bool
}.

Record Question : Type := mkQuestion {
  q_id : string;
  q_exam_id : string;
  q_question_text : string;
  q_option_a : string;
  q_option_b : string;
  q_option_c : string;
  q_option_d : string;
  q_correct_answer : string;
  q_marks : Z;
  q_order_number : Z
}.

Record ExamAttempt : Type := mkExamAttempt {
  a_id : string;
  a_exam_id : string;
  a_student_id : string;
  a_status : string;
  a_started_at : Z;
  a_completed_at : option Z;
  a_score : option Z;
  a_percentage : option Q;
  a_total_marks : Z
}.

Record StudentAnswer : Type := mkStudentAnswer {
  sa_attempt_id : string;
  sa_question_id : string;
  sa_selected_answer : string;
  sa_is_correct : option bool
}.

Record Database : Type := mkDatabase {
  profiles : list Profile;
  subjects : list Subject;
  exams : list Exam;
  questions : list Question;
  exam_attempts : list ExamAttempt;
  student_answers : list StudentAnswer
}.

Definition set_profiles (v : list Profile) (db : Database) : Database :=
  mkDatabase v (subjects db) (exams db) (questions db) (exam_attempts db)
    (student_answers db).
Definition set_subjects (v : list Subject) (db : Database) : Database :=
  mkDatabase (profiles db) v (exams db) (questions db) (exam_attempts db)
    (student_answers db).
Definition set_exams (v : list Exam) (db : Database) : Database :=
  mkDatabase (profiles db) (subjects db) v (questions db) (exam_attempts db)
    (student_answers db).
Definition set_questions (v : list Question) (db : Database) : Database :=
  mkDatabase (profiles db) (subjects db) (exams db) v (exam_attempts db)
    (student_answers db).
Definition set_exam_attempts (v : list ExamAttempt) (db : Database) : Database :=
  mkDatabase (profiles db) (subjects db) (exams db) (questions db) v
    (student_answers db).
Definition set_student_answers (v : list StudentAnswer) (db : Database) : Database :=
  mkDatabase (profiles db) (subjects db) (exams db) (questions db)
    (exam_attempts db) v.

(** ** Requests of the client library *)

(** [.single()]: the row when the filter leaves exactly one, otherwise
    no data (error [PGRST116], for no row and for several rows). *)
Definition single {A : Type} (rows : list A) : option A :=
  match rows with
  | [r] => Some r
  | _ => None
  end.

(** [.update(patch).eq(...)]: the patch on every row the filter keeps. *)
Definition update_where {A : Type} (P : A -> Prop) `{!∀ r, Decision (P r)}
    (patch : A -> A) (rows : list A) : list A :=
  (fun r => if decide (P r) then patch r else r) <$> rows.

(** [.delete().eq(...)]: the rows the filter keeps are removed. *)
Definition delete_where {A : Type} (P : A -> Prop) `{!∀ r, Decision (P r)}
    (rows : list A) : list A :=
  filter (fun r => ~ P r) rows.

(** [.from('exams').select(...).eq('id', examId)] *)
Definition exams_by_id (examId : string) (db : Database) : list Exam :=
  filter (fun e => e_id e = examId) (exams db).

(** [.from('exams').select(...).eq('is_active', true)] *)
Definition active_exams (db : Database) : list Exam :=
  filter (fun e => e_is_active e = true) (exams db).

(** [.from('exam_attempts').select(...).eq('exam_id', examId)
      .eq('student_id', userId).eq('status', 'in_progress')] *)
Definition in_progress_of (examId userId : string) (rows : list ExamAttempt)
  : list ExamAttempt :=
  filter (fun a => a_exam_id a = examId /\ a_student_id a = userId
                   /\ a_status a = "in_progress") rows.

Definition in_progress_attempts (examId userId : string) (db : Database)
  : list ExamAttempt :=
  in_progress_of examId userId (exam_attempts db).

(** The questions of an exam: [.from('questions').eq('exam_id', examId)]. *)
Definition exam_questions (examId : string) (db : Database) : list Question :=
  filter (fun q => q_exam_id q = examId) (questions db).

(** The order of [.order('order_number', { ascending: true })]. *)
Definition order_number_le (a b : Question) : Prop :=
  q_order_number a <= q_order_number b.

#[global] Instance order_number_le_dec : RelDecision order_number_le.
Proof. intros a b. unfold order_number_le. apply _. Defined.

(** [.from('questions').select('*').eq('exam_id', examId)
      .order('order_number', { ascending: true })] *)
Definition questions_of_exam (examId : string) (db : Database) : list Question :=
  merge_sort order_number_le (exam_questions examId db).

(** The row an insert into [exam_attempts] creates: the request carries
    the exam, the student, the status and the marks; the backend fills
    in the identifier and [started_at]. *)
Definition new_attempt (new_id examId userId : string) (now total : Z)
  : ExamAttempt :=
  mkExamAttempt new_id examId userId "in_progress" now None None None total.

Definition insert_attempt (a : ExamAttempt) (db : Database) : Database :=
  set_exam_attempts (exam_attempts db ++ [a]) db.

(** ** Row-level security of [profiles] *)

(** [SELECT role FROM public.profiles WHERE id = auth.uid()]: the role
    of the first row, NULL when there is none. *)
Definition get_current_user_role (db : Database) (uid : string) : option string :=
  p_role <$> head (filter (fun p => p_id p = uid) (profiles db)).

(** ["Admin can manage all profiles": USING (get_current_user_role() = 'admin')] *)
Definition admin_can_manage_all_profiles (db : Database) (uid : string)
    (row : Profile) : bool :=
  bool_decide (get_current_user_role db uid = Some "admin").

(** ["Users can manage own profile": USING (auth.uid() = id)] *)
Definition users_can_manage_own_profile (db : Database) (uid : string)
    (row : Profile) : bool :=
  bool_decide (uid = p_id row).

(** The two policies are permissive and [FOR ALL]: a row passes when one
    of them does.  Neither has a [WITH CHECK] clause, so the [USING]
    expression is also the check on the row an update writes. *)
Definition profiles_using (db : Database) (uid : string) (row : Profile) : bool :=
  admin_can_manage_all_profiles db uid row || users_can_manage_own_profile db uid row.

Definition profiles_with_check (db : Database) (uid : string) (row : Profile) : bool :=
  profiles_using db uid row.

(** An update of one row as identity [uid]: allowed when the stored row
    passes [USING] and the row to write passes the check. *)
Definition profiles_update_allowed (db : Database) (uid : string)
    (old new : Profile) : bool :=
  profiles_using db uid old && profiles_with_check db uid new.

Definition set_role (role : string) (p : Profile) : Profile :=
  mkProfile (p_id p) (p_full_name p) (p_email p) role.

(** [.from('profiles').update({ role }).eq('id', userId)] as identity
    [uid]: rows that fail [USING] are not seen and stay as they are; a
    row that is seen and whose new version fails the check aborts the
    statement ([None]).  The role function is [STABLE]: it reads the
    table as it was when the statement started. *)
Definition profiles_update_role (db : Database) (uid userId role : string)
  : option (list Profile) :=
  mapM (fun row =>
          if decide (p_id row = userId) then
            if profiles_using db uid row then
              if profiles_with_check db uid (set_role role row)
              then Some (set_role role row) else None
            else Some row
          else Some row)
       (profiles db).

(** ** The admin policies of the other tables *)

(** Each of them has the expression
    [USING (public.get_current_user_role() = 'admin')]: "Admins can
    manage exams", "Admins can manage questions" and "Admins can manage
    subjects" for every command, "Admins can read all attempts" and
    "Admins can read all answers" for [SELECT]. *)
Definition admins_can_manage_exams (db : Database) (uid : string) (row : Exam)
  : bool :=
  bool_decide (get_current_user_role db uid = Some "admin").

Definition admins_can_manage_questions (db : Database) (uid : string)
    (row : Question) : bool :=
  bool_decide (get_current_user_role db uid = Some "admin").

Definition admins_can_manage_subjects (db : Database) (uid : string)
    (row : Subject) : bool :=
  bool_decide (get_current_user_role db uid = Some "admin").

Definition admins_can_read_all_attempts (db : Database) (uid : string)
    (row : ExamAttempt) : bool :=
  bool_decide (get_current_user_role db uid = Some "admin").

Definition admins_can_read_all_answers (db : Database) (uid : string)
    (row : StudentAnswer) : bool :=
  bool_decide (get_current_user_role db uid = Some "admin").

(** ** Questions and exams as the admin pages write them *)

(** The form of the question dialog; an update sends exactly these
    fields, an insert adds [exam_id]. *)
Record QuestionForm : Type := mkQuestionForm {
  f_question_text : string;
  f_option_a : string;
  f_option_b : string;
  f_option_c : string;
  f_option_d : string;
  f_correct_answer : string;
  f_marks : Z;
  f_order_number : Z
}.

Definition question_of_form (id examId : string) (f : QuestionForm) : Question :=
  mkQuestion id examId (f_question_text f) (f_option_a f) (f_option_b f)
    (f_option_c f) (f_option_d f) (f_correct_answer f) (f_marks f)
    (f_order_number f).

(** [.from('questions').insert({ ...questionForm, exam_id: examId })] *)
Definition insert_question (new_id examId : string) (f : QuestionForm)
    (db : Database) : Database :=
  set_questions (questions db ++ [question_of_form new_id examId f]) db.

(** [.from('questions').update(questionForm).eq('id', id)] *)
Definition update_question (id : string) (f : QuestionForm) (db : Database)
  : Database :=
  set_questions
    (update_where (fun q => q_id q = id)
       (fun q => question_of_form (q_id q) (q_exam_id q) f) (questions db)) db.

(** [.from('questions').delete().eq('id', id)].  What the backend does
    with answers that refer to the question is decided by the table
    declaration, which is not among the sources; they are kept. *)
Definition delete_question (id : string) (db : Database) : Database :=
  set_questions (delete_where (fun q => q_id q = id) (questions db)) db.

Definition set_total_marks (total : Z) (e : Exam) : Exam :=
  mkExam (e_id e) (e_subject_id e) (e_title e) (e_duration_minutes e) total
    (e_passing_marks e) (e_is_active e).

(** [.from('exams').update({ total_marks }).eq('id', examId)] *)
Definition update_exam_total_marks (examId : string) (total : Z) (db : Database)
  : Database :=
  set_exams
    (update_where (fun e => e_id e = examId) (set_total_marks total) (exams db)) db.

(** The [updates] object of [updateExam]: the fields it carries. *)
Record ExamUpdates : Type := mkExamUpdates {
  u_title : option string;
  u_duration_minutes : option Z;
  u_total_marks : option Z;
  u_passing_marks : option Z;
  u_is_active : option bool
}.

Definition apply_updates (u : ExamUpdates) (e : Exam) : Exam :=
  mkExam (e_id e) (e_subject_id e)
    (default (e_title e) (u_title u))
    (default (e_duration_minutes e) (u_duration_minutes u))
    (default (e_total_marks e) (u_total_marks u))
    (default (e_passing_marks e) (u_passing_marks u))
    (default (e_is_active e) (u_is_active u)).

(** [.from('exams').update(updates).eq('id', id)] *)
Definition update_exam (id : string) (u : ExamUpdates) (db : Database) : Database :=
  set_exams (update_where (fun e => e_id e = id) (apply_updates u) (exams db)) db.

(** [.from('exams').insert({ ...examForm, created_by })] *)
Definition insert_exam (e : Exam) (db : Database) : Database :=
  set_exams (exams db ++ [e]) db.

(** Modelled from the spec: the cascade of [.from('exams').delete()
    .eq('id', id)], whose foreign keys are not among the sources.  The
    exam goes with its questions, its attempts and their answers. *)
Definition delete_exam (id : string) (db : Database) : Database :=
  let gone := filter (fun a => a_exam_id a = id) (exam_attempts db) in
  mkDatabase (profiles db) (subjects db)
    (delete_where (fun e => e_id e = id) (exams db))
    (delete_where (fun q => q_exam_id q = id) (questions db))
    (delete_where (fun a => a_exam_id a = id) (exam_attempts db))
    (delete_where (fun r => Exists (fun a => a_id a = sa_attempt_id r) gone)
       (student_answers db)).

(** [.from('subjects').insert({ ...subjectForm, created_by })] *)
Definition insert_subject (sub : Subject) (db : Database) : Database :=
  set_subjects (subjects db ++ [sub]) db.

(** [.from('subjects').update(updates).eq('id', id)]; the panel sends
    [{ is_active }]. *)
Definition update_subject_is_active (id : string) (active : bool) (db : Database)
  : Database :=
  set_subjects
    (update_where (fun sub => s_id sub = id)
       (fun sub => mkSubject (s_id sub) (s_name sub) (s_description sub) active)
       (subjects db)) db.

(** An exam of the subject [id] in a list of exams. *)
Definition exam_of_subject (id : string) (es : list Exam) (examId : string)
  : Prop :=
  Exists (fun e => e_id e = examId /\ e_subject_id e = id) es.

(** Modelled from the spec: the cascade of [.from('subjects').delete()
    .eq('id', id)], whose foreign keys are not among the sources.  The
    subject goes with its exams, and they with their questions, their
    attempts and the answers of these. *)
Definition delete_subject (id : string) (db : Database) : Database :=
  let gone :=
    filter (fun a => exam_of_subject id (exams db) (a_exam_id a))
      (exam_attempts db) in
  mkDatabase (profiles db)
    (delete_where (fun sub => s_id sub = id) (subjects db))
    (delete_where (fun e => e_subject_id e = id) (exams db))
    (delete_where (fun q => exam_of_subject id (exams db) (q_exam_id q))
       (questions db))
    (delete_where (fun a => exam_of_subject id (exams db) (a_exam_id a))
       (exam_attempts db))
    (delete_where (fun r => Exists (fun a => a_id a = sa_attempt_id r) gone)
       (student_answers db)).

(** ** Student answers *)

(** Modelled from the spec: the write rule of [student_answers] for
    students, whose migration is not among the sources.  A student may
    create or update only rows whose parent attempt belongs to them,
    and an Answer is allowed only while the status of the attempt is
    [in_progress]. *)
Definition student_answers_write_allowed (db : Database) (uid attemptId : string)
  : bool :=
  bool_decide
    (Exists (fun a => a_id a = attemptId /\ a_student_id a = uid
                      /\ a_status a = "in_progress")
       (exam_attempts db)).

Definition same_answer_key (attemptId questionId : string) (r : StudentAnswer)
  : Prop :=
  sa_attempt_id r = attemptId /\ sa_question_id r = questionId.

#[global] Instance same_answer_key_dec attemptId questionId r :
  Decision (same_answer_key attemptId questionId r).
Proof. unfold same_answer_key. apply _. Defined.

Definition set_selected_answer (answer : string) (r : StudentAnswer)
  : StudentAnswer :=
  mkStudentAnswer (sa_attempt_id r) (sa_question_id r) answer (sa_is_correct r).

Definition set_is_correct (c : bool) (r : StudentAnswer) : StudentAnswer :=
  mkStudentAnswer (sa_attempt_id r) (sa_question_id r) (sa_selected_answer r)
    (Some c).

(** Modelled from the spec: the key of the upsert, (attempt_id,
    question_id); the table declaration is not among the sources.
    [.upsert({ attempt_id, question_id, selected_answer })] overwrites
    the selected answer of the row with that key, or adds the row. *)
Definition upsert_answer (attemptId questionId answer : string)
    (rows : list StudentAnswer) : list StudentAnswer :=
  if decide (Exists (same_answer_key attemptId questionId) rows)
  then update_where (same_answer_key attemptId questionId)
         (set_selected_answer answer) rows
  else rows ++ [mkStudentAnswer attemptId questionId answer None].

(** [.from('student_answers').select('question_id, selected_answer,
      questions(correct_answer, marks)').eq('attempt_id', attemptId)]:
    every answer of the attempt with the question its [question_id]
    refers to, if there is one. *)
Definition answers_with_questions (attemptId : string) (db : Database)
  : list (StudentAnswer * option Question) :=
  map (fun r =>
         (r, head (filter (fun q => q_id q = sa_question_id r) (questions db))))
    (filter (fun r => sa_attempt_id r = attemptId) (student_answers db)).

(** ** The exam page *)

Module ExamPage.

Record state : Type := mkState {
  exam : option Exam;
  questions : list Question;
  currentAttempt : option ExamAttempt;
  currentQuestionIndex : Z;
  answers : gmap string string;
  timeRemaining : Z;
  loading : bool;
  isSubmitting : bool;
  toasts : list string;
  location : Route
}.

(** The state of the component when it mounts on [/exam/:examId]. *)
Definition initial (examId : string) : state :=
  mkState None [] None 0 ∅ 0 true false [] (RExam examId).

Definition setExam (v : option Exam) (st : state) : state :=
  mkState v (questions st) (currentAttempt st) (currentQuestionIndex st)
    (answers st) (timeRemaining st) (loading st) (isSubmitting st)
    (toasts st) (location st).
Definition setQuestions (v : list Question) (st : state) : state :=
  mkState (exam st) v (currentAttempt st) (currentQuestionIndex st)
    (answers st) (timeRemaining st) (loading st) (isSubmitting st)
    (toasts st) (location st).
Definition setCurrentAttempt (v : option ExamAttempt) (st : state) : state :=
  mkState (exam st) (questions st) v (currentQuestionIndex st)
    (answers st) (timeRemaining st) (loading st) (isSubmitting st)
    (toasts st) (location st).
Definition setAnswers (v : gmap string string) (st : state) : state :=
  mkState (exam st) (questions st) (currentAttempt st) (currentQuestionIndex st)
    v (timeRemaining st) (loading st) (isSubmitting st)
    (toasts st) (location st).
Definition setTimeRemaining (v : Z) (st : state) : state :=
  mkState (exam st) (questions st) (currentAttempt st) (currentQuestionIndex st)
    (answers st) v (loading st) (isSubmitting st)
    (toasts st) (location st).
Definition setLoading (v : bool) (st : state) : state :=
  mkState (exam st) (questions st) (currentAttempt st) (currentQuestionIndex st)
    (answers st) (timeRemaining st) v (isSubmitting st)
    (toasts st) (location st).
Definition setIsSubmitting (v : bool) (st : state) : state :=
  mkState (exam st) (questions st) (currentAttempt st) (currentQuestionIndex st)
    (answers st) (timeRemaining st) (loading st) v
    (toasts st) (location st).
Definition toast (msg : string) (st : state) : state :=
  mkState (exam st) (questions st) (currentAttempt st) (currentQuestionIndex st)
    (answers st) (timeRemaining st) (loading st) (isSubmitting st)
    (toasts st ++ [msg]) (location st).
Definition navigate (r : Route) (st : state) : state :=
  mkState (exam st) (questions st) (currentAttempt st) (currentQuestionIndex st)
    (answers st) (timeRemaining st) (loading st) (isSubmitting st)
    (toasts st) r.

(** The remaining minutes of a resumed attempt:
    [Math.max(0, duration_minutes - Math.floor((now - startTime) / (1000 * 60)))]. *)
Definition elapsedMinutes (now startTime : Z) : Z :=
  (now - startTime) / (1000 * 60).

Definition remainingMinutes (duration_minutes now startTime : Z) : Z :=
  Z.max 0 (duration_minutes - elapsedMinutes now startTime).

(** [answersData?.forEach(answer => existingAnswers[answer.question_id] =
    answer.selected_answer)] *)
Definition existingAnswers (answersData : list StudentAnswer)
  : gmap string string :=
  fold_left (fun m r => <[sa_question_id r := sa_selected_answer r]> m)
    answersData ∅.

(** The [catch] of [fetchExamData], followed by its [finally]. *)
Definition failed_to_load (st : state) : state :=
  setLoading false (navigate RDashboard (toast "Failed to load exam" st)).

Definition fetchExamData (examId userId : string) (now : Z) (new_id : string)
    (db : Database) (st : state) : Database * state :=
  match single (exams_by_id examId db) with
  | None => (db, failed_to_load st)
  | Some examData =>
      if negb (e_is_active examData) then
        (db, setLoading false
               (navigate RDashboard
                  (toast "This exam is not currently active" st)))
      else
        let st1 := setExam (Some examData) st in
        let '(db2, st2) :=
          match single (in_progress_attempts examId userId db) with
          | Some attemptData =>
              let remaining :=
                remainingMinutes (e_duration_minutes examData) now
                  (a_started_at attemptData) in
              let answersData :=
                filter (fun r => sa_attempt_id r = a_id attemptData)
                  (student_answers db) in
              (db,
               setAnswers (existingAnswers answersData)
                 (setTimeRemaining (remaining * 60)
                    (setCurrentAttempt (Some attemptData) st1)))
          | None =>
              let newAttempt :=
                new_attempt new_id examId userId now (e_total_marks examData) in
              (insert_attempt newAttempt db,
               setTimeRemaining (e_duration_minutes examData * 60)
                 (setCurrentAttempt (Some newAttempt) st1))
          end in
        (db2, setLoading false (setQuestions (questions_of_exam examId db2) st2))
  end.

(** [handleAnswerSelect]: the local answer sheet is updated first; the
    upsert carries [currentAttempt?.id] and nothing about the status
    of the attempt, which the page does not read: what the backend
    refuses ends in the toast of the [catch].  Without a current
    attempt there is no identifier for the backend to accept. *)
Definition handleAnswerSelect (userId questionId answer : string)
    (db : Database) (st : state) : Database * state :=
  let st1 := setAnswers (<[questionId := answer]> (answers st)) st in
  match currentAttempt st with
  | Some a =>
      if student_answers_write_allowed db userId (a_id a) then
        (set_student_answers
           (upsert_answer (a_id a) questionId answer (student_answers db)) db,
         st1)
      else (db, toast "Failed to save answer" st1)
  | None => (db, toast "Failed to save answer" st1)
  end.

(** The loop of [handleSubmitExam] over the fetched rows,
    [answersData?.forEach(answer => ...)], with its two counters.  Each
    round fires the update of [is_correct] for the row of that
    question and does not wait for it.  Reading [correct_answer] of a
    missing question throws: the loop stops there with no score, and
    the updates already fired remain. *)
Fixpoint gradeAnswers (attemptId : string)
    (rows : list (StudentAnswer * option Question))
    (score correctAnswers : Z) (tbl : list StudentAnswer)
  : list StudentAnswer * option (Z * Z) :=
  match rows with
  | [] => (tbl, Some (score, correctAnswers))
  | (answer, None) :: _ => (tbl, None)
  | (answer, Some q) :: rest =>
      let isCorrect :=
        bool_decide (sa_selected_answer answer = q_correct_answer q) in
      let score' := if isCorrect then score + q_marks q else score in
      let correctAnswers' :=
        if isCorrect then correctAnswers + 1 else correctAnswers in
      let tbl' :=
        update_where (same_answer_key attemptId (sa_question_id answer))
          (set_is_correct isCorrect) tbl in
      gradeAnswers attemptId rest score' correctAnswers' tbl'
  end.

(** [exam?.total_marks ? (score / exam.total_marks) * 100 : 0]: a
    division and a multiplication of JavaScript numbers, each rounded. *)
Definition percentage_of (exam : option Exam) (score : Z) : Q :=
  match exam with
  | Some e =>
      if (e_total_marks e =? 0)%Z then 0%Q
      else binary64 (binary64 (inject_Z score / inject_Z (e_total_marks e)) * 100)
  | None => 0%Q
  end.

(** [.update({ status: 'completed', score, percentage, completed_at })] *)
Definition complete_attempt (score : Z) (percentage : Q) (now : Z)
    (a : ExamAttempt) : ExamAttempt :=
  mkExamAttempt (a_id a) (a_exam_id a) (a_student_id a) "completed"
    (a_started_at a) (Some now) (Some score) (Some percentage)
    (a_total_marks a).

(** The [catch] of [handleSubmitExam]. *)
Definition failed_to_submit (st : state) : state :=
  setIsSubmitting false (toast "Failed to submit exam" st).

Definition handleSubmitExam (now : Z) (db : Database) (st : state)
  : Database * state :=
  if isSubmitting st then (db, st)
  else
    let st1 := setIsSubmitting true st in
    match currentAttempt st with
    | None => (db, failed_to_submit st1)
    | Some a =>
        let '(tbl, result) :=
          gradeAnswers (a_id a) (answers_with_questions (a_id a) db) 0 0
            (student_answers db) in
        let db1 := set_student_answers tbl db in
        match result with
        | None => (db1, failed_to_submit st1)
        | Some (score, correctAnswers) =>
            let percentage := percentage_of (exam st) score in
            (set_exam_attempts
               (update_where (fun r => a_id r = a_id a)
                  (complete_attempt score percentage now)
                  (exam_attempts db1)) db1,
             navigate RDashboard (toast "Exam submitted successfully!" st1))
        end
    end.

(** The effect on [[timeRemaining, currentAttempt]]: a positive time
    arms a one-second timer; time zero with a current attempt submits. *)
Inductive TimerAction : Type :=
| TimerTick
| TimerAutoSubmit
| TimerIdle.

Definition timerEffect (st : state) : TimerAction :=
  if (0 <? timeRemaining st)%Z then TimerTick
  else if (timeRemaining st =? 0)%Z && bool_decide (is_Some (currentAttempt st))
  then TimerAutoSubmit
  else TimerIdle.

Definition runTimerEffect (now : Z) (db : Database) (st : state)
  : Database * state :=
  match timerEffect st with
  | TimerTick => (db, setTimeRemaining (timeRemaining st - 1) st)
  | TimerAutoSubmit => handleSubmitExam now db st
  | TimerIdle => (db, st)
  end.
(** *** The rest of the page: question navigation, views, mounting *)

Definition setCurrentQuestionIndex (v : Z) (st : state) : state :=
  mkState (exam st) (questions st) (currentAttempt st) v
    (answers st) (timeRemaining st) (loading st) (isSubmitting st)
    (toasts st) (location st).

(** [setCurrentQuestionIndex(prev => Math.max(0, prev - 1))] *)
Definition previousQuestion (st : state) : state :=
  setCurrentQuestionIndex (Z.max 0 (currentQuestionIndex st - 1)) st.

(** [setCurrentQuestionIndex(prev => Math.min(questions.length - 1, prev + 1))] *)
Definition nextQuestion (st : state) : state :=
  setCurrentQuestionIndex
    (Z.min (Z.of_nat (length (questions st)) - 1) (currentQuestionIndex st + 1))
    st.

(** The numbered buttons, [questions.map((_, index) => ...)]: there is
    one for every index of the list, [setCurrentQuestionIndex(index)]. *)
Definition jumpToQuestion (index : nat) (st : state) : state :=
  if (index <? length (questions st))%nat
  then setCurrentQuestionIndex (Z.of_nat index) st
  else st.

(** [questions[currentQuestionIndex]], undefined outside the list. *)
Definition currentQuestion (st : state) : option Question :=
  if (0 <=? currentQuestionIndex st)%Z
  then questions st !! Z.to_nat (currentQuestionIndex st)
  else None.

(** [Object.keys(answers).length] *)
Definition answeredQuestions (st : state) : nat := size (answers st).

(** What the component renders, by the guards before its [return]:
    [userProfile?.role !== 'student'], [loading],
    [!exam || questions.length === 0]. *)
Inductive View : Type :=
| ViewAccessDenied
| ViewLoading
| ViewNotAvailable
| ViewExam.

Definition view (role : option string) (st : state) : View :=
  if negb (bool_decide (role = Some "student")) then ViewAccessDenied
  else if loading st then ViewLoading
  else if negb (bool_decide (is_Some (exam st)))
          || (length (questions st) =? 0)%nat then ViewNotAvailable
  else ViewExam.

(** [useEffect(() => { if (user && userProfile && examId) fetchExamData() },
    [user, userProfile, examId])]: the load runs for every signed-in
    user with a profile, whatever the role of the profile. *)
Definition mountEffect (user : option string) (userProfile : option Profile)
    (examId : string) (now : Z) (new_id : string) (db : Database) (st : state)
  : Database * state :=
  match user, userProfile with
  | Some userId, Some _ =>
      if truthy examId then fetchExamData examId userId now new_id db st
      else (db, st)
  | _, _ => (db, st)
  end.

(** The timer effect, run after each of [k] successive renders. *)
Fixpoint runTimer (k : nat) (now : Z) (db : Database) (st : state)
  : Database * state :=
  match k with
  | O => (db, st)
  | S k' =>
      let '(db', st') := runTimerEffect now db st in
      runTimer k' now db' st'
  end.

(** [formatTime]: the clock of the exam page.  [Math.floor] of a
    quotient by a positive constant is [Z.div], the remainder [%]
    truncates like [Z.rem], and [toString] prints a decimal numeral,
    with a leading minus sign for a negative number. *)
Definition toString (n : Z) : string :=
  NilZero.string_of_int (Z.to_int n).

(** [s.padStart(2, '0')] *)
Definition padStart2 (s : string) : string :=
  match String.length s with
  | O => "00"
  | S O => String "0" s
  | _ => s
  end.

Definition formatTime (seconds : Z) : string :=
  let hours := seconds / 3600 in
  let minutes := Z.rem seconds 3600 / 60 in
  let secs := Z.rem seconds 60 in
  if (0 <? hours)%Z
  then toString hours +:+ ":" +:+ padStart2 (toString minutes)
       +:+ ":" +:+ padStart2 (toString secs)
  else toString minutes +:+ ":" +:+ padStart2 (toString secs).

End ExamPage.

(** ** Completed attempts, latest first *)

(** The order of [.order('completed_at', { ascending: false })]; a row
    without the time comes before the rows that have one. *)
Definition completed_at_desc (a b : ExamAttempt) : Prop :=
  match a_completed_at a, a_completed_at b with
  | None, _ => True
  | Some _, None => False
  | Some x, Some y => y <= x
  end.

#[global] Instance completed_at_desc_dec : RelDecision completed_at_desc.
Proof.
  intros a b. unfold completed_at_desc.
  destruct (a_completed_at a), (a_completed_at b); apply _.
Defined.

(** [.from('exam_attempts').select(...).eq('student_id', userId)
      .eq('status', 'completed').order('completed_at', { ascending: false })] *)
Definition completed_attempts_of (userId : string) (db : Database)
  : list ExamAttempt :=
  merge_sort completed_at_desc
    (filter (fun a => a_student_id a = userId /\ a_status a = "completed")
       (exam_attempts db)).

(** [Math.round(a / b)] for integers [a] and [b > 0]: the nearest
    integer, a half going up. *)
Definition round_div (a b : Z) : Z := (2 * a + b) / (2 * b).

(** ** The dashboard *)

Module Dashboard.

Record state : Type := mkState {
  exams : list Exam;
  toasts : list string;
  location : Route
}.

Definition initial : state := mkState [] [] RDashboard.

Definition setExams (v : list Exam) (st : state) : state :=
  mkState v (toasts st) (location st).
Definition toast (msg : string) (st : state) : state :=
  mkState (exams st) (toasts st ++ [msg]) (location st).
Definition navigate (r : Route) (st : state) : state :=
  mkState (exams st) (toasts st) r.

Definition fetchExams (db : Database) (st : state) : state :=
  setExams (active_exams db) st.

Definition startExam (examId userId : string) (now : Z) (new_id : string)
    (db : Database) (st : state) : Database * state :=
  match single (in_progress_attempts examId userId db) with
  | Some activeAttempt => (db, navigate (RExam examId) st)
  | None =>
      match single (exams_by_id examId db) with
      | None => (db, toast "Failed to start exam" st)
      | Some examData =>
          (insert_attempt
             (new_attempt new_id examId userId now (e_total_marks examData)) db,
           navigate (RExam examId) st)
      end
  end.

(** The button of an exam card: [onClick={() => onStartExam(exam.id)}],
    [disabled={!exam.is_active}], on the exam as the dashboard listed
    it. *)
Definition ExamCard_click (listed : Exam) (userId : string) (now : Z)
    (new_id : string) (db : Database) (st : state) : Database * state :=
  if e_is_active listed then startExam (e_id listed) userId now new_id db st
  else (db, st).
(** *** The history of the student and its figures *)

Record Stats : Type := mkStats {
  totalExams : Z;
  completedExams : Z;
  averageScore : Z;
  bestScore : Z
}.

Definition initialStats : Stats := mkStats 0 0 0 0.

(** [attempt.score || 0] *)
Definition scoreOrZero (a : ExamAttempt) : Z := default 0 (a_score a).

(** [Math.max(...scores)] of a list that is not empty. *)
Definition maxOf (first : Z) (rest : list Z) : Z := fold_left Z.max rest first.

(** [fetchAttempts]: the state variables [attempts] and [stats] it
    sets; the figures are only written when there is an attempt. *)
Definition fetchAttempts (userId : string) (db : Database) (stats : Stats)
  : list ExamAttempt * Stats :=
  let data := completed_attempts_of userId db in
  (data,
   match data with
   | [] => stats
   | first :: rest =>
       let completed := Z.of_nat (length data) in
       let totalScore := fold_left (fun sum a => sum + scoreOrZero a) data 0 in
       mkStats (totalExams stats) completed (round_div totalScore completed)
         (maxOf (scoreOrZero first) (scoreOrZero <$> rest))
   end).

(** [attempts.find(attempt => attempt.exam_id === examId)?.score]:
    nothing when no attempt is found, else the score of the first. *)
Definition getLastAttemptScore (examId : string) (attempts : list ExamAttempt)
  : option (option Z) :=
  a_score <$> head (filter (fun a => a_exam_id a = examId) attempts).

(** [attempts.some(attempt => attempt.exam_id === examId)] *)
Definition hasAttempted (examId : string) (attempts : list ExamAttempt) : bool :=
  bool_decide (Exists (fun a => a_exam_id a = examId) attempts).

End Dashboard.

(** ** The card of an exam *)

Module ExamCard.

Inductive ScoreColor : Type :=
| ScoreExcellent
| ScoreGood
| ScoreAverage
| ScorePoor.

(** The value of [(score / total) * 100]: a rational, or what
    JavaScript makes of a division by zero. *)
Inductive Percentage : Type :=
| Finite (q : Q)
| Infinity
| NegInfinity
| NaN.

Definition percentage (score total : Z) : Percentage :=
  if (total =? 0)%Z then
    if (0 <? score)%Z then Infinity
    else if (score <? 0)%Z then NegInfinity
    else NaN
  else Finite (inject_Z score / inject_Z total * 100)%Q.

(** [percentage >= bound]; a comparison with NaN is false. *)
Definition atLeast (p : Percentage) (bound : Q) : bool :=
  match p with
  | Finite q => Qle_bool bound q
  | Infinity => true
  | NegInfinity => false
  | NaN => false
  end.

Definition getScoreColor (score total : Z) : ScoreColor :=
  let p := percentage score total in
  if atLeast p 90 then ScoreExcellent
  else if atLeast p 75 then ScoreGood
  else if atLeast p 60 then ScoreAverage
  else ScorePoor.

(** The label of the button: [hasAttempted ? 'Retake Exam' : 'Start Exam']. *)
Definition buttonLabel (hasAttempted : bool) : string :=
  if hasAttempted then "Retake Exam" else "Start Exam".
End ExamCard.

(** ** The question manager of an exam *)

Module QuestionManager.

Record state : Type := mkState {
  questions : list Question;
  loading : bool;
  isDialogOpen : bool;
  editingQuestion : option Question;
  questionForm : QuestionForm;
  toasts : list string;
  (** [questions] was set since the effect on [[questions]] last ran *)
  questionsChanged : bool
}.

Definition emptyForm (order_number : Z) : QuestionForm :=
  mkQuestionForm EmptyString EmptyString EmptyString EmptyString EmptyString
    EmptyString 1 order_number.

(** The state at the first render: the effect on [[questions]] is due. *)
Definition initial : state :=
  mkState [] false false None (emptyForm 1) [] true.

Definition setQuestions (v : list Question) (st : state) : state :=
  mkState v (loading st) (isDialogOpen st) (editingQuestion st)
    (questionForm st) (toasts st) true.
Definition setLoading (v : bool) (st : state) : state :=
  mkState (questions st) v (isDialogOpen st) (editingQuestion st)
    (questionForm st) (toasts st) (questionsChanged st).
Definition setIsDialogOpen (v : bool) (st : state) : state :=
  mkState (questions st) (loading st) v (editingQuestion st)
    (questionForm st) (toasts st) (questionsChanged st).
Definition setEditingQuestion (v : option Question) (st : state) : state :=
  mkState (questions st) (loading st) (isDialogOpen st) v
    (questionForm st) (toasts st) (questionsChanged st).
Definition setQuestionForm (v : QuestionForm) (st : state) : state :=
  mkState (questions st) (loading st) (isDialogOpen st) (editingQuestion st)
    v (toasts st) (questionsChanged st).
Definition toast (msg : string) (st : state) : state :=
  mkState (questions st) (loading st) (isDialogOpen st) (editingQuestion st)
    (questionForm st) (toasts st ++ [msg]) (questionsChanged st).
Definition effectDone (st : state) : state :=
  mkState (questions st) (loading st) (isDialogOpen st) (editingQuestion st)
    (questionForm st) (toasts st) false.

Definition fetchQuestions (examId : string) (db : Database) (st : state)
  : state :=
  setLoading false (setQuestions (questions_of_exam examId db) (setLoading true st)).

Definition resetForm (st : state) : state :=
  setEditingQuestion None
    (setQuestionForm (emptyForm (Z.of_nat (length (questions st)) + 1)) st).

Definition handleEdit (question : Question) (st : state) : state :=
  setIsDialogOpen true
    (setQuestionForm
       (mkQuestionForm (q_question_text question) (q_option_a question)
          (q_option_b question) (q_option_c question) (q_option_d question)
          (q_correct_answer question) (q_marks question)
          (q_order_number question))
       (setEditingQuestion (Some question) st)).

(** [handleSubmit]: the form is reset with the length of the list as
    it was before the fetch; the fetch then replaces the list. *)
Definition handleSubmit (examId new_id : string) (db : Database) (st : state)
  : Database * state :=
  if negb (truthy (f_correct_answer (questionForm st))) then
    (db, toast "Please select the correct answer" st)
  else
    let '(db', st1) :=
      match editingQuestion st with
      | Some q =>
          (update_question (q_id q) (questionForm st) db,
           toast "Question updated successfully" st)
      | None =>
          (insert_question new_id examId (questionForm st) db,
           toast "Question created successfully" st)
      end in
    (db', fetchQuestions examId db' (resetForm (setIsDialogOpen false st1))).

Definition handleDelete (confirmed : bool) (examId questionId : string)
    (db : Database) (st : state) : Database * state :=
  if negb confirmed then (db, st)
  else
    let db' := delete_question questionId db in
    (db', fetchQuestions examId db' (toast "Question deleted successfully" st)).

(** [questions.reduce((sum, q) => sum + q.marks, 0)] *)
Definition totalMarks (qs : list Question) : Z :=
  fold_left (fun sum q => sum + q_marks q) qs 0.

Definition updateExamTotalMarks (examId : string) (db : Database) (st : state)
  : Database :=
  update_exam_total_marks examId (totalMarks (questions st)) db.

(** [useEffect(() => { if (questions.length > 0) updateExamTotalMarks() },
    [questions])]: runs after a render in which [questions] was set. *)
Definition questionsEffect (examId : string) (db : Database) (st : state)
  : Database * state :=
  if questionsChanged st then
    ((if (0 <? length (questions st))%nat
      then updateExamTotalMarks examId db st else db),
     effectDone st)
  else (db, st).

(** A handler together with the effects of the render it causes. *)
Definition settled (examId : string) (r : Database * state) : Database * state :=
  questionsEffect examId r.1 r.2.

(** Mounting the component on an exam: first render, then the fetch of
    the effect on [[examId]] and the render it causes. *)
Definition mount (examId : string) (db : Database) : Database * state :=
  let '(db1, st1) := questionsEffect examId db initial in
  settled examId (db1, fetchQuestions examId db1 st1).
End QuestionManager.

(** ** The admin panel *)

Module AdminPanel.

Record state : Type := mkState {
  toasts : list string
}.

Definition toast (msg : string) (st : state) : state :=
  mkState (toasts st ++ [msg]).

Definition createSubject (new_id : string) (subjectForm : Subject)
    (db : Database) (st : state) : Database * state :=
  (insert_subject
     (mkSubject new_id (s_name subjectForm) (s_description subjectForm)
        (s_is_active subjectForm)) db,
   toast "Subject created successfully" st).

Definition updateSubject (id : string) (is_active : bool) (db : Database)
    (st : state) : Database * state :=
  (update_subject_is_active id is_active db,
   toast "Subject updated successfully" st).

Definition deleteSubject (confirmed : bool) (id : string) (db : Database)
    (st : state) : Database * state :=
  if negb confirmed then (db, st)
  else (delete_subject id db, toast "Subject deleted successfully" st).

(** [createExam]: the form of a new exam carries [total_marks] as
    typed in (100 unless changed). *)
Definition createExam (new_id : string) (examForm : Exam) (db : Database)
    (st : state) : Database * state :=
  if negb (truthy (e_subject_id examForm)) then
    (db, toast "Please select a subject" st)
  else
    (insert_exam
       (mkExam new_id (e_subject_id examForm) (e_title examForm)
          (e_duration_minutes examForm) (e_total_marks examForm)
          (e_passing_marks examForm) (e_is_active examForm)) db,
     toast "Exam created successfully" st).

Definition updateExam (id : string) (updates : ExamUpdates) (db : Database)
    (st : state) : Database * state :=
  (update_exam id updates db, toast "Exam updated successfully" st).

Definition deleteExam (confirmed : bool) (id : string) (db : Database)
    (st : state) : Database * state :=
  if negb confirmed then (db, st)
  else (delete_exam id db, toast "Exam deleted successfully" st).

(** [toggleUserRole], issued by identity [uid]. *)
Definition toggleUserRole (uid userId currentRole : string) (db : Database)
    (st : state) : Database * state :=
  let newRole := if String.eqb currentRole "admin" then "student" else "admin" in
  match profiles_update_role db uid userId newRole with
  | Some rows =>
      (set_profiles rows db, toast ("User role updated to " +:+ newRole) st)
  | None => (db, toast "Failed to update user role" st)
  end.
End AdminPanel.

(** ** Runs of the application *)

(** One operation of one user against the backend, from any state of
    the component that issues it. *)
Inductive step : Database -> Database -> Prop :=
| step_fetchExamData examId userId now new_id db st :
    step db (ExamPage.fetchExamData examId userId now new_id db st).1
| step_handleAnswerSelect userId questionId answer db st :
    step db (ExamPage.handleAnswerSelect userId questionId answer db st).1
| step_handleSubmitExam now db st :
    step db (ExamPage.handleSubmitExam now db st).1
| step_timer now db st :
    step db (ExamPage.runTimerEffect now db st).1
| step_startExam examId userId now new_id db st :
    step db (Dashboard.startExam examId userId now new_id db st).1
| step_question_submit examId new_id db st :
    step db (QuestionManager.settled examId
               (QuestionManager.handleSubmit examId new_id db st)).1
| step_question_delete confirmed examId questionId db st :
    step db (QuestionManager.settled examId
               (QuestionManager.handleDelete confirmed examId questionId db st)).1
| step_question_mount examId db :
    step db (QuestionManager.mount examId db).1
| step_createSubject new_id subjectForm db st :
    step db (AdminPanel.createSubject new_id subjectForm db st).1
| step_updateSubject id is_active db st :
    step db (AdminPanel.updateSubject id is_active db st).1
| step_deleteSubject confirmed id db st :
    step db (AdminPanel.deleteSubject confirmed id db st).1
| step_createExam new_id examForm db st :
    step db (AdminPanel.createExam new_id examForm db st).1
| step_updateExam id updates db st :
    step db (AdminPanel.updateExam id updates db st).1
| step_deleteExam confirmed id db st :
    step db (AdminPanel.deleteExam confirmed id db st).1
| step_toggleUserRole uid userId currentRole db st :
    step db (AdminPanel.toggleUserRole uid userId currentRole db st).1.

(** Sequential runs: operations one after the other, none interleaved. *)
Inductive run : Database -> Database -> Prop :=
| run_nil db : run db db
| run_snoc db1 db2 db3 : run db1 db2 -> step db2 db3 -> run db1 db3.

(** ** A small school to run the pages on *)

Definition demo_exam : Exam := mkExam "e1" "sub1" "Algebra" 30 10 6 true.

Definition demo_question : Question :=
  mkQuestion "q1" "e1" "2 + 2 = ?" "3" "4" "5" "6" "B" 10 1.

Definition demo_db : Database :=
  mkDatabase
    [mkProfile "s1" "Sam" "sam@mail.com" "student";
     mkProfile "adm" "Ada" "ada@neu.edu.ph" "admin"]
    [mkSubject "sub1" "Mathematics" "All of it" true]
    [demo_exam] [demo_question] [] [].

(** Student [s1] opens the exam at time 0 and gets attempt [a1]. *)
Definition demo_started : Database * ExamPage.state :=
  ExamPage.fetchExamData "e1" "s1" 0 "a1" demo_db (ExamPage.initial "e1").

(** The student selects an option of question [q1]. *)
Definition demo_answered (choice : string) : Database * ExamPage.state :=
  ExamPage.handleAnswerSelect "s1" "q1" choice demo_started.1 demo_started.2.

(** The student submits one minute after the start. *)
Definition demo_submitted (choice : string) : Database * ExamPage.state :=
  ExamPage.handleSubmitExam 60000 (demo_answered choice).1 (demo_answered choice).2.

(** While the student is in the exam, an admin opens the question
    manager of the exam and raises question [q1] to 20 marks.  The
    effect of the manager brings [total_marks] of the stored exam to 20;
    the exam the student's page holds is the one it loaded. *)
Definition demo_regraded : Database * QuestionManager.state :=
  let m := QuestionManager.mount "e1" (demo_answered "B").1 in
  let st1 := QuestionManager.handleEdit demo_question m.2 in
  let st2 :=
    QuestionManager.setQuestionForm
      (mkQuestionForm "2 + 2 = ?" "3" "4" "5" "6" "B" 20 1) st1 in
  QuestionManager.settled "e1" (QuestionManager.handleSubmit "e1" "q2" m.1 st2).

(** The student then submits. *)
Definition demo_submitted_after_regrade : Database * ExamPage.state :=
  ExamPage.handleSubmitExam 60000 demo_regraded.1 (demo_answered "B").2.

(** The student leaves without submitting and reopens the 30-minute
    exam 40 minutes after the start; the timer effect of the page then
    runs. *)
Definition demo_reopened : Database * ExamPage.state :=
  ExamPage.fetchExamData "e1" "s1" (40 * 60000) "a2" (demo_answered "B").1
    (ExamPage.initial "e1").

Definition demo_timed_out : Database * ExamPage.state :=
  ExamPage.runTimerEffect (40 * 60000) demo_reopened.1 demo_reopened.2.

(** The dashboard lists the exam while it is active; an admin then
    deactivates it; the student presses the button of the listed card;
    the exam page opens. *)
Definition deactivate : ExamUpdates := mkExamUpdates None None None None (Some false).

Definition demo_listed : Dashboard.state :=
  Dashboard.fetchExams demo_db Dashboard.initial.

Definition demo_deactivated : Database :=
  (AdminPanel.updateExam "e1" deactivate demo_db (AdminPanel.mkState [])).1.

Definition demo_clicked : Database * Dashboard.state :=
  Dashboard.ExamCard_click demo_exam "s1" 0 "a1" demo_deactivated demo_listed.

Definition demo_opened_inactive : Database * ExamPage.state :=
  ExamPage.fetchExamData "e1" "s1" 1 "a2" demo_clicked.1 (ExamPage.initial "e1").

(** An admin opens the question manager of the exam and deletes its
    only question. *)
Definition demo_last_deleted : Database * QuestionManager.state :=
  let m := QuestionManager.mount "e1" demo_db in
  QuestionManager.settled "e1"
    (QuestionManager.handleDelete true "e1" "q1" m.1 m.2).

(** The student, signed in as [s1], sends the request of
    [toggleUserRole] for the own row. *)
Definition demo_self_promoted : Database * AdminPanel.state :=
  AdminPanel.toggleUserRole "s1" "s1" "student" demo_db (AdminPanel.mkState []).

(** A second tab of the exam page, loaded before the submit, selects
    another option after the attempt was submitted from the first. *)
Definition demo_late_answer : Database * ExamPage.state :=
  ExamPage.handleAnswerSelect "s1" "q1" "A" (demo_submitted "B").1
    (demo_answered "B").2.

(** What an attempt shows of its result. *)
Definition attempt_result (a : ExamAttempt) : string * option Z * option Q :=
  (a_status a, a_score a, Qred <$> a_percentage a).

(** The school with the duration of the exam set to minus five minutes. *)
Definition demo_db_negative_duration : Database :=
  update_exam "e1" (mkExamUpdates None (Some (-5)) None None None) demo_db.

(** An admin opens the question manager of the exam and adds a second
    question, worth 5 marks. *)
Definition demo_second_question : Database * QuestionManager.state :=
  let m := QuestionManager.mount "e1" demo_db in
  QuestionManager.settled "e1"
    (QuestionManager.handleSubmit "e1" "q2" m.1
       (QuestionManager.setQuestionForm
          (mkQuestionForm "3 + 3 = ?" "5" "6" "7" "8" "B" 5 2) m.2)).

(** The backends of the run in which the student opens the exam and
    answers, an admin opens the question manager and regrades the
    question, and the student submits. *)
Definition demo_trace : list Database :=
  [demo_started.1; (demo_answered "B").1;
   (QuestionManager.mount "e1" (demo_answered "B").1).1;
   demo_regraded.1; demo_submitted_after_regrade.1].

(** A second exam, of 25 marks: a question worth 7 and one worth 18.
    The student opens it, answers the first right and the second wrong,
    and submits. *)
Definition demo_quiz : Exam := mkExam "e2" "sub1" "Geometry" 30 25 15 true.

Definition demo_quiz_db : Database :=
  mkDatabase
    [mkProfile "s1" "Sam" "sam@mail.com" "student"]
    [mkSubject "sub1" "Mathematics" "All of it" true]
    [demo_quiz]
    [mkQuestion "q3" "e2" "Sides of a triangle?" "3" "4" "5" "6" "A" 7 1;
     mkQuestion "q4" "e2" "Sides of a square?" "3" "4" "5" "6" "B" 18 2]
    [] [].

Definition demo_quiz_submitted : Database * ExamPage.state :=
  let r0 :=
    ExamPage.fetchExamData "e2" "s1" 0 "a5" demo_quiz_db (ExamPage.initial "e2") in
  let r1 := ExamPage.handleAnswerSelect "s1" "q3" "A" r0.1 r0.2 in
  let r2 := ExamPage.handleAnswerSelect "s1" "q4" "C" r1.1 r1.2 in
  ExamPage.handleSubmitExam 60000 r2.1 r2.2.

(** ** Vocabulary of the properties *)

(** [s] ends with [t] when letter case is ignored: some suffix of [s]
    and [t] have the same lower-case form. *)
Definition ends_with_ignoring_case (s t : string) : Prop :=
  exists p u, s = p +:+ u /\ toLowerCase u = toLowerCase t.

(** The scoring rule in the words of the specification: the score is
    the sum of [marks] over the answers whose selected answer is the
    correct answer of their question; the percentage is
    [100 * score / total_marks], and 0 when [total_marks] is 0. *)
Definition answered_correctly (row : StudentAnswer * Question) : Prop :=
  sa_selected_answer row.1 = q_correct_answer row.2.

#[global] Instance answered_correctly_dec row : Decision (answered_correctly row).
Proof. unfold answered_correctly. apply _. Defined.

Definition sumZ (l : list Z) : Z := foldr Z.add 0 l.

Definition spec_score (rows : list (StudentAnswer * Question)) : Z :=
  sumZ ((fun row => q_marks row.2) <$> filter answered_correctly rows).

Definition spec_percentage (score total_marks : Z) : Q :=
  if decide (total_marks = 0) then 0%Q
  else (inject_Z (100 * score) / inject_Z total_marks)%Q.

(** A number on at most 53 bits, scaled by a power of two: a binary64
    number, when the exponent is within the format. *)
Definition representable (b : Q) : Prop :=
  exists n k, (0 < n < 2 ^ 53)%Z /\ (b == inject_Z n * 2 ^ k)%Q.

(** The percentage by the operations of the standard library's
    specification of IEEE 754 arithmetic, at the parameters of binary64
    (53 bits of precision, exponents below 1024): the integers as
    numbers, their quotient, its product with 100, and the rational the
    result stands for. *)
Definition number_of_Z (z : Z) : SpecFloat.spec_float :=
  SpecFloat.binary_normalize 53 1024 z 0 false.

Definition rational_of_number (f : SpecFloat.spec_float) : option Q :=
  match f with
  | SpecFloat.S754_zero _ => Some 0%Q
  | SpecFloat.S754_finite s m e =>
      Some (inject_Z (if s then Z.neg m else Z.pos m) * 2 ^ e)%Q
  | _ => None
  end.

Definition percentage_IEEE754 (score total : Z) : option Q :=
  rational_of_number
    (SpecFloat.SFmul 53 1024
       (SpecFloat.SFdiv 53 1024 (number_of_Z score) (number_of_Z total))
       (number_of_Z 100)).

(** A fetched row whose question is there. *)
Definition joined (row : StudentAnswer * Question)
  : StudentAnswer * option Question :=
  (row.1, Some row.2).

(** [total_marks] of the exam is the sum of the marks of its questions. *)
Definition marks_in_sync (examId : string) (db : Database) : Prop :=
  forall e, e ∈ exams db -> e_id e = examId ->
    e_total_marks e = sumZ (q_marks <$> exam_questions examId db).

(** At most one attempt in progress for every student and exam. *)
Definition at_most_one_in_progress (db : Database) : Prop :=
  forall examId userId,
    (length (in_progress_attempts examId userId db) <= 1)%nat.

(** What one operation can do to the table of attempts: nothing; add
    the row of a new attempt, after the lookup of an attempt in progress
    for the pair found none, with the marks of an exam of that
    identifier; complete the rows of one identifier; remove rows. *)
Inductive attempts_change (db : Database) : list ExamAttempt -> Prop :=
| change_none : attempts_change db (exam_attempts db)
| change_insert new_id examId userId now e :
    single (in_progress_attempts examId userId db) = None ->
    e ∈ exams db -> e_id e = examId ->
    attempts_change db
      (exam_attempts db
       ++ [new_attempt new_id examId userId now (e_total_marks e)])
| change_complete id score percentage now :
    attempts_change db
      (update_where (fun r => a_id r = id)
         (ExamPage.complete_attempt score percentage now) (exam_attempts db))
| change_delete (P : ExamAttempt -> Prop) `{!forall a, Decision (P a)} :
    attempts_change db (delete_where P (exam_attempts db)).

(** The same attempt at two moments: the columns that identify it. *)
Definition same_attempt (a a' : ExamAttempt) : Prop :=
  a_id a' = a_id a /\ a_exam_id a' = a_exam_id a
  /\ a_student_id a' = a_student_id a /\ a_started_at a' = a_started_at a.

(** The backends a run passes through after [db], in their order: each
    comes from the one before it by one operation. *)
Fixpoint trace (db : Database) (t : list Database) : Prop :=
  match t with
  | [] => True
  | db' :: t' => step db db' /\ trace db' t'
  end.

(** The second table is made of rows of the first, in their order, each
    with the identity and the [total_marks] it has in the first; the
    other rows of the first are gone. *)
Inductive marks_kept : list ExamAttempt -> list ExamAttempt -> Prop :=
| kept_nil : marks_kept [] []
| kept_row a a' l l' :
    same_attempt a a' -> a_total_marks a' = a_total_marks a ->
    marks_kept l l' -> marks_kept (a :: l) (a' :: l')
| kept_gone a l l' : marks_kept l l' -> marks_kept (a :: l) l'.

(** The operation from [db] to [db'] created the attempt [a0]: it added
    the row to the table, with the [total_marks] of the exam that the
    lookup by the identifier of its exam finds in [db]. *)
Definition created_by (db db' : Database) (a0 : ExamAttempt) : Prop :=
  step db db'
  /\ exam_attempts db' = (exam_attempts db ++ [a0])%list
  /\ exists e, single (exams_by_id (a_exam_id a0) db) = Some e
               /\ a_total_marks a0 = e_total_marks e.

(** The attempt [a'] was created between the moments [i] and [j] of the
    run [db :: t], and has the [total_marks] it was created with. *)
Definition created_since (db : Database) (t : list Database) (i j : nat)
    (a' : ExamAttempt) : Prop :=
  exists k dbk dbk' a0,
    (i <= k < j)%nat
    /\ (db :: t) !! k = Some dbk /\ (db :: t) !! S k = Some dbk'
    /\ created_by dbk dbk' a0
    /\ same_attempt a0 a' /\ a_total_marks a' = a_total_marks a0.

(** A sign-in form the page lets through: every field filled and, for
    the role [admin], an address of the domain. *)
Definition signIn_form_valid (d : SignInData) : Prop :=
  si_email d <> EmptyString /\ si_password d <> EmptyString
  /\ si_role d <> EmptyString
  /\ (si_role d = "admin" -> ends_with_ignoring_case (si_email d) "@neu.edu.ph").

(** A sign-up form the page lets through: every field filled, for the
    role [admin] an address of the domain, the password typed twice
    alike and of six UTF-16 code units at least. *)
Definition signUp_form_valid (d : SignUpData) : Prop :=
  su_email d <> EmptyString /\ su_password d <> EmptyString
  /\ su_fullName d <> EmptyString /\ su_confirmPassword d <> EmptyString
  /\ su_role d <> EmptyString
  /\ (su_role d = "admin" -> ends_with_ignoring_case (su_email d) "@neu.edu.ph")
  /\ su_password d = su_confirmPassword d
  /\ (6 <= js_length (su_password d))%nat.

(** The index of the current question points into the list. *)
Definition index_in_bounds (st : ExamPage.state) : Prop :=
  0 <= ExamPage.currentQuestionIndex st
       < Z.of_nat (length (ExamPage.questions st)).

(** Two rows of [student_answers] that differ at most in [is_correct]. *)
Definition same_but_flag (r r' : StudentAnswer) : Prop :=
  sa_attempt_id r' = sa_attempt_id r /\ sa_question_id r' = sa_question_id r
  /\ sa_selected_answer r' = sa_selected_answer r.

(** Whether an answer is the correct answer of its question. *)
Definition verdict (row : StudentAnswer * Question) : bool :=
  bool_decide (sa_selected_answer row.1 = q_correct_answer row.2).

(** An identity passes every admin policy, on every row. *)
Definition passes_admin_policies (db : Database) (uid : string) : Prop :=
  (forall row, admin_can_manage_all_profiles db uid row = true)
  /\ (forall row, admins_can_manage_exams db uid row = true)
  /\ (forall row, admins_can_manage_questions db uid row = true)
  /\ (forall row, admins_can_manage_subjects db uid row = true)
  /\ (forall row, admins_can_read_all_attempts db uid row = true)
  /\ (forall row, admins_can_read_all_answers db uid row = true).

(** An identity passes no admin policy, on any row. *)
Definition fails_admin_policies (db : Database) (uid : string) : Prop :=
  (forall row, admin_can_manage_all_profiles db uid row = false)
  /\ (forall row, admins_can_manage_exams db uid row = false)
  /\ (forall row, admins_can_manage_questions db uid row = false)
  /\ (forall row, admins_can_manage_subjects db uid row = false)
  /\ (forall row, admins_can_read_all_attempts db uid row = false)
  /\ (forall row, admins_can_read_all_answers db uid row = false).

(** The role the button of the user list asks for. *)
Definition flipped_role (role : string) : string :=
  if String.eqb role "admin" then "student" else "admin".

(** Reading a clock text back: the fields between the colons, each
    read as a decimal numeral, weighted as hours, minutes and seconds. *)
Fixpoint fields (s : string) : list string :=
  match s with
  | EmptyString => [EmptyString]
  | String c s' =>
      if Ascii.eqb c ":" then EmptyString :: fields s'
      else match fields s' with
           | f :: fs => String c f :: fs
           | [] => [String c EmptyString]
           end
  end.

Definition readNumber (s : string) : option Z :=
  Z.of_int <$> NilZero.int_of_string s.

Definition readTime (s : string) : option Z :=
  match fields s with
  | [h; m; x] =>
      h' ← readNumber h; m' ← readNumber m; x' ← readNumber x;
      Some (h' * 3600 + m' * 60 + x')
  | [m; x] =>
      m' ← readNumber m; x' ← readNumber x; Some (m' * 60 + x')
  | _ => None
  end.

Fixpoint no_colon (s : string) : bool :=
  match s with
  | EmptyString => true
  | String c s' => negb (Ascii.eqb c ":") && no_colon s'
  end.

(** * Properties *)

(** ** Strings *)

Lemma toLowerCase_app (s t : string) :
  toLowerCase (s +:+ t) = toLowerCase s +:+ toLowerCase t.
Proof. induction s as [|c s IH]; simpl; [done|]. by rewrite IH. Qed.

Lemma toLowerCase_length (s : string) :
  String.length (toLowerCase s) = String.length s.
Proof. induction s as [|c s IH]; simpl; [done|]. by rewrite IH. Qed.

Lemma string_app_length (s t : string) :
  String.length (s +:+ t) = (String.length s + String.length t)%nat.
Proof. induction s as [|c s IH]; simpl; [done|]. by rewrite IH. Qed.

Lemma substring_all (t : string) : substring 0 (String.length t) t = t.
Proof. induction t as [|c t IH]; simpl; [done|]. by rewrite IH. Qed.

Lemma substring_app_skip (p t : string) (m : nat) :
  substring (String.length p) m (p +:+ t) = substring 0 m t.
Proof. induction p as [|c p IH]; simpl; done. Qed.

Lemma substring_split (s : string) (k : nat) :
  (k <= String.length s)%nat ->
  s = substring 0 k s +:+ substring k (String.length s - k) s.
Proof.
  revert k. induction s as [|c s IH]; intros k Hk; simpl in *.
  - destruct k; [done|lia].
  - destruct k as [|k]; simpl.
    + by rewrite substring_all.
    + change (String c s
              = String c (substring 0 k s
                          +:+ substring k (String.length s - k) s)).
      f_equal. apply IH. lia.
Qed.

Lemma substring_prefix_length (s : string) (k : nat) :
  (k <= String.length s)%nat -> String.length (substring 0 k s) = k.
Proof.
  revert k. induction s as [|c s IH]; intros k Hk; simpl in *.
  - destruct k; [done|lia].
  - destruct k as [|k]; simpl; [done|]. rewrite IH; [done|lia].
Qed.

Lemma string_app_inj_length (a a' b b' : string) :
  String.length a = String.length a' -> a +:+ b = a' +:+ b' -> b = b'.
Proof.
  revert a'. induction a as [|c a IH]; intros [|c' a'] Hlen Heq;
    simpl in *; try done.
  injection Heq as _ Heq. apply (IH a'); [lia|done].
Qed.

(** [endsWith] decides that the second string is a suffix of the first. *)
Lemma endsWith_true_iff (s t : string) :
  endsWith s t = true <-> exists p, s = p +:+ t.
Proof.
  unfold endsWith. split.
  - destruct (Nat.leb_spec (String.length t) (String.length s)) as [Hle|];
      [|done].
    intros Heq%String.eqb_eq.
    exists (substring 0 (String.length s - String.length t) s).
    pose proof (substring_split s (String.length s - String.length t)) as H.
    replace (String.length s - (String.length s - String.length t))%nat
      with (String.length t) in H by lia.
    rewrite Heq in H. apply H. lia.
  - intros [p ->]. rewrite string_app_length.
    destruct (Nat.leb_spec (String.length t)
                (String.length p + String.length t)) as [_|]; [|lia].
    replace (String.length p + String.length t - String.length t)%nat
      with (String.length p) by lia.
    rewrite substring_app_skip, substring_all. apply String.eqb_refl.
Qed.

(** [isNeuEmail] decides that the address ends with the domain when
    letter case is ignored. *)
Lemma isNeuEmail_true_iff (email : string) :
  isNeuEmail email = true <-> ends_with_ignoring_case email "@neu.edu.ph".
Proof.
  unfold isNeuEmail, ends_with_ignoring_case.
  rewrite endsWith_true_iff. split.
  - intros [p' Hp'].
    assert (String.length p' <= String.length email)%nat as Hk.
    { rewrite <- (toLowerCase_length email), Hp', string_app_length. lia. }
    pose proof (substring_split email _ Hk) as Hsplit.
    eexists _, _. split; [exact Hsplit|].
    rewrite Hsplit, toLowerCase_app in Hp'.
    apply string_app_inj_length in Hp'; [exact Hp'|].
    by rewrite toLowerCase_length, substring_prefix_length.
  - intros (p & u & -> & Hu). exists (toLowerCase p).
    by rewrite toLowerCase_app, Hu.
Qed.

Example isNeuEmail_examples :
  isNeuEmail "Dean@NEU.edu.PH" = true
  /\ isNeuEmail "dean@neu.edu.ph.example.com" = false
  /\ isNeuEmail "neu.edu.ph" = false
  /\ isNeuEmail EmptyString = false.
Proof. vm_compute. done. Qed.

Lemma isNeuEmail_false_iff (email : string) :
  isNeuEmail email = false <-> ~ ends_with_ignoring_case email "@neu.edu.ph".
Proof.
  rewrite <- isNeuEmail_true_iff. destruct (isNeuEmail email); naive_solver.
Qed.

(** ** Binary floating point *)

(** Powers of two. *)
Lemma pow2_pos (e : Z) : (0 < 2 ^ e)%Q.
Proof. by apply Qpower_0_lt. Qed.

Lemma pow2_plus (a b : Z) : (2 ^ (a + b) == 2 ^ a * 2 ^ b)%Q.
Proof. by apply Qpower_plus. Qed.

Lemma pow2_le (a b : Z) : a <= b -> (2 ^ a <= 2 ^ b)%Q.
Proof. intros H. by apply Qpower_le_compat_l. Qed.

Lemma pow2_Z (n : Z) : 0 <= n -> (inject_Z (2 ^ n) == 2 ^ n)%Q.
Proof. intros H. by apply (Zpower_Qpower 2). Qed.

Lemma pow2_S (a : Z) : (2 ^ (a + 1) == 2 * 2 ^ a)%Q.
Proof. rewrite pow2_plus. change (2 ^ 1)%Q with 2%Q. ring. Qed.

(** The nearest integer. *)
Lemma round_half_even_cases (x : Q) :
  let f := Qfloor x in
  (round_half_even x = f /\ (x - inject_Z f <= 1 # 2)%Q)
  \/ (round_half_even x = f + 1 /\ (1 # 2 <= x - inject_Z f)%Q).
Proof.
  intros f. unfold round_half_even. fold f.
  destruct (Qcompare_spec (x - inject_Z f) (1 # 2)) as [H|H|H].
  - rewrite H.
    destruct (Z.even f); [left|right]; split; try done; apply Qle_refl.
  - left. split; [done|]. by apply Qlt_le_weak.
  - right. split; [done|]. by apply Qlt_le_weak.
Qed.

Lemma round_half_even_close (x : Q) :
  (Qabs (inject_Z (round_half_even x) - x) <= 1 # 2)%Q.
Proof.
  pose proof (Qfloor_le x) as Hlo. pose proof (Qlt_floor x) as Hhi.
  rewrite inject_Z_plus in Hhi. change (inject_Z 1) with 1%Q in Hhi.
  apply Qabs_Qle_condition.
  destruct (round_half_even_cases x) as [[-> H]|[-> H]];
    rewrite ?inject_Z_plus; change (inject_Z 1) with 1%Q; split; lra.
Qed.

Lemma round_half_even_le (x : Q) (n : Z) :
  (x <= inject_Z n)%Q -> round_half_even x <= n.
Proof.
  intros Hx. pose proof (Qfloor_le x) as Hlo.
  destruct (round_half_even_cases x) as [[-> H]|[-> H]].
  - rewrite Zle_Qle. lra.
  - assert (inject_Z (Qfloor x) < inject_Z n)%Q as Hlt by lra.
    rewrite <- Zlt_Qlt in Hlt. lia.
Qed.

Lemma round_half_even_ge (x : Q) (n : Z) :
  (inject_Z n <= x)%Q -> n <= round_half_even x.
Proof.
  intros Hx. apply Qfloor_resp_le in Hx. rewrite Qfloor_Z in Hx.
  destruct (round_half_even_cases x) as [[-> H]|[-> H]]; lia.
Qed.

(** The binary logarithm. *)
Lemma Qdiv_le_div (a b c d : Q) :
  (0 < b)%Q -> (0 < d)%Q -> (a * d <= c * b)%Q -> (a / b <= c / d)%Q.
Proof.
  intros Hb Hd H. apply Qle_shift_div_l; [done|].
  setoid_replace (a / b * d)%Q with (a * d / b)%Q using relation Qeq
    by (field; lra).
  by apply Qle_shift_div_r.
Qed.

Lemma Qdiv_lt_div (a b c d : Q) :
  (0 < b)%Q -> (0 < d)%Q -> (a * d < c * b)%Q -> (a / b < c / d)%Q.
Proof.
  intros Hb Hd H. apply Qlt_shift_div_l; [done|].
  setoid_replace (a / b * d)%Q with (a * d / b)%Q using relation Qeq
    by (field; lra).
  by apply Qlt_shift_div_r.
Qed.

Lemma ilog2_spec (q : Q) :
  (0 < q)%Q -> (2 ^ ilog2 q <= q)%Q /\ (q < 2 ^ (ilog2 q + 1))%Q.
Proof.
  destruct q as [n d]. intros Hq.
  assert (0 < n) as Hn by (unfold Qlt in Hq; simpl in Hq; lia).
  unfold ilog2. cbn [Qnum Qden].
  set (a := Z.log2 n). set (b := Z.log2 (Z.pos d)).
  destruct (Z.log2_spec n Hn) as [Ha1 Ha2]. fold a in Ha1, Ha2.
  destruct (Z.log2_spec (Z.pos d) ltac:(lia)) as [Hb1 Hb2]. fold b in Hb1, Hb2.
  assert (0 <= a) as Ha0 by apply Z.log2_nonneg.
  assert (0 <= b) as Hb0 by apply Z.log2_nonneg.
  rewrite Zle_Qle, pow2_Z in Ha1, Hb1 by done.
  rewrite Zlt_Qlt, <- Z.add_1_r, pow2_Z in Ha2, Hb2 by lia.
  rewrite pow2_S in Ha2, Hb2.
  pose proof (pow2_pos a) as Pa. pose proof (pow2_pos b) as Pb.
  assert (n # d == inject_Z n / inject_Z (Z.pos d))%Q as Hnd
    by apply Qmake_Qdiv.
  assert (0 < inject_Z (Z.pos d))%Q as Hd by (rewrite <- (Zlt_Qlt 0); lia).
  assert (2 ^ (a - b) == 2 ^ a / 2 ^ b)%Q as Hk by (by apply Qpower_minus).
  assert (2 ^ (a - b - 1) <= n # d)%Q as Hlow.
  { rewrite (Qpower_minus 2 (a - b) 1), Hk, Hnd by done.
    change (2 ^ 1)%Q with 2%Q.
    setoid_replace (2 ^ a / 2 ^ b / 2)%Q with (2 ^ a / (2 * 2 ^ b))%Q
      using relation Qeq by (field; lra).
    apply Qdiv_le_div; [lra|done|]. nra. }
  assert (n # d < 2 ^ (a - b + 1))%Q as Hhigh.
  { rewrite pow2_S, Hk, Hnd.
    setoid_replace (2 * (2 ^ a / 2 ^ b))%Q with (2 * 2 ^ a / 2 ^ b)%Q
      using relation Qeq by (field; lra).
    apply Qdiv_lt_div; [done|done|]. nra. }
  destruct (Qle_bool (2 ^ (a - b)) (n # d)) eqn:Hb.
  - apply Qle_bool_iff in Hb. split; done.
  - split; [done|].
    replace (a - b - 1 + 1) with (a - b) by lia.
    apply Qnot_le_lt. intros H. apply Qle_bool_iff in H. congruence.
Qed.

(** Rounding to 53 bits. *)
Lemma Qeq_bool_false (q : Q) : ~ (q == 0)%Q -> Qeq_bool q 0 = false.
Proof.
  intros H. destruct (Qeq_bool q 0) eqn:E; [|done].
  by apply Qeq_bool_iff in E.
Qed.

Lemma binary64_zero (q : Q) : (q == 0)%Q -> binary64 q = 0%Q.
Proof.
  intros H. unfold binary64. apply Qeq_bool_iff in H. by rewrite H.
Qed.

(** The scaled value [q / 2 ^ e] has its integer part on 53 bits. *)
Lemma binary64_spec (q : Q) :
  ~ (q == 0)%Q ->
  let e := ilog2 (Qabs q) - 52 in
  binary64 q = (inject_Z (round_half_even (q / 2 ^ e)) * 2 ^ e)%Q
  /\ (2 ^ 52 * 2 ^ e <= Qabs q)%Q /\ (Qabs q < 2 * 2 ^ 52 * 2 ^ e)%Q.
Proof.
  intros Hq e. split.
  - unfold binary64. by rewrite Qeq_bool_false.
  - assert (0 < Qabs q)%Q as Hpos.
    { apply Qlt_leneq. split; [apply Qabs_nonneg|].
      intros H. apply Hq. symmetry in H.
      destruct (Qabs_Qle_condition q 0) as [Hc _].
      destruct Hc as [H1 H2]; [rewrite H; apply Qle_refl|]. lra. }
    destruct (ilog2_spec _ Hpos) as [Hlo Hhi].
    replace (ilog2 (Qabs q)) with (52 + e) in Hlo, Hhi by (unfold e; lia).
    rewrite <- Z.add_assoc, (Z.add_comm e 1), Z.add_assoc in Hhi.
    rewrite (pow2_plus (52 + 1) e), (Z.add_comm 52 1), (pow2_plus 1 52) in Hhi.
    rewrite pow2_plus in Hlo. change (2 ^ 1)%Q with 2%Q in Hhi. done.
Qed.

Lemma Qabs_of_pos (q : Q) : (0 < q)%Q -> Qabs q = q.
Proof.
  destruct q as [n d]. unfold Qlt. simpl. intros H.
  rewrite Z.abs_eq; [done|lia].
Qed.

Lemma Qscale (q : Q) (e : Z) : (q / 2 ^ e * 2 ^ e == q)%Q.
Proof. pose proof (pow2_pos e). field. lra. Qed.

Lemma binary64_nonneg (q : Q) : (0 <= q)%Q -> (0 <= binary64 q)%Q.
Proof.
  intros Hq. destruct (Qeq_dec q 0) as [H0|Hne].
  - rewrite (binary64_zero _ H0). apply Qle_refl.
  - destruct (binary64_spec q Hne) as (-> & _ & _).
    set (e := ilog2 (Qabs q) - 52). pose proof (pow2_pos e) as He.
    assert (0 <= round_half_even (q / 2 ^ e)) as Hr.
    { apply round_half_even_ge. change (inject_Z 0) with 0%Q.
      apply Qle_shift_div_l; [done|]. lra. }
    rewrite Zle_Qle in Hr. change (inject_Z 0) with 0%Q in Hr. nra.
Qed.

Lemma scaled_integer (n k e : Z) :
  e <= k -> (inject_Z n * 2 ^ k / 2 ^ e == inject_Z (n * 2 ^ (k - e)))%Q.
Proof.
  intros H. rewrite inject_Z_mult, pow2_Z by lia.
  rewrite (Qpower_minus 2 k e) by done. pose proof (pow2_pos e). field. lra.
Qed.

Lemma binary64_le (q b : Q) :
  (0 <= q)%Q -> (q <= b)%Q -> representable b -> (binary64 q <= b)%Q.
Proof.
  intros Hq Hqb (n & k & [Hn0 Hn] & Hb).
  destruct (Qeq_dec q 0) as [H0|Hne].
  { rewrite (binary64_zero _ H0). lra. }
  assert (0 < q)%Q as Hpos
    by (apply Qlt_leneq; split; [done|by intros ?; apply Hne]).
  destruct (binary64_spec q Hne) as (-> & Hlo & _).
  rewrite (Qabs_of_pos q Hpos) in *.
  set (e := ilog2 q - 52) in *.
  pose proof (pow2_pos e) as He. pose proof (pow2_pos k) as Hk.
  pose proof (pow2_pos 52) as H52.
  assert (e <= k) as Hek.
  { destruct (Z.le_gt_cases e k) as [|Hlt]; [done|exfalso].
    assert (2 ^ (k + 1) <= 2 ^ e)%Q as Hp by (apply pow2_le; lia).
    rewrite pow2_S in Hp.
    assert (inject_Z n < 2 * 2 ^ 52)%Q as HnQ.
    { rewrite <- pow2_S, <- pow2_Z by lia. rewrite <- Zlt_Qlt. exact Hn. }
    nra. }
  assert (q / 2 ^ e <= inject_Z (n * 2 ^ (k - e)))%Q as Hx.
  { rewrite <- scaled_integer by done. rewrite <- Hb.
    apply Qdiv_le_div; [done|done|]. nra. }
  apply round_half_even_le in Hx. rewrite Zle_Qle in Hx.
  rewrite <- scaled_integer in Hx by done. rewrite <- Hb in Hx.
  apply (Qmult_le_r _ _ (/ 2 ^ e)); [by apply Qinv_lt_0_compat|].
  rewrite <- Qmult_assoc, Qmult_inv_r, Qmult_1_r by lra. exact Hx.
Qed.

Lemma representable_pos (b : Q) : representable b -> (0 < b)%Q.
Proof.
  intros (n & k & [Hn0 _] & ->). pose proof (pow2_pos k).
  rewrite Zlt_Qlt in Hn0. change (inject_Z 0) with 0%Q in Hn0. nra.
Qed.

Lemma binary64_ge (q b : Q) :
  (b <= q)%Q -> representable b -> (b <= binary64 q)%Q.
Proof.
  intros Hbq Hrep. pose proof (representable_pos b Hrep) as Hb0.
  destruct Hrep as (n & k & [Hn0 Hn] & Hb).
  assert (0 < q)%Q as Hpos by lra.
  assert (~ (q == 0)%Q) as Hne by lra.
  destruct (binary64_spec q Hne) as (-> & Hlo & Hhi).
  rewrite (Qabs_of_pos q Hpos) in *.
  set (e := ilog2 q - 52) in *.
  pose proof (pow2_pos e) as He. pose proof (pow2_pos k) as Hk.
  pose proof (pow2_pos 52) as H52.
  assert (inject_Z n < 2 * 2 ^ 52)%Q as HnQ.
  { rewrite <- pow2_S, <- pow2_Z by lia. rewrite <- Zlt_Qlt. exact Hn. }
  destruct (Z.le_gt_cases e k) as [Hek|Hlt].
  - assert (inject_Z (n * 2 ^ (k - e)) <= q / 2 ^ e)%Q as Hx.
    { rewrite <- scaled_integer by done. rewrite <- Hb.
      apply Qdiv_le_div; [done|done|]. nra. }
    apply round_half_even_ge in Hx. rewrite Zle_Qle in Hx.
    rewrite <- scaled_integer in Hx by done. rewrite <- Hb in Hx.
    apply (Qmult_le_r _ _ (/ 2 ^ e)); [by apply Qinv_lt_0_compat|].
    rewrite <- Qmult_assoc, Qmult_inv_r, Qmult_1_r by lra. exact Hx.
  - assert (2 ^ (k + 1) <= 2 ^ e)%Q as Hp by (apply pow2_le; lia).
    rewrite pow2_S in Hp.
    assert (inject_Z (2 ^ 52) <= q / 2 ^ e)%Q as Hx.
    { rewrite pow2_Z by lia. apply Qle_shift_div_l; [done|]. exact Hlo. }
    apply round_half_even_ge in Hx. rewrite Zle_Qle, pow2_Z in Hx by lia.
    nra.
Qed.

Lemma binary64_exact (b : Q) : representable b -> (binary64 b == b)%Q.
Proof.
  intros Hrep. pose proof (representable_pos b Hrep).
  apply Qle_antisym.
  - apply binary64_le; [lra|lra|done].
  - apply binary64_ge; [lra|done].
Qed.

(** The relative error of a rounding is at most [2 ^ -53]. *)
Lemma binary64_error (q : Q) :
  (Qabs (binary64 q - q) <= Qabs q / 2 ^ 53)%Q.
Proof.
  pose proof (pow2_pos 52) as H52. pose proof (pow2_pos 53) as H53.
  assert (2 ^ 53 == 2 * 2 ^ 52)%Q as E53 by (apply (pow2_S 52)).
  destruct (Qeq_dec q 0) as [H0|Hne].
  { rewrite (binary64_zero _ H0), H0. apply Qle_shift_div_l; [done|].
    vm_compute. discriminate. }
  destruct (binary64_spec q Hne) as (-> & Hlo & _).
  set (e := ilog2 (Qabs q) - 52) in *. pose proof (pow2_pos e) as He.
  set (x := (q / 2 ^ e)%Q).
  assert (inject_Z (round_half_even x) * 2 ^ e - q
          == (inject_Z (round_half_even x) - x) * 2 ^ e)%Q as ->.
  { unfold x. field. lra. }
  rewrite Qabs_Qmult, (Qabs_pos (2 ^ e)) by lra.
  pose proof (round_half_even_close x) as Hc.
  pose proof (Qabs_nonneg (inject_Z (round_half_even x) - x)) as Hn.
  apply Qle_shift_div_l; [done|]. rewrite E53. nra.
Qed.

Lemma representable_Z (n : Z) :
  (0 < n < 2 ^ 53)%Z -> representable (inject_Z n).
Proof.
  intros Hn. exists n, 0. split; [done|]. change (2 ^ 0)%Q with 1%Q. ring.
Qed.

(** The two roundings of the percentage keep it within [2 ^ -51] of the
    exact quotient, relatively. *)
Lemma percentage_close (score total : Z) :
  total <> 0 ->
  (Qabs (binary64 (binary64 (inject_Z score / inject_Z total) * 100)
         - inject_Z (100 * score) / inject_Z total)
   <= Qabs (inject_Z (100 * score) / inject_Z total) / 2 ^ 51)%Q.
Proof.
  intros Ht.
  assert (~ (inject_Z total == 0)%Q) as HtQ.
  { change 0%Q with (inject_Z 0). by rewrite inject_Z_injective. }
  set (q := (inject_Z score / inject_Z total)%Q).
  assert (inject_Z (100 * score) / inject_Z total == 100 * q)%Q as ->.
  { unfold q. rewrite inject_Z_mult. field. done. }
  fold q.
  set (f := binary64 q). set (p := binary64 (f * 100)).
  pose proof (binary64_error q) as E1. fold f in E1.
  pose proof (binary64_error (f * 100)) as E2. fold p in E2.
  pose proof (Qabs_nonneg q) as A0.
  assert (Qabs (100 * q) == 100 * Qabs q)%Q as ->.
  { rewrite Qabs_Qmult. reflexivity. }
  set (A := Qabs q) in *.
  assert (- A <= q <= A)%Q as Hq by (apply Qabs_Qle_condition, Qle_refl).
  assert (forall a, a / 2 ^ 53 == a * (1 # 9007199254740992))%Q as U53
    by (intros a; change (2 ^ 53)%Q with (9007199254740992 # 1)%Q; field).
  assert (forall a, a / 2 ^ 51 == a * (1 # 2251799813685248))%Q as U51
    by (intros a; change (2 ^ 51)%Q with (2251799813685248 # 1)%Q; field).
  rewrite U53 in E1, E2. rewrite U51.
  apply Qabs_Qle_condition in E1.
  assert (Qabs (f * 100) <= 100 * A + 100 * A * (1 # 9007199254740992))%Q as Hy.
  { apply Qabs_Qle_condition. lra. }
  apply Qabs_Qle_condition in E2. apply Qabs_Qle_condition. lra.
Qed.

Lemma percentage_bounds (score total : Z) :
  0 < total ->
  (0 <= score <= total ->
   (0 <= binary64 (binary64 (inject_Z score / inject_Z total) * 100))%Q
   /\ (binary64 (binary64 (inject_Z score / inject_Z total) * 100) <= 100)%Q)
  /\ (total < score ->
      (100 <= binary64 (binary64 (inject_Z score / inject_Z total) * 100))%Q)
  /\ (total < score -> total <= 2 ^ 52 ->
      (100 < binary64 (binary64 (inject_Z score / inject_Z total) * 100))%Q).
Proof.
  intros Ht.
  assert (0 < inject_Z total)%Q as HtQ by (by rewrite <- (Zlt_Qlt 0)).
  set (q := (inject_Z score / inject_Z total)%Q).
  fold q. split; [|split].
  - intros [Hs0 Hs1]. rewrite Zle_Qle in Hs0, Hs1.
    change (inject_Z 0) with 0%Q in Hs0.
    assert (0 <= q)%Q as Hq0 by (apply Qle_shift_div_l; [done|lra]).
    assert (q <= 1)%Q as Hq1 by (apply Qle_shift_div_r; [done|lra]).
    pose proof (binary64_nonneg q Hq0) as Hf0.
    assert (binary64 q <= 1)%Q as Hf1.
    { apply binary64_le; [done|done|]. by apply (representable_Z 1). }
    split.
    + apply binary64_nonneg. lra.
    + apply binary64_le; [lra|lra|]. by apply (representable_Z 100).
  - intros Hs. apply Z.lt_le_incl in Hs. rewrite Zle_Qle in Hs.
    assert (1 <= q)%Q as Hq by (apply Qle_shift_div_l; [done|lra]).
    assert (1 <= binary64 q)%Q as Hf.
    { apply binary64_ge; [done|]. by apply (representable_Z 1). }
    apply binary64_ge; [lra|]. by apply (representable_Z 100).
  - intros Hs Hmax.
    assert (inject_Z total + 1 <= inject_Z score)%Q as HsQ.
    { change 1%Q with (inject_Z 1). rewrite <- inject_Z_plus, <- Zle_Qle. lia. }
    assert (inject_Z total <= 4503599627370496)%Q as HmQ.
    { change 4503599627370496%Q with (inject_Z (2 ^ 52)).
      by rewrite <- Zle_Qle. }
    set (c1 := (inject_Z (2 ^ 52 + 1) * 2 ^ (-52))%Q).
    set (c2 := (inject_Z (100 * 2 ^ 46 + 1) * 2 ^ (-46))%Q).
    assert (c1 == 1 + (1 # 4503599627370496))%Q as Ec1
      by (vm_compute; reflexivity).
    assert (c2 == 100 + (1 # 70368744177664))%Q as Ec2
      by (vm_compute; reflexivity).
    assert (representable c1) as R1
      by (eexists _, _; split; [|reflexivity]; lia).
    assert (representable c2) as R2
      by (eexists _, _; split; [|reflexivity]; lia).
    assert (c1 <= q)%Q as Hq.
    { apply Qle_shift_div_l; [done|]. rewrite Ec1. lra. }
    pose proof (binary64_ge q c1 Hq R1) as Hf.
    assert (c2 <= binary64 (binary64 q * 100))%Q as Hp.
    { apply binary64_ge; [|done]. rewrite Ec1 in Hf. rewrite Ec2. lra. }
    rewrite Ec2 in Hp. lra.
Qed.

Lemma percentage_exact (score total : Z) :
  total <> 0 ->
  (score = 0 ->
   binary64 (binary64 (inject_Z score / inject_Z total) * 100) = 0%Q)
  /\ (score = total ->
      (binary64 (binary64 (inject_Z score / inject_Z total) * 100) == 100)%Q).
Proof.
  intros Ht.
  assert (~ (inject_Z total == 0)%Q) as HtQ.
  { change 0%Q with (inject_Z 0). by rewrite inject_Z_injective. }
  split.
  - intros ->.
    rewrite (binary64_zero (inject_Z 0 / inject_Z total)) by (field; done).
    by apply binary64_zero.
  - intros ->.
    assert (inject_Z total / inject_Z total == 1)%Q as E by (field; done).
    assert (binary64 (inject_Z total / inject_Z total) == 1)%Q as E1.
    { apply Qle_antisym.
      - apply binary64_le; [lra|lra|]. by apply (representable_Z 1).
      - apply binary64_ge; [lra|]. by apply (representable_Z 1). }
    apply Qle_antisym.
    + apply binary64_le; [lra|lra|]. by apply (representable_Z 100).
    + apply binary64_ge; [lra|]. by apply (representable_Z 100).
Qed.

(** The rounding of the embedding against the reference operations: for
    every total up to 40 marks and every score from minus the total to
    twice the total, the two give the same percentage. *)
Lemma percentage_agrees_with_IEEE754 (score total : Z) :
  1 <= total <= 40 -> - total <= score <= 2 * total ->
  exists p,
    percentage_IEEE754 score total = Some p
    /\ (p == binary64 (binary64 (inject_Z score / inject_Z total) * 100))%Q.
Proof.
  intros Ht Hs.
  assert (forallb
            (fun t =>
               forallb
                 (fun s =>
                    match percentage_IEEE754 s t with
                    | Some p =>
                        Qeq_bool p
                          (binary64 (binary64 (inject_Z s / inject_Z t) * 100))
                    | None => false
                    end)
                 (seqZ (- t) (3 * t + 1)))
            (seqZ 1 40) = true) as Hall by (vm_compute; reflexivity).
  rewrite forallb_forall in Hall.
  specialize (Hall total). rewrite forallb_forall in Hall.
  specialize (Hall ltac:(apply list_elem_of_In, elem_of_seqZ; lia) score
                ltac:(apply list_elem_of_In, elem_of_seqZ; lia)).
  destruct (percentage_IEEE754 score total) as [p|]; [|done].
  exists p. split; [done|]. by apply Qeq_bool_iff.
Qed.

(** ** Sign-in and sign-up *)

(** C10. A sign-in or sign-up request with role [admin] whose address
    does not end with [@neu.edu.ph], letter case ignored, is rejected
    before anything is sent to the identity provider: no call, the
    accounts and the session as they were, no navigation.  With role
    [student] the same address is not checked: once the other checks of
    the form pass, the call is issued. *)
Theorem admin_role_requires_neu_email {AuthState : Type}
    (signIn : string -> string -> AuthState -> AuthState * AuthReply)
    (signUp : string -> string -> string -> string -> AuthState
              -> AuthState * AuthReply)
    (st : AuthState) (email password fullName confirmPassword : string) :
  ~ ends_with_ignoring_case email "@neu.edu.ph" ->
  (let o := handleSignIn signIn (mkSignInData email password "admin") st in
   ao_calls o = [] /\ ao_auth o = st /\ ao_navigate o = None)
  /\ (let o := handleSignUp signUp
                 (mkSignUpData email password fullName confirmPassword "admin") st in
      ao_calls o = [] /\ ao_auth o = st /\ ao_navigate o = None)
  /\ (truthy email = true -> truthy password = true ->
      ao_calls (handleSignIn signIn (mkSignInData email password "student") st)
      = [CallSignIn email password])
  /\ (truthy email = true -> truthy password = true -> truthy fullName = true ->
      confirmPassword = password -> (6 <= js_length password)%nat ->
      ao_calls (handleSignUp signUp
                  (mkSignUpData email password fullName confirmPassword "student") st)
      = [CallSignUp email password fullName "student"]).
Proof.
  intros Hne%isNeuEmail_false_iff. repeat apply conj.
  - unfold handleSignIn; cbn. rewrite Hne.
    by destruct (truthy email), (truthy password).
  - unfold handleSignIn; cbn. rewrite Hne.
    by destruct (truthy email), (truthy password).
  - unfold handleSignIn; cbn. rewrite Hne.
    by destruct (truthy email), (truthy password).
  - unfold handleSignUp; cbn. rewrite Hne.
    by destruct (truthy email), (truthy password), (truthy fullName),
      (truthy confirmPassword).
  - unfold handleSignUp; cbn. rewrite Hne.
    by destruct (truthy email), (truthy password), (truthy fullName),
      (truthy confirmPassword).
  - unfold handleSignUp; cbn. rewrite Hne.
    by destruct (truthy email), (truthy password), (truthy fullName),
      (truthy confirmPassword).
  - intros He Hp. unfold handleSignIn; cbn. rewrite He, Hp; cbn.
    by destruct (signIn email password st) as [st' []].
  - intros He Hp Hf -> Hlen. unfold handleSignUp; cbn.
    rewrite He, Hp, Hf; cbn. rewrite String.eqb_refl; cbn.
    destruct (Nat.leb_spec (js_length password) 5) as [|_]; [lia|].
    destruct (signUp email password fullName "student" st) as [st' [|m|]];
      [done| |done].
    by destruct (includes m "already registered").
Qed.

Lemma admin_role_requires_neu_email_witness :
  ao_calls (handleSignUp demo_signUp
              (mkSignUpData "ana@gmail.com" "secret1" "Ana" "secret1" "admin") [])
  = []
  /\ ao_calls (handleSignUp demo_signUp
                 (mkSignUpData "ana@gmail.com" "secret1" "Ana" "secret1" "student") [])
     = [CallSignUp "ana@gmail.com" "secret1" "Ana" "student"].
Proof.
  destruct (admin_role_requires_neu_email demo_signIn demo_signUp []
              "ana@gmail.com" "secret1" "Ana" "secret1")
    as (_ & (Hadmin & _) & _ & Hstudent).
  - apply isNeuEmail_false_iff. reflexivity.
  - split; [exact Hadmin|]. apply Hstudent; [reflexivity..|simpl; lia].
Defined.

(** ** Scoring *)

Lemma update_where_elem_of {A : Type} (P : A -> Prop) `{!forall r, Decision (P r)}
    (patch : A -> A) (rows : list A) (r' : A) :
  r' ∈ update_where P patch rows <->
  exists r, r ∈ rows /\ r' = (if decide (P r) then patch r else r).
Proof.
  unfold update_where. rewrite list_elem_of_fmap.
  split; intros (r & H1 & H2); exists r; done.
Qed.

Lemma spec_score_cons (answer : StudentAnswer) (q : Question)
    (rows : list (StudentAnswer * Question)) :
  spec_score ((answer, q) :: rows)
  = (if bool_decide (sa_selected_answer answer = q_correct_answer q)
     then q_marks q else 0) + spec_score rows.
Proof.
  unfold spec_score. rewrite filter_cons. unfold answered_correctly at 1.
  simpl. case_bool_decide.
  - rewrite decide_True by done. by rewrite fmap_cons.
  - by rewrite decide_False.
Qed.

(** The loop adds to its counter exactly the score of the rows it is
    given, when every row has its question. *)
Lemma gradeAnswers_joined (attemptId : string)
    (rows : list (StudentAnswer * Question)) (score correctAnswers : Z)
    (tbl : list StudentAnswer) :
  exists tbl' n,
    ExamPage.gradeAnswers attemptId (joined <$> rows) score correctAnswers tbl
    = (tbl', Some (score + spec_score rows, n)).
Proof.
  revert score correctAnswers tbl.
  induction rows as [|[answer q] rows IH]; intros score correctAnswers tbl.
  - exists tbl, correctAnswers. cbn. do 3 f_equal. lia.
  - rewrite spec_score_cons, fmap_cons. cbn [joined fst snd ExamPage.gradeAnswers].
    edestruct IH as (tbl' & n & ->). exists tbl', n. do 3 f_equal.
    case_bool_decide; lia.
Qed.

(** What a submit writes, when every answer has its question: each row
    of [exam_attempts] with the identifier of the current attempt is
    completed with the score of the rows and the percentage the page
    computes from it; the other rows stay. *)
Lemma handleSubmitExam_attempts (now : Z) (db : Database) (st : ExamPage.state)
    (a : ExamAttempt) (rows : list (StudentAnswer * Question)) :
  ExamPage.isSubmitting st = false ->
  ExamPage.currentAttempt st = Some a ->
  answers_with_questions (a_id a) db = joined <$> rows ->
  exam_attempts (ExamPage.handleSubmitExam now db st).1
  = update_where (fun r => a_id r = a_id a)
      (ExamPage.complete_attempt (spec_score rows)
         (ExamPage.percentage_of (ExamPage.exam st) (spec_score rows)) now)
      (exam_attempts db).
Proof.
  intros Hsub Hcur Hrows. unfold ExamPage.handleSubmitExam.
  rewrite Hsub, Hcur, Hrows.
  destruct (gradeAnswers_joined (a_id a) rows 0 0 (student_answers db))
    as (tbl' & n & ->).
  simpl. by rewrite Z.add_0_l.
Qed.

(** The expression of the page for an exam whose [total_marks] is not 0. *)
Lemma percentage_of_nonzero (e : Exam) (score : Z) :
  e_total_marks e <> 0 ->
  ExamPage.percentage_of (Some e) score
  = binary64 (binary64 (inject_Z score / inject_Z (e_total_marks e)) * 100).
Proof.
  intros Hne. unfold ExamPage.percentage_of.
  by destruct (Z.eqb_spec (e_total_marks e) 0).
Qed.

(** The expression of the page against the formula of the
    specification: equal when [total_marks] is 0, when the score is 0
    and when the score is [total_marks]; otherwise within a relative
    distance of [2 ^ -51]. *)
Lemma percentage_of_spec (e : Exam) (score : Z) :
  let exact := spec_percentage score (e_total_marks e) in
  (Qabs (ExamPage.percentage_of (Some e) score - exact)
   <= Qabs exact / 2 ^ 51)%Q
  /\ (score = 0 \/ score = e_total_marks e ->
      (ExamPage.percentage_of (Some e) score == exact)%Q).
Proof.
  unfold spec_percentage.
  destruct (decide (e_total_marks e = 0)) as [H0|Hne].
  - unfold ExamPage.percentage_of. rewrite H0. simpl. split; [|reflexivity].
    vm_compute. discriminate.
  - rewrite percentage_of_nonzero by done. split.
    + by apply percentage_close.
    + assert (~ (inject_Z (e_total_marks e) == 0)%Q) as HtQ.
      { change 0%Q with (inject_Z 0). by rewrite inject_Z_injective. }
      destruct (percentage_exact score (e_total_marks e) Hne) as [Hz Hfull].
      intros [Hs|Hs].
      * rewrite (Hz Hs). subst score. change (inject_Z (100 * 0)) with 0%Q.
        field. done.
      * rewrite (Hfull Hs). subst score. rewrite inject_Z_mult.
        change (inject_Z 100) with 100%Q. field. done.
Qed.

(** C2, as stated, fails in the percentage: the quotient and the product
    of the page are each rounded to a binary64 number.  In an exam of 25
    marks with 7 of them scored the attempt does not get
    [100 * 7 / 25], which is 28, but 28.000000000000004, which is
    [7881299347898369 / 2 ^ 48]. *)
Lemma percentage_is_rounded :
  attempt_result <$> exam_attempts demo_quiz_submitted.1
  = [("completed", Some 7, Some (7881299347898369 # 281474976710656))]
  /\ e_total_marks demo_quiz = 25
  /\ (spec_percentage 7 25 == 28)%Q
  /\ ~ (7881299347898369 # 281474976710656 == spec_percentage 7 25)%Q.
Proof.
  split; [vm_compute; reflexivity|]. split; [reflexivity|].
  split; [vm_compute; reflexivity|]. vm_compute. discriminate.
Qed.

(** C2, amended. Submit stores, in the attempt, the score that is the
    sum of the marks of exactly the answers whose selected answer is the
    correct answer of their question, and completes the attempt.  The
    percentage it stores is 0 when [total_marks] of the exam is 0, and
    otherwise the binary64 value of [(score / total_marks) * 100], the
    division and the multiplication each rounded: it lies within a
    relative distance of [2 ^ -51] of [100 * score / total_marks], and
    is that number when the score is 0 or is [total_marks]. *)
Theorem submit_computes_score_and_percentage (now : Z) (db : Database)
    (st : ExamPage.state) (a : ExamAttempt) (e : Exam)
    (rows : list (StudentAnswer * Question)) :
  ExamPage.isSubmitting st = false ->
  ExamPage.currentAttempt st = Some a ->
  ExamPage.exam st = Some e ->
  answers_with_questions (a_id a) db = joined <$> rows ->
  let db' := (ExamPage.handleSubmitExam now db st).1 in
  let score := spec_score rows in
  let exact := spec_percentage score (e_total_marks e) in
  (forall a', a' ∈ exam_attempts db' -> a_id a' = a_id a ->
     a_status a' = "completed"
     /\ a_score a' = Some score
     /\ exists p, a_percentage a' = Some p
          /\ (e_total_marks e = 0 -> p = 0%Q)
          /\ (e_total_marks e <> 0 ->
              p = binary64
                    (binary64 (inject_Z score / inject_Z (e_total_marks e))
                     * 100))
          /\ (Qabs (p - exact) <= Qabs exact / 2 ^ 51)%Q
          /\ (score = 0 \/ score = e_total_marks e -> (p == exact)%Q))
  /\ ((exists r, r ∈ exam_attempts db /\ a_id r = a_id a) ->
      exists a', a' ∈ exam_attempts db' /\ a_id a' = a_id a).
Proof.
  intros Hsub Hcur Hexam Hrows db' score exact. subst db' score exact.
  rewrite (handleSubmitExam_attempts now db st a rows) by done.
  rewrite Hexam. split.
  - intros a' (r & Hr & ->)%update_where_elem_of Hid.
    destruct (decide (a_id r = a_id a)) as [_|Hne]; [|done].
    simpl. do 2 (split; [done|]). eexists. split; [done|].
    destruct (percentage_of_spec e (spec_score rows)) as [Hclose Hexact].
    split; [|split; [|split]].
    + intros H0. unfold ExamPage.percentage_of. by rewrite H0.
    + apply percentage_of_nonzero.
    + exact Hclose.
    + exact Hexact.
  - intros (r & Hr & Hid). eexists. split.
    + apply update_where_elem_of. exists r. split; [done|].
      by rewrite decide_True.
    + done.
Qed.

Lemma submit_computes_score_and_percentage_witness :
  exists a' p, a' ∈ exam_attempts (demo_submitted "B").1
    /\ a_status a' = "completed" /\ a_score a' = Some 10
    /\ a_percentage a' = Some p /\ (p == 100)%Q.
Proof.
  destruct (submit_computes_score_and_percentage 60000
              (demo_answered "B").1 (demo_answered "B").2
              (new_attempt "a1" "e1" "s1" 0 10) demo_exam
              [(mkStudentAnswer "a1" "q1" "B" None, demo_question)])
    as [Hall Hex]; [reflexivity..|].
  destruct Hex as (a' & Ha' & Hid).
  - eexists. split; [|reflexivity]. vm_compute. apply list_elem_of_here.
  - destruct (Hall a' Ha' Hid) as (Hst & Hsc & p & Hp & _ & _ & _ & Hexact).
    exists a', p. split; [exact Ha'|]. split; [exact Hst|].
    split; [exact Hsc|]. split; [exact Hp|].
    rewrite Hexact; [reflexivity|]. right. reflexivity.
Defined.

(** The scenario of the specification: an exam of 10 marks with one
    question worth 10 whose correct answer is B.  Selecting B gives
    score 10 and 100 percent; selecting A gives score 0 and 0 percent. *)
Example scenario_select_B :
  attempt_result <$> exam_attempts (demo_submitted "B").1
  = [("completed", Some 10, Some 100%Q)].
Proof. vm_compute. reflexivity. Qed.

Example scenario_select_A :
  attempt_result <$> exam_attempts (demo_submitted "A").1
  = [("completed", Some 0, Some 0%Q)].
Proof. vm_compute. reflexivity. Qed.

(** The expression of the page, by the sign of [total_marks] and the
    place of the score. *)
Lemma percentage_of_bounds (e : Exam) (score : Z) :
  0 < e_total_marks e ->
  (0 <= score <= e_total_marks e ->
   (0 <= ExamPage.percentage_of (Some e) score)%Q
   /\ (ExamPage.percentage_of (Some e) score <= 100)%Q)
  /\ (e_total_marks e < score ->
      (100 <= ExamPage.percentage_of (Some e) score)%Q
      /\ (e_total_marks e <= 2 ^ 52 ->
          (100 < ExamPage.percentage_of (Some e) score)%Q)).
Proof.
  intros Ht. rewrite percentage_of_nonzero by lia.
  destruct (percentage_bounds score (e_total_marks e) Ht) as (H1 & H2 & H3).
  split; [exact H1|]. intros Hs. split; [by apply H2|by apply H3].
Qed.

(** C5, as stated, fails: the percentage is not kept within 100 when the
    score exceeds the total the page divides by.  After the regrade of
    the question the submitted attempt has score 20 against a total of
    10, and 200 percent. *)
Lemma percentage_above_100 :
  attempt_result <$> exam_attempts demo_submitted_after_regrade.1
  = [("completed", Some 20, Some 200%Q)]
  /\ ExamPage.exam (demo_answered "B").2 = Some demo_exam
  /\ 0 < e_total_marks demo_exam
  /\ ~ (200 <= 100)%Q.
Proof.
  split; [vm_compute; reflexivity|]. split; [reflexivity|].
  split; [reflexivity|]. unfold Qle. simpl. lia.
Qed.

(** C5, amended. The percentage a submit stores is exactly 0 when
    [total_marks] of the exam is 0; when [total_marks] is positive it
    lies in [0, 100] provided the score lies between 0 and
    [total_marks]; when the score exceeds [total_marks] it is at least
    100, and it exceeds 100 for a [total_marks] of at most [2 ^ 52],
    as every value of an integer column is: up to there the rounded
    quotient is told from 1. *)
Theorem submit_percentage_range (now : Z) (db : Database)
    (st : ExamPage.state) (a : ExamAttempt) (e : Exam)
    (rows : list (StudentAnswer * Question)) :
  ExamPage.isSubmitting st = false ->
  ExamPage.currentAttempt st = Some a ->
  ExamPage.exam st = Some e ->
  answers_with_questions (a_id a) db = joined <$> rows ->
  forall a', a' ∈ exam_attempts (ExamPage.handleSubmitExam now db st).1 ->
    a_id a' = a_id a ->
    exists p, a_percentage a' = Some p
      /\ (e_total_marks e = 0 -> p = 0%Q)
      /\ (0 < e_total_marks e -> 0 <= spec_score rows <= e_total_marks e ->
          (0 <= p)%Q /\ (p <= 100)%Q)
      /\ (0 < e_total_marks e -> e_total_marks e < spec_score rows ->
          (100 <= p)%Q /\ (e_total_marks e <= 2 ^ 52 -> (100 < p)%Q)).
Proof.
  intros Hsub Hcur Hexam Hrows a'.
  rewrite (handleSubmitExam_attempts now db st a rows) by done.
  rewrite Hexam. intros (r & Hr & ->)%update_where_elem_of Hid.
  destruct (decide (a_id r = a_id a)) as [_|Hne]; [|done].
  eexists. split; [reflexivity|]. repeat apply conj.
  - intros H0. unfold ExamPage.percentage_of. by rewrite H0.
  - intros Ht Hs. by apply percentage_of_bounds.
  - intros Ht Hs. by apply percentage_of_bounds.
Qed.

Lemma submit_percentage_range_witness :
  exists a' p, a' ∈ exam_attempts (demo_submitted "B").1
    /\ a_percentage a' = Some p /\ (0 <= p)%Q /\ (p <= 100)%Q.
Proof.
  destruct (submit_percentage_range 60000
              (demo_answered "B").1 (demo_answered "B").2
              (new_attempt "a1" "e1" "s1" 0 10) demo_exam
              [(mkStudentAnswer "a1" "q1" "B" None, demo_question)]
              ltac:(reflexivity) ltac:(reflexivity) ltac:(reflexivity)
              ltac:(reflexivity)
              (ExamPage.complete_attempt 10
                 (ExamPage.percentage_of (Some demo_exam) 10) 60000
                 (new_attempt "a1" "e1" "s1" 0 10)))
    as (p & Hp & _ & Hin & _).
  - vm_compute. apply list_elem_of_here.
  - reflexivity.
  - eexists _, p. split; [vm_compute; apply list_elem_of_here|].
    split; [exact Hp|].
    apply Hin; vm_compute; [reflexivity|split; discriminate].
Defined.

(** ** Lookups *)

Lemma single_Some {A : Type} (rows : list A) (r : A) :
  single rows = Some r -> rows = [r].
Proof. destruct rows as [|x [|y rows]]; simpl; congruence. Qed.

Lemma single_None_short {A : Type} (rows : list A) :
  (length rows <= 1)%nat -> single rows = None -> rows = [].
Proof. destruct rows as [|x [|y rows]]; simpl; try done. lia. Qed.

Lemma exams_by_id_single (examId : string) (db : Database) (e : Exam) :
  single (exams_by_id examId db) = Some e -> e ∈ exams db /\ e_id e = examId.
Proof.
  intros H%single_Some.
  assert (e ∈ exams_by_id examId db) as Hin by (rewrite H; apply list_elem_of_here).
  unfold exams_by_id in Hin. apply list_elem_of_filter in Hin. tauto.
Qed.

(** ** Resuming an attempt *)

Lemma in_progress_of_none_iff (examId userId : string)
    (rows : list ExamAttempt) :
  in_progress_of examId userId rows = []
  <-> Forall (fun r => ~ (a_exam_id r = examId /\ a_student_id r = userId
                           /\ a_status r = "in_progress")) rows.
Proof.
  unfold in_progress_of. induction rows as [|r rows IH].
  - split; [constructor|done].
  - rewrite filter_cons, Forall_cons. case_decide as HP.
    + split; [done|]. by intros [? _].
    + rewrite IH. tauto.
Qed.

(** Completing the one attempt in progress of a pair leaves the pair
    with none. *)
Lemma in_progress_of_completed (examId userId : string) (a : ExamAttempt)
    (score : Z) (percentage : Q) (now : Z) (rows : list ExamAttempt) :
  in_progress_of examId userId rows = [a] ->
  in_progress_of examId userId
    (update_where (fun r => a_id r = a_id a)
       (ExamPage.complete_attempt score percentage now) rows) = [].
Proof.
  intros Hone. apply in_progress_of_none_iff, Forall_forall.
  intros r' (r & Hr & ->)%update_where_elem_of.
  destruct (decide (a_id r = a_id a)) as [Hid|Hid].
  - simpl. by intros (_ & _ & [=]).
  - intros HP. apply Hid.
    assert (r ∈ in_progress_of examId userId rows) as Hin
      by by apply list_elem_of_filter.
    rewrite Hone in Hin. by apply list_elem_of_singleton in Hin as ->.
Qed.

(** The page a resumed attempt leaves. *)
Lemma fetchExamData_resumed (examId userId : string) (now : Z)
    (new_id : string) (db : Database) (st : ExamPage.state)
    (examData : Exam) (attemptData : ExamAttempt) :
  single (exams_by_id examId db) = Some examData ->
  e_is_active examData = true ->
  single (in_progress_attempts examId userId db) = Some attemptData ->
  let r := ExamPage.fetchExamData examId userId now new_id db st in
  r.1 = db
  /\ ExamPage.currentAttempt r.2 = Some attemptData
  /\ ExamPage.exam r.2 = Some examData
  /\ ExamPage.isSubmitting r.2 = ExamPage.isSubmitting st
  /\ ExamPage.timeRemaining r.2
     = ExamPage.remainingMinutes (e_duration_minutes examData) now
         (a_started_at attemptData) * 60.
Proof.
  intros Hexam Hactive Hattempt. unfold ExamPage.fetchExamData.
  by rewrite Hexam, Hactive, Hattempt.
Qed.

(** C6. Resuming an in-progress attempt sets the remaining time to
    [duration_minutes] minus the whole minutes elapsed since
    [started_at], not below zero (in seconds on the page).  When that is
    zero the timer effect of the page is the submit, and the submit
    takes place: for a page that is not submitting already and answers
    that all have their question, the attempt is completed in the
    backend, at the time of the effect, with the score of its answers
    and the percentage of that score, and the student is left with no
    attempt in progress for the exam. *)
Theorem resume_remaining_time_and_auto_submit (examId userId : string)
    (now : Z) (new_id : string) (db : Database) (st : ExamPage.state)
    (examData : Exam) (attemptData : ExamAttempt) :
  single (exams_by_id examId db) = Some examData ->
  e_is_active examData = true ->
  single (in_progress_attempts examId userId db) = Some attemptData ->
  let r := ExamPage.fetchExamData examId userId now new_id db st in
  let elapsed := (now - a_started_at attemptData) / 60000 in
  r.1 = db
  /\ ExamPage.currentAttempt r.2 = Some attemptData
  /\ ExamPage.timeRemaining r.2
     = Z.max 0 (e_duration_minutes examData - elapsed) * 60
  /\ (e_duration_minutes examData <= elapsed ->
      ExamPage.timeRemaining r.2 = 0
      /\ ExamPage.timerEffect r.2 = ExamPage.TimerAutoSubmit
      /\ forall now',
           ExamPage.runTimerEffect now' r.1 r.2
           = ExamPage.handleSubmitExam now' r.1 r.2
           /\ forall rows,
                ExamPage.isSubmitting st = false ->
                answers_with_questions (a_id attemptData) db = joined <$> rows ->
                let db' := (ExamPage.runTimerEffect now' r.1 r.2).1 in
                in_progress_attempts examId userId db' = []
                /\ (exists a', a' ∈ exam_attempts db'
                               /\ a_id a' = a_id attemptData)
                /\ (forall a', a' ∈ exam_attempts db' ->
                      a_id a' = a_id attemptData ->
                      a_status a' = "completed"
                      /\ a_completed_at a' = Some now'
                      /\ a_score a' = Some (spec_score rows)
                      /\ a_percentage a'
                         = Some (ExamPage.percentage_of (Some examData)
                                   (spec_score rows)))).
Proof.
  intros Hexam Hactive Hattempt r elapsed.
  destruct (fetchExamData_resumed examId userId now new_id db st examData
              attemptData Hexam Hactive Hattempt)
    as (Hdb & Hcur & Hex & Hsub & Htime).
  fold r in Hdb, Hcur, Hex, Hsub, Htime.
  assert (ExamPage.timeRemaining r.2
          = Z.max 0 (e_duration_minutes examData - elapsed) * 60) as Htime'.
  { rewrite Htime. unfold ExamPage.remainingMinutes, ExamPage.elapsedMinutes.
    reflexivity. }
  do 3 (split; [done|]). intros Hle.
  assert (ExamPage.timeRemaining r.2 = 0) as H0 by lia.
  assert (ExamPage.timerEffect r.2 = ExamPage.TimerAutoSubmit) as Heff.
  { unfold ExamPage.timerEffect. rewrite H0, Hcur. reflexivity. }
  do 2 (split; [done|]). intros now'.
  assert (ExamPage.runTimerEffect now' r.1 r.2
          = ExamPage.handleSubmitExam now' r.1 r.2) as Hrun
    by (unfold ExamPage.runTimerEffect; by rewrite Heff).
  split; [exact Hrun|]. intros rows Hnot Hrows db'. subst db'.
  rewrite Hrun, Hdb.
  rewrite (handleSubmitExam_attempts now' db r.2 attemptData rows)
    by congruence.
  rewrite Hex. unfold in_progress_attempts.
  rewrite (handleSubmitExam_attempts now' db r.2 attemptData rows)
    by congruence.
  rewrite Hex.
  apply single_Some in Hattempt. unfold in_progress_attempts in Hattempt.
  split; [by apply in_progress_of_completed|]. split.
  - assert (attemptData ∈ in_progress_of examId userId (exam_attempts db))
      as Hin by (rewrite Hattempt; apply list_elem_of_here).
    apply list_elem_of_filter in Hin as [_ Hin].
    eexists. split.
    + apply update_where_elem_of. exists attemptData. split; [done|].
      by rewrite decide_True.
    + done.
  - intros a' (row & Hrow & ->)%update_where_elem_of Hid.
    destruct (decide (a_id row = a_id attemptData)) as [_|Hne]; [|done].
    done.
Qed.

Lemma resume_remaining_time_and_auto_submit_witness :
  ExamPage.timeRemaining demo_reopened.2 = 0
  /\ in_progress_attempts "e1" "s1" demo_timed_out.1 = []
  /\ exists a', a' ∈ exam_attempts demo_timed_out.1
       /\ a_status a' = "completed" /\ a_score a' = Some 10.
Proof.
  destruct (resume_remaining_time_and_auto_submit "e1" "s1" (40 * 60000) "a2"
              (demo_answered "B").1 (ExamPage.initial "e1") demo_exam
              (new_attempt "a1" "e1" "s1" 0 10))
    as (_ & _ & _ & Hzero); [reflexivity..|].
  destruct Hzero as (H0 & _ & Hsubmit); [vm_compute; discriminate|].
  destruct (Hsubmit (40 * 60000)) as [_ Hdone].
  destruct (Hdone [(mkStudentAnswer "a1" "q1" "B" None, demo_question)])
    as (Hnone & (a' & Ha' & Hid) & Hall); [reflexivity..|].
  split; [exact H0|]. split; [exact Hnone|].
  exists a'. split; [exact Ha'|].
  destruct (Hall a' Ha' Hid) as (Hst & _ & Hsc & _).
  split; [exact Hst|exact Hsc].
Defined.

(** The scenario of the specification: a 30-minute exam reopened after
    40 minutes has no time left, and the timer effect completes the
    attempt at once. *)
Example scenario_reopen_after_40_minutes :
  ExamPage.timeRemaining demo_reopened.2 = 0
  /\ attempt_result <$> exam_attempts demo_reopened.1
     = [("in_progress", None, None)]
  /\ attempt_result <$> exam_attempts demo_timed_out.1
     = [("completed", Some 10, Some 100%Q)].
Proof. vm_compute. done. Qed.

(** ** Starting an exam *)

(** The exam page refuses an exam that is not active before it looks
    for an attempt: the backend is left as it was and the page goes
    back to the dashboard. *)
Lemma fetchExamData_inactive (examId userId : string) (now : Z)
    (new_id : string) (db : Database) (st : ExamPage.state) (examData : Exam) :
  single (exams_by_id examId db) = Some examData ->
  e_is_active examData = false ->
  let r := ExamPage.fetchExamData examId userId now new_id db st in
  r.1 = db
  /\ ExamPage.location r.2 = RDashboard
  /\ ExamPage.toasts r.2
     = (ExamPage.toasts st ++ ["This exam is not currently active"])%list
  /\ ExamPage.currentAttempt r.2 = ExamPage.currentAttempt st.
Proof.
  intros Hexam Hactive. unfold ExamPage.fetchExamData.
  by rewrite Hexam, Hactive.
Qed.

(** The dashboard does not look at [is_active]: with no attempt in
    progress it creates one for any exam it finds. *)
Lemma startExam_ignores_is_active (examId userId : string) (now : Z)
    (new_id : string) (db : Database) (st : Dashboard.state) (examData : Exam) :
  single (in_progress_attempts examId userId db) = None ->
  single (exams_by_id examId db) = Some examData ->
  let r := Dashboard.startExam examId userId now new_id db st in
  exam_attempts r.1
  = (exam_attempts db
     ++ [new_attempt new_id examId userId now (e_total_marks examData)])%list
  /\ Dashboard.location r.2 = RExam examId.
Proof.
  intros Hnone Hexam. unfold Dashboard.startExam. by rewrite Hnone, Hexam.
Qed.

(** C7. Start on an exam that is not active: the button of a card the
    dashboard listed while the exam was active reaches [startExam]
    after an admin has deactivated the exam.  [startExam] creates an
    in-progress attempt and navigates into the exam; the exam page then
    reports that the exam is not active and returns to the dashboard,
    and the attempt row remains. *)
Theorem start_on_inactive_exam_creates_attempt :
  e_is_active <$> exams demo_deactivated = [false]
  /\ exam_attempts demo_deactivated = []
  /\ exam_attempts demo_clicked.1 = [new_attempt "a1" "e1" "s1" 0 10]
  /\ Dashboard.location demo_clicked.2 = RExam "e1"
  /\ demo_opened_inactive.1 = demo_clicked.1
  /\ ExamPage.location demo_opened_inactive.2 = RDashboard
  /\ ExamPage.toasts demo_opened_inactive.2
     = ["This exam is not currently active"].
Proof. vm_compute. done. Qed.

(** ** The table of attempts along a run *)

Ltac split_cases :=
  repeat (simpl;
          match goal with
          | |- context [if ?b then _ else _] => destruct b eqn:?
          | |- context [match ?x with _ => _ end] => destruct x eqn:?
          end);
  simpl.

Lemma handleSubmitExam_attempts_change (now : Z) (db : Database)
    (st : ExamPage.state) :
  attempts_change db (exam_attempts (ExamPage.handleSubmitExam now db st).1).
Proof.
  unfold ExamPage.handleSubmitExam.
  destruct (ExamPage.isSubmitting st); [apply change_none|].
  destruct (ExamPage.currentAttempt st) as [a|]; [|apply change_none].
  destruct (ExamPage.gradeAnswers _ _ _ _ _) as [tbl [[score n]|]]; simpl.
  - apply change_complete.
  - apply change_none.
Qed.

(** The question manager leaves the attempts alone. *)
Lemma questionsEffect_attempts (examId : string) (db : Database)
    (st : QuestionManager.state) :
  exam_attempts (QuestionManager.questionsEffect examId db st).1
  = exam_attempts db.
Proof.
  unfold QuestionManager.questionsEffect.
  destruct (QuestionManager.questionsChanged st); [|done].
  by destruct (0 <? length (QuestionManager.questions st))%nat.
Qed.

Lemma handleSubmit_attempts (examId new_id : string) (db : Database)
    (st : QuestionManager.state) :
  exam_attempts (QuestionManager.handleSubmit examId new_id db st).1
  = exam_attempts db.
Proof.
  unfold QuestionManager.handleSubmit.
  destruct (negb _); [done|].
  by destruct (QuestionManager.editingQuestion st).
Qed.

Lemma handleDelete_attempts (confirmed : bool) (examId questionId : string)
    (db : Database) (st : QuestionManager.state) :
  exam_attempts (QuestionManager.handleDelete confirmed examId questionId db st).1
  = exam_attempts db.
Proof. unfold QuestionManager.handleDelete. by destruct confirmed. Qed.

Lemma attempts_change_same (db : Database) (rows : list ExamAttempt) :
  rows = exam_attempts db -> attempts_change db rows.
Proof. intros ->. apply change_none. Qed.

(** Every operation changes the table of attempts in one of the four
    ways. *)
Lemma step_attempts_change (db db' : Database) :
  step db db' -> attempts_change db (exam_attempts db').
Proof.
  destruct 1.
  - unfold ExamPage.fetchExamData.
    destruct (single (exams_by_id examId db)) as [e|] eqn:He;
      [|apply change_none].
    destruct (e_is_active e); simpl; [|apply change_none].
    destruct (single (in_progress_attempts examId userId db)) eqn:Ha; simpl.
    + apply change_none.
    + apply exams_by_id_single in He as [??]. by apply change_insert.
  - unfold ExamPage.handleAnswerSelect. split_cases; apply change_none.
  - apply handleSubmitExam_attempts_change.
  - unfold ExamPage.runTimerEffect.
    destruct (ExamPage.timerEffect st);
      [apply change_none|apply handleSubmitExam_attempts_change|apply change_none].
  - unfold Dashboard.startExam.
    destruct (single (in_progress_attempts examId userId db)) eqn:Ha; simpl;
      [apply change_none|].
    destruct (single (exams_by_id examId db)) as [e|] eqn:He; simpl;
      [|apply change_none].
    apply exams_by_id_single in He as [??]. by apply change_insert.
  - apply attempts_change_same. unfold QuestionManager.settled.
    by rewrite questionsEffect_attempts, handleSubmit_attempts.
  - apply attempts_change_same. unfold QuestionManager.settled.
    by rewrite questionsEffect_attempts, handleDelete_attempts.
  - apply attempts_change_same. unfold QuestionManager.mount.
    destruct (QuestionManager.questionsEffect examId db QuestionManager.initial)
      as [db1 st1] eqn:H1.
    unfold QuestionManager.settled. rewrite questionsEffect_attempts. simpl.
    change db1 with (db1, st1).1. rewrite <- H1. apply questionsEffect_attempts.
  - simpl. apply change_none.
  - simpl. apply change_none.
  - unfold AdminPanel.deleteSubject. destruct confirmed; simpl.
    + apply (change_delete db _).
    + apply change_none.
  - unfold AdminPanel.createExam. split_cases; apply change_none.
  - simpl. apply change_none.
  - unfold AdminPanel.deleteExam. destruct confirmed; simpl.
    + apply (change_delete db (fun a => a_exam_id a = id)).
    + apply change_none.
  - unfold AdminPanel.toggleUserRole. split_cases; apply change_none.
Qed.

(** ** One attempt in progress *)

Lemma in_progress_of_complete (examId userId id : string) (score : Z)
    (percentage : Q) (now : Z) (rows : list ExamAttempt) :
  (length (in_progress_of examId userId
             (update_where (fun r => a_id r = id)
                (ExamPage.complete_attempt score percentage now) rows))
   <= length (in_progress_of examId userId rows))%nat.
Proof.
  unfold in_progress_of, update_where.
  induction rows as [|r rows IH]; [done|].
  rewrite fmap_cons, !filter_cons.
  destruct (decide (a_id r = id)).
  - rewrite (decide_False (P := _ /\ _ /\ _)) by (simpl; intros (_ & _ & [=])).
    case_decide; simpl; lia.
  - case_decide; simpl; lia.
Qed.

Lemma in_progress_of_delete (examId userId : string)
    (P : ExamAttempt -> Prop) `{!forall a, Decision (P a)}
    (rows : list ExamAttempt) :
  (length (in_progress_of examId userId (delete_where P rows))
   <= length (in_progress_of examId userId rows))%nat.
Proof.
  unfold in_progress_of, delete_where.
  induction rows as [|r rows IH]; [done|].
  rewrite !filter_cons. destruct (decide (~ P r)).
  - rewrite filter_cons. case_decide; simpl; lia.
  - case_decide; simpl; lia.
Qed.

Lemma in_progress_of_new (examId userId examId' userId' new_id : string)
    (now total : Z) :
  in_progress_of examId userId [new_attempt new_id examId' userId' now total]
  = if decide (examId' = examId /\ userId' = userId)
    then [new_attempt new_id examId' userId' now total] else [].
Proof.
  unfold in_progress_of. rewrite filter_cons, filter_nil. simpl.
  repeat case_decide; try done; exfalso; tauto.
Qed.

(** None of the four changes brings a second attempt in progress. *)
Lemma attempts_change_at_most_one (db : Database) (rows : list ExamAttempt) :
  at_most_one_in_progress db -> attempts_change db rows ->
  forall examId userId, (length (in_progress_of examId userId rows) <= 1)%nat.
Proof.
  intros Hinv Hchange examId userId.
  pose proof (Hinv examId userId) as Hone. unfold in_progress_attempts in Hone.
  destruct Hchange as [|new_id examId' userId' now e Hnone _ _| |P HP].
  - done.
  - unfold in_progress_of at 1. rewrite filter_app.
    fold (in_progress_of examId userId (exam_attempts db)).
    fold (in_progress_of examId userId
            [new_attempt new_id examId' userId' now (e_total_marks e)]).
    rewrite in_progress_of_new, length_app. case_decide as Hsame.
    + destruct Hsame as [-> ->].
      apply single_None_short in Hnone; [|apply Hinv].
      unfold in_progress_attempts in Hnone. by rewrite Hnone.
    + simpl. lia.
  - etrans; [apply in_progress_of_complete|done].
  - etrans; [apply in_progress_of_delete|done].
Qed.

Lemma step_at_most_one (db db' : Database) :
  step db db' -> at_most_one_in_progress db -> at_most_one_in_progress db'.
Proof.
  intros Hstep Hinv examId userId. unfold in_progress_attempts.
  eapply attempts_change_at_most_one; [done|]. by apply step_attempts_change.
Qed.

(** C8. Along every sequential run from a backend with at most one
    attempt in progress per student and exam (for one, a backend with
    no attempt yet), there is at most one at any time.  Start looks the
    attempt in progress up first: when there is one, neither the
    dashboard nor the exam page adds a row. *)
Theorem one_attempt_in_progress (db db' : Database) :
  at_most_one_in_progress db -> run db db' ->
  at_most_one_in_progress db'
  /\ forall examId userId now new_id a,
       single (in_progress_attempts examId userId db') = Some a ->
       (forall st, (Dashboard.startExam examId userId now new_id db' st).1 = db')
       /\ (forall st,
             (ExamPage.fetchExamData examId userId now new_id db' st).1 = db').
Proof.
  intros Hinv Hrun. split.
  - induction Hrun as [|db1 db2 db3 _ IH Hstep]; [done|].
    eapply step_at_most_one; [done|]. by apply IH.
  - intros examId userId now new_id a Ha. split; intros st.
    + unfold Dashboard.startExam. by rewrite Ha.
    + unfold ExamPage.fetchExamData.
      destruct (single (exams_by_id examId db')) as [e|]; [|done].
      destruct (e_is_active e); [|done]. by rewrite Ha.
Qed.

Lemma one_attempt_in_progress_witness :
  at_most_one_in_progress
    (Dashboard.startExam "e1" "s1" 5 "a2" demo_started.1 Dashboard.initial).1.
Proof.
  apply (one_attempt_in_progress demo_db).
  - intros examId userId. simpl. lia.
  - eapply run_snoc; [eapply run_snoc; [apply run_nil|]|].
    + apply (step_fetchExamData "e1" "s1" 0 "a1" demo_db (ExamPage.initial "e1")).
    + apply step_startExam.
Defined.

(** ** The marks of an attempt *)

(** What one operation does to the table of attempts: nothing; the
    insert of a new attempt, with the marks of the exam the lookup by
    its identifier found; the completing update of the rows of one
    identifier; a delete. *)
Lemma step_attempts_cases (db db' : Database) :
  step db db' ->
  exam_attempts db' = exam_attempts db
  \/ (exists new_id examId userId now e,
        single (exams_by_id examId db) = Some e
        /\ exam_attempts db'
           = (exam_attempts db
              ++ [new_attempt new_id examId userId now (e_total_marks e)])%list)
  \/ (exists id score percentage now,
        exam_attempts db'
        = update_where (fun r => a_id r = id)
            (ExamPage.complete_attempt score percentage now) (exam_attempts db))
  \/ (exists (P : ExamAttempt -> Prop) (HP : forall a, Decision (P a)),
        exam_attempts db' = delete_where P (exam_attempts db)).
Proof.
  assert (forall now db st,
            exam_attempts (ExamPage.handleSubmitExam now db st).1
            = exam_attempts db
            \/ exists id score percentage now',
                 exam_attempts (ExamPage.handleSubmitExam now db st).1
                 = update_where (fun r => a_id r = id)
                     (ExamPage.complete_attempt score percentage now')
                     (exam_attempts db)) as Hsubmit.
  { intros now db0 st. unfold ExamPage.handleSubmitExam.
    destruct (ExamPage.isSubmitting st); [by left|].
    destruct (ExamPage.currentAttempt st) as [a|]; [|by left].
    destruct (ExamPage.gradeAnswers _ _ _ _ _) as [tbl [[score n]|]]; simpl;
      [|by left].
    right. by eexists _, _, _, _. }
  destruct 1.
  - unfold ExamPage.fetchExamData.
    destruct (single (exams_by_id examId db)) as [e|] eqn:He; [|by left].
    destruct (e_is_active e); simpl; [|by left].
    destruct (single (in_progress_attempts examId userId db)) eqn:Ha; simpl;
      [by left|].
    right. left. by exists new_id, examId, userId, now, e.
  - left. unfold ExamPage.handleAnswerSelect. by split_cases.
  - destruct (Hsubmit now db st) as [H|H]; [by left|by right; right; left].
  - unfold ExamPage.runTimerEffect.
    destruct (ExamPage.timerEffect st); [by left| |by left].
    destruct (Hsubmit now db st) as [H|H]; [by left|by right; right; left].
  - unfold Dashboard.startExam.
    destruct (single (in_progress_attempts examId userId db)) eqn:Ha; simpl;
      [by left|].
    destruct (single (exams_by_id examId db)) as [e|] eqn:He; simpl; [|by left].
    right. left. by exists new_id, examId, userId, now, e.
  - left. unfold QuestionManager.settled.
    by rewrite questionsEffect_attempts, handleSubmit_attempts.
  - left. unfold QuestionManager.settled.
    by rewrite questionsEffect_attempts, handleDelete_attempts.
  - left. unfold QuestionManager.mount.
    destruct (QuestionManager.questionsEffect examId db QuestionManager.initial)
      as [db1 st1] eqn:H1.
    unfold QuestionManager.settled. rewrite questionsEffect_attempts. simpl.
    change db1 with (db1, st1).1. rewrite <- H1. apply questionsEffect_attempts.
  - by left.
  - by left.
  - unfold AdminPanel.deleteSubject. destruct confirmed; simpl; [|by left].
    right. right. right. by eexists _, _.
  - left. unfold AdminPanel.createExam. by split_cases.
  - by left.
  - unfold AdminPanel.deleteExam. destruct confirmed; simpl; [|by left].
    right. right. right. by exists (fun a => a_exam_id a = id), _.
  - left. unfold AdminPanel.toggleUserRole. by split_cases.
Qed.

Lemma same_attempt_refl (a : ExamAttempt) : same_attempt a a.
Proof. by repeat split. Qed.

Lemma same_attempt_trans (a b c : ExamAttempt) :
  same_attempt a b -> same_attempt b c -> same_attempt a c.
Proof.
  intros (? & ? & ? & ?) (? & ? & ? & ?). repeat split; congruence.
Qed.

Lemma marks_kept_refl (l : list ExamAttempt) : marks_kept l l.
Proof.
  induction l as [|a l IH]; constructor; [apply same_attempt_refl|done|done].
Qed.

Lemma marks_kept_nil_l (l' : list ExamAttempt) : marks_kept [] l' -> l' = [].
Proof. by inversion 1. Qed.

Lemma marks_kept_trans (l1 l2 l3 : list ExamAttempt) :
  marks_kept l1 l2 -> marks_kept l2 l3 -> marks_kept l1 l3.
Proof.
  intros H12. revert l3.
  induction H12 as [|a a' l l' Hsame Hmarks _ IH|a l l' _ IH]; intros l3 H23.
  - done.
  - inversion H23 as [|b b' m m' Hsame' Hmarks' Hrest|b m m' Hrest]; subst.
    + apply kept_row; [by eapply same_attempt_trans|congruence|by apply IH].
    + apply kept_gone. by apply IH.
  - apply kept_gone. by apply IH.
Qed.

Lemma marks_kept_complete (id : string) (score : Z) (percentage : Q) (now : Z)
    (l : list ExamAttempt) :
  marks_kept l
    (update_where (fun r => a_id r = id)
       (ExamPage.complete_attempt score percentage now) l).
Proof.
  unfold update_where. induction l as [|a l IH]; [constructor|].
  rewrite fmap_cons. apply kept_row; [|by case_decide|done].
  case_decide; by repeat split.
Qed.

Lemma marks_kept_delete (P : ExamAttempt -> Prop)
    `{!forall a, Decision (P a)} (l : list ExamAttempt) :
  marks_kept l (delete_where P l).
Proof.
  unfold delete_where. induction l as [|a l IH]; [constructor|].
  rewrite filter_cons. case_decide.
  - apply kept_row; [apply same_attempt_refl|done|done].
  - by apply kept_gone.
Qed.

Lemma marks_kept_app_inv (l1 l2 l' : list ExamAttempt) :
  marks_kept (l1 ++ l2) l' ->
  exists l1' l2', l' = (l1' ++ l2')%list
                  /\ marks_kept l1 l1' /\ marks_kept l2 l2'.
Proof.
  revert l'. induction l1 as [|a l1 IH]; intros l' H; simpl in H.
  - exists [], l'. split; [done|]. split; [constructor|done].
  - inversion H as [|b b' m m' Hsame Hmarks Hrest|b m m' Hrest]; subst.
    + destruct (IH _ Hrest) as (l1' & l2' & -> & H1 & H2).
      exists (b' :: l1'), l2'. split; [done|]. split; [|done].
      by apply kept_row.
    + destruct (IH _ Hrest) as (l1' & l2' & -> & H1 & H2).
      exists l1', l2'. split; [done|]. split; [|done]. by apply kept_gone.
Qed.

Lemma marks_kept_elem_of (l l' : list ExamAttempt) (a' : ExamAttempt) :
  marks_kept l l' -> a' ∈ l' ->
  exists a, a ∈ l /\ same_attempt a a' /\ a_total_marks a' = a_total_marks a.
Proof.
  induction 1 as [|a b l l' Hsame Hmarks _ IH|a l l' _ IH]; intros Hin.
  - by apply elem_of_nil in Hin.
  - apply elem_of_cons in Hin as [->|Hin].
    + exists a. split; [apply list_elem_of_here|done].
    + destruct (IH Hin) as (x & Hx & ?). exists x.
      split; [by apply list_elem_of_further|done].
  - destruct (IH Hin) as (x & Hx & ?). exists x.
    split; [by apply list_elem_of_further|done].
Qed.

(** One operation: the rows that were there stay in their order, each
    with its identity and its [total_marks], or go; at most one row is
    added, and it is a new attempt with the marks of its exam. *)
Lemma step_marks_kept (db db' : Database) :
  step db db' ->
  exists survivors created,
    exam_attempts db' = (survivors ++ created)%list
    /\ marks_kept (exam_attempts db) survivors
    /\ (created = [] \/ exists a0, created = [a0] /\ created_by db db' a0).
Proof.
  intros Hstep.
  destruct (step_attempts_cases db db' Hstep)
    as [Hsame|[(new_id & examId & userId & now & e & He & Hnew)
              |[(id & score & percentage & now & Hdone)|(P & HP & Hdel)]]].
  - exists (exam_attempts db), []. rewrite app_nil_r.
    split; [done|]. split; [apply marks_kept_refl|by left].
  - eexists (exam_attempts db), [_]. split; [exact Hnew|].
    split; [apply marks_kept_refl|]. right. eexists. split; [done|].
    split; [exact Hstep|]. split; [exact Hnew|]. exists e. split; [|done].
    simpl. apply exams_by_id_single in He as Hid. destruct Hid as [_ <-].
    exact He.
  - eexists _, []. rewrite app_nil_r. split; [exact Hdone|].
    split; [apply marks_kept_complete|by left].
  - eexists _, []. rewrite app_nil_r. split; [exact Hdel|].
    split; [apply marks_kept_delete|by left].
Qed.

Lemma trace_step (db : Database) (t : list Database) (k : nat)
    (dbk dbk' : Database) :
  trace db t ->
  (db :: t) !! k = Some dbk -> (db :: t) !! S k = Some dbk' -> step dbk dbk'.
Proof.
  revert db k. induction t as [|x t IH]; intros db k Htrace Hk Hk'.
  - destruct k; simpl in Hk'; done.
  - destruct Htrace as [Hstep Htrace]. destruct k as [|k].
    + simpl in Hk, Hk'. by simplify_eq.
    + apply (IH x k); done.
Qed.

(** C9. Along a run, between any two of its moments: the table of
    attempts at the later moment is made of rows of the table at the
    earlier one, in their order, each with the identity and the
    [total_marks] it had then, followed by the attempts created in
    between; each of these was added by one operation of the run, with
    the [total_marks] that the exam of its identifier had in the
    backend just before that operation, and has kept that value since.
    So [total_marks] of an attempt is written at its creation and by no
    later operation, on the exam, its questions or the attempt. *)
Theorem attempt_total_marks_is_a_snapshot (db : Database) (t : list Database) :
  trace db t ->
  forall i j dbi dbj,
    (i <= j)%nat -> (db :: t) !! i = Some dbi -> (db :: t) !! j = Some dbj ->
    exists survivors created,
      exam_attempts dbj = (survivors ++ created)%list
      /\ marks_kept (exam_attempts dbi) survivors
      /\ Forall (created_since db t i j) created.
Proof.
  intros Htrace i j dbi dbj Hij. revert dbj.
  induction Hij as [|j Hij IH]; intros dbj Hi Hj.
  - assert (dbj = dbi) as -> by congruence.
    exists (exam_attempts dbi), []. rewrite app_nil_r.
    split; [done|]. split; [apply marks_kept_refl|constructor].
  - assert (is_Some ((db :: t) !! j)) as [dbm Hm].
    { apply lookup_lt_is_Some. apply lookup_lt_Some in Hj. lia. }
    destruct (IH dbm Hi Hm) as (S1 & C1 & Heq & Hkept & Hcreated).
    pose proof (trace_step db t j dbm dbj Htrace Hm Hj) as Hstep.
    destruct (step_marks_kept dbm dbj Hstep) as (S2 & C2 & Heq2 & Hkept2 & Hnew).
    rewrite Heq in Hkept2.
    apply marks_kept_app_inv in Hkept2 as (S1' & C1' & -> & HS & HC).
    exists S1', (C1' ++ C2)%list. split; [by rewrite Heq2, app_assoc|].
    split; [by eapply marks_kept_trans|].
    apply Forall_app. split.
    + apply Forall_forall. intros a' Ha'.
      destruct (marks_kept_elem_of _ _ a' HC Ha') as (a & Ha & Hsame & Hmarks).
      rewrite Forall_forall in Hcreated.
      destruct (Hcreated a Ha)
        as (k & dbk & dbk' & a0 & Hk & Hlk & Hlk' & Hby & Hsame0 & Hmarks0).
      exists k, dbk, dbk', a0. split; [lia|]. do 3 (split; [done|]).
      split; [by eapply same_attempt_trans|congruence].
    + destruct Hnew as [->|(a0 & -> & Hby)]; [constructor|].
      constructor; [|constructor].
      exists j, dbm, dbj, a0. split; [lia|]. do 3 (split; [done|]).
      split; [apply same_attempt_refl|done].
Qed.

(** The run of the small school: the student opens the exam and
    answers, an admin opens the question manager and regrades the
    question, the student submits. *)
Lemma attempt_total_marks_is_a_snapshot_witness :
  e_total_marks <$> exams demo_db = [10]
  /\ e_total_marks <$> exams demo_submitted_after_regrade.1 = [20]
  /\ a_total_marks <$> exam_attempts demo_submitted_after_regrade.1 = [10]
  /\ exists survivors created,
       exam_attempts demo_submitted_after_regrade.1
       = (survivors ++ created)%list
       /\ marks_kept (exam_attempts demo_db) survivors
       /\ Forall (created_since demo_db demo_trace 0 5) created.
Proof.
  split; [reflexivity|]. split; [vm_compute; reflexivity|].
  split; [vm_compute; reflexivity|].
  apply (attempt_total_marks_is_a_snapshot demo_db demo_trace);
    [|lia|reflexivity|reflexivity].
  unfold demo_trace. cbn [trace].
  split; [|split; [|split; [|split; [|split; [|exact I]]]]].
  - exact (step_fetchExamData "e1" "s1" 0 "a1" demo_db (ExamPage.initial "e1")).
  - exact (step_handleAnswerSelect "s1" "q1" "B" demo_started.1 demo_started.2).
  - exact (step_question_mount "e1" (demo_answered "B").1).
  - refine (step_question_submit "e1" "q2" _ _).
  - exact (step_handleSubmitExam 60000 demo_regraded.1 (demo_answered "B").2).
Defined.

(** ** The total marks of an exam *)

Lemma sumZ_Permutation (l l' : list Z) : l ≡ₚ l' -> sumZ l = sumZ l'.
Proof.
  induction 1 as [|x l l' _ IH|x y l|l1 l2 l3 _ IH1 _ IH2]; unfold sumZ in *;
    simpl; lia.
Qed.

Lemma totalMarks_from (qs : list Question) (acc : Z) :
  fold_left (fun sum q => sum + q_marks q) qs acc = acc + sumZ (q_marks <$> qs).
Proof.
  revert acc. induction qs as [|q qs IH]; intros acc; unfold sumZ in *.
  - simpl. lia.
  - rewrite fmap_cons. simpl. rewrite IH. lia.
Qed.

(** The sum the manager computes over the fetched list is the sum over
    the questions of the exam, in whatever order they were fetched. *)
Lemma totalMarks_questions_of_exam (examId : string) (db : Database) :
  QuestionManager.totalMarks (questions_of_exam examId db)
  = sumZ (q_marks <$> exam_questions examId db).
Proof.
  unfold QuestionManager.totalMarks. rewrite totalMarks_from, Z.add_0_l.
  apply sumZ_Permutation. unfold questions_of_exam.
  by rewrite merge_sort_Permutation.
Qed.

Lemma questions_of_exam_length (examId : string) (db : Database) :
  length (questions_of_exam examId db) = length (exam_questions examId db).
Proof.
  unfold questions_of_exam. by rewrite merge_sort_Permutation.
Qed.

Lemma update_exam_total_marks_in_sync (examId : string) (db : Database) :
  marks_in_sync examId
    (update_exam_total_marks examId
       (sumZ (q_marks <$> exam_questions examId db)) db).
Proof.
  intros e He Hid. unfold update_exam_total_marks in He. simpl in He.
  apply update_where_elem_of in He as (r & _ & ->).
  destruct (decide (e_id r = examId)) as [_|Hne]; [done|].
  by destruct Hne.
Qed.

(** After the fetch that follows a change of the questions, the effect
    of the manager writes the sum of the marks when the exam has a
    question left, and writes nothing when it has none. *)
Lemma fetch_then_effect (examId : string) (db : Database)
    (st : QuestionManager.state) :
  let r :=
    QuestionManager.settled examId
      (db, QuestionManager.fetchQuestions examId db st) in
  questions r.1 = questions db
  /\ (exam_questions examId db <> [] -> marks_in_sync examId r.1)
  /\ (exam_questions examId db = [] -> r.1 = db).
Proof.
  unfold QuestionManager.settled, QuestionManager.questionsEffect,
    QuestionManager.updateExamTotalMarks. simpl.
  rewrite questions_of_exam_length, totalMarks_questions_of_exam.
  destruct (Nat.ltb_spec 0 (length (exam_questions examId db))) as [Hpos|Hzero].
  - split; [done|]. split.
    + intros _. apply update_exam_total_marks_in_sync.
    + intros Hnil. rewrite Hnil in Hpos. simpl in Hpos. lia.
  - split; [done|]. split; [|done].
    intros Hne. destruct (exam_questions examId db); [done|].
    simpl in Hzero. lia.
Qed.

Lemma settled_after_change (examId : string) (db db' : Database)
    (st : QuestionManager.state) :
  exams db' = exams db ->
  let r :=
    QuestionManager.settled examId
      (db', QuestionManager.fetchQuestions examId db' st) in
  (exam_questions examId r.1 <> [] -> marks_in_sync examId r.1)
  /\ (exam_questions examId r.1 = [] -> exams r.1 = exams db).
Proof.
  intros Hexams r.
  destruct (fetch_then_effect examId db' st) as (Hq & Hsync & Hsame).
  fold r in Hq, Hsync, Hsame.
  assert (exam_questions examId r.1 = exam_questions examId db') as ->
    by (unfold exam_questions; by rewrite Hq).
  split; [done|]. intros Hnil. by rewrite (Hsame Hnil).
Qed.

(** A create or an update of the dialog changes the questions, then
    fetches them. *)
Lemma handleSubmit_changes (examId new_id : string) (db : Database)
    (st : QuestionManager.state) :
  truthy (f_correct_answer (QuestionManager.questionForm st)) = true ->
  exists db' st',
    QuestionManager.handleSubmit examId new_id db st
    = (db', QuestionManager.fetchQuestions examId db' st')
    /\ exams db' = exams db.
Proof.
  intros Htruthy. unfold QuestionManager.handleSubmit. rewrite Htruthy. simpl.
  destruct (QuestionManager.editingQuestion st) as [q|]; eexists _, _; done.
Qed.

Lemma handleDelete_changes (examId questionId : string) (db : Database)
    (st : QuestionManager.state) :
  exists db' st',
    QuestionManager.handleDelete true examId questionId db st
    = (db', QuestionManager.fetchQuestions examId db' st')
    /\ exams db' = exams db.
Proof. unfold QuestionManager.handleDelete. simpl. eexists _, _. done. Qed.

(** C3, as stated, fails when the last question of an exam is deleted:
    the effect of the manager runs only for a list that is not empty,
    so [total_marks] keeps the value it had, here 10 with no question
    left. *)
Lemma last_question_deleted_total_marks_stale :
  exam_questions "e1" demo_last_deleted.1 = []
  /\ e_total_marks <$> exams demo_last_deleted.1 = [10]
  /\ ~ marks_in_sync "e1" demo_last_deleted.1.
Proof.
  split; [vm_compute; reflexivity|]. split; [vm_compute; reflexivity|].
  intros Hsync. specialize (Hsync demo_exam).
  assert (e_total_marks demo_exam = 0) as H; [|discriminate H].
  apply Hsync; [|reflexivity]. vm_compute. apply list_elem_of_here.
Qed.

(** C3, amended. After a question of exam E is created or updated (the
    dialog saved with a correct answer selected) or deleted through the
    manager and the manager has settled, [total_marks] of E is the sum
    of the marks of the questions of E when E has a question left; when
    it has none, the exams are as they were before the operation. *)
Theorem question_change_syncs_total_marks (examId new_id questionId : string)
    (db : Database) (st : QuestionManager.state) :
  forall r,
    (truthy (f_correct_answer (QuestionManager.questionForm st)) = true
     /\ r = QuestionManager.settled examId
              (QuestionManager.handleSubmit examId new_id db st))
    \/ r = QuestionManager.settled examId
             (QuestionManager.handleDelete true examId questionId db st) ->
    (exam_questions examId r.1 <> [] -> marks_in_sync examId r.1)
    /\ (exam_questions examId r.1 = [] -> exams r.1 = exams db).
Proof.
  intros r [[Htruthy ->]| ->].
  - destruct (handleSubmit_changes examId new_id db st Htruthy)
      as (db' & st' & -> & Hexams).
    by apply settled_after_change.
  - destruct (handleDelete_changes examId questionId db st)
      as (db' & st' & -> & Hexams).
    by apply settled_after_change.
Qed.

Lemma question_change_syncs_total_marks_witness :
  e_total_marks <$> exams demo_regraded.1 = [20]
  /\ marks_in_sync "e1" demo_regraded.1.
Proof.
  split; [vm_compute; reflexivity|].
  apply (question_change_syncs_total_marks "e1" "q2" "q1"
           (QuestionManager.mount "e1" (demo_answered "B").1).1
           (QuestionManager.setQuestionForm
              (mkQuestionForm "2 + 2 = ?" "3" "4" "5" "6" "B" 20 1)
              (QuestionManager.handleEdit demo_question
                 (QuestionManager.mount "e1" (demo_answered "B").1).2))
           demo_regraded).
  - left. split; reflexivity.
  - vm_compute. discriminate.
Defined.

(** ** Roles and the policies of [profiles] *)

Lemma head_filter_unique_id (rows : list Profile) (P : Profile) :
  NoDup (p_id <$> rows) -> P ∈ rows ->
  head (filter (fun p => p_id p = p_id P) rows) = Some P.
Proof.
  induction rows as [|x rows IH]; intros Hnodup Hin.
  - by apply elem_of_nil in Hin.
  - rewrite fmap_cons in Hnodup. apply NoDup_cons in Hnodup as [Hnotin Hnodup].
    rewrite filter_cons. apply elem_of_cons in Hin as [->|Hin].
    + by rewrite decide_True.
    + rewrite decide_False; [by apply IH|].
      intros Heq. apply Hnotin. rewrite Heq.
      apply list_elem_of_fmap. by exists P.
Qed.

Lemma mapM_total {A B : Type} (f : A -> option B) (g : A -> B) (l : list A) :
  (forall x, f x = Some (g x)) -> mapM f l = Some (g <$> l).
Proof.
  intros Hf. induction l as [|x l IH]; [done|].
  simpl. rewrite Hf, IH. done.
Qed.

(** C1. The resolver answers with the role of the profile, but the
    policy of the own row checks the identifier only: the student [s1]
    of the school, for whom the resolver answers [student], sends the
    request of the role button for the own row; the update passes the
    policies of [profiles], the panel reports the new role, and the
    resolver answers [admin] for [s1] from then on. *)
Theorem student_promotes_own_role :
  get_current_user_role demo_db "s1" = Some "student"
  /\ profiles_update_allowed demo_db "s1"
       (mkProfile "s1" "Sam" "sam@mail.com" "student")
       (mkProfile "s1" "Sam" "sam@mail.com" "admin") = true
  /\ AdminPanel.toasts demo_self_promoted.2 = ["User role updated to admin"]
  /\ get_current_user_role demo_self_promoted.1 "s1" = Some "admin".
Proof. vm_compute. done. Qed.

(** With one profile per identifier, the resolver answers [admin] for a
    profile exactly when its role is [admin].  The policies let an
    identity that is not an admin write its own row and no other: an
    update passes exactly when the row before and the row after carry
    its identifier, whatever the other columns; the request that sets a
    role changes the own row only. *)
Lemma resolver_and_profile_policies (db : Database) :
  NoDup (p_id <$> profiles db) ->
  (forall P, P ∈ profiles db ->
     (get_current_user_role db (p_id P) = Some "admin" <-> p_role P = "admin"))
  /\ (forall uid, get_current_user_role db uid <> Some "admin" ->
       (forall old new,
          profiles_update_allowed db uid old new = true
          <-> p_id old = uid /\ p_id new = uid)
       /\ (forall userId role,
             profiles_update_role db uid userId role
             = Some (update_where (fun r => p_id r = userId /\ p_id r = uid)
                       (set_role role) (profiles db)))).
Proof.
  intros Hnodup. split.
  - intros P HP. unfold get_current_user_role.
    rewrite (head_filter_unique_id _ P Hnodup HP). simpl.
    split; [by intros [= ->]|by intros ->].
  - intros uid Hnot.
    assert (forall row, profiles_using db uid row = bool_decide (uid = p_id row))
      as Husing.
    { intros row. unfold profiles_using, admin_can_manage_all_profiles,
        users_can_manage_own_profile.
      by rewrite (bool_decide_eq_false_2 _ Hnot). }
    split.
    + intros old new. unfold profiles_update_allowed, profiles_with_check.
      rewrite !Husing, andb_true_iff, !bool_decide_eq_true.
      split; intros [? ?]; split; congruence.
    + intros userId role. unfold profiles_update_role, update_where.
      apply mapM_total. intros row. unfold profiles_with_check.
      rewrite !Husing. simpl.
      destruct (decide (p_id row = userId)) as [Hid|Hid].
      * case_bool_decide as Hown.
        -- rewrite decide_True; [done|]. by split.
        -- rewrite decide_False; [done|]. intros [_ ?]. by apply Hown.
      * rewrite decide_False; [done|]. by intros [? _].
Qed.

(** ** Recording an answer *)

Lemma NoDup_fmap_elem {A B : Type} (f : A -> B) (l : list A) (x y : A) :
  NoDup (f <$> l) -> x ∈ l -> y ∈ l -> f x = f y -> x = y.
Proof.
  induction l as [|z l IH]; intros Hnodup Hx Hy Hf.
  - by apply elem_of_nil in Hx.
  - rewrite fmap_cons in Hnodup. apply NoDup_cons in Hnodup as [Hz Hnodup].
    apply elem_of_cons in Hx as [->|Hx]; apply elem_of_cons in Hy as [->|Hy].
    + done.
    + destruct Hz. rewrite Hf. apply list_elem_of_fmap. by exists y.
    + destruct Hz. rewrite <- Hf. apply list_elem_of_fmap. by exists x.
    + by apply IH.
Qed.

(** After an upsert the table has a row with the key, every row with
    the key carries the answer, and every other row was there before. *)
Lemma upsert_answer_rows (attemptId questionId answer : string)
    (rows : list StudentAnswer) :
  (exists row, row ∈ upsert_answer attemptId questionId answer rows
               /\ same_answer_key attemptId questionId row)
  /\ (forall row, row ∈ upsert_answer attemptId questionId answer rows ->
        same_answer_key attemptId questionId row ->
        sa_selected_answer row = answer)
  /\ (forall row, row ∈ upsert_answer attemptId questionId answer rows ->
        ~ same_answer_key attemptId questionId row -> row ∈ rows).
Proof.
  unfold upsert_answer.
  destruct (decide (Exists (same_answer_key attemptId questionId) rows))
    as [Hex|Hnone].
  - repeat apply conj.
    + apply Exists_exists in Hex as (r & Hr & Hkey).
      exists (set_selected_answer answer r). split; [|exact Hkey].
      apply update_where_elem_of. exists r. split; [done|].
      by rewrite decide_True.
    + intros row (r & Hr & ->)%update_where_elem_of Hkey.
      destruct (decide (same_answer_key attemptId questionId r)); done.
    + intros row (r & Hr & ->)%update_where_elem_of Hkey.
      destruct (decide (same_answer_key attemptId questionId r)); done.
  - apply not_Exists_Forall in Hnone; [|intros r; apply _].
    rewrite Forall_forall in Hnone. repeat apply conj.
    + eexists. split; [apply elem_of_app; right; apply list_elem_of_here|].
      by split.
    + intros row [Hold|Hnew%list_elem_of_singleton]%elem_of_app Hkey.
      * by destruct (Hnone row Hold).
      * by subst row.
    + intros row [Hold|Hnew%list_elem_of_singleton]%elem_of_app Hkey; [done|].
      subst row. destruct Hkey. by split.
Qed.

(** The late answer of the school: the attempt was submitted with
    answer B and is completed; a second tab of the page, loaded before
    the submit, then selects A.  Under the write rule the request is
    refused: the table keeps B and the page reports the failure. *)
Example late_answer_is_refused :
  a_status <$> exam_attempts (demo_submitted "B").1 = ["completed"]
  /\ sa_selected_answer <$> student_answers (demo_submitted "B").1 = ["B"]
  /\ demo_late_answer.1 = (demo_submitted "B").1
  /\ ExamPage.toasts demo_late_answer.2 = ["Failed to save answer"].
Proof. vm_compute. done. Qed.




(** * Further properties of the pages *)

(** ** The forms of the sign-in page *)

Lemma truthy_true_iff (s : string) : truthy s = true <-> s <> EmptyString.
Proof. destruct s; simpl; split; congruence. Qed.

Lemma truthy_false_iff (s : string) : truthy s = false <-> s = EmptyString.
Proof. destruct s; simpl; split; congruence. Qed.

Lemma signIn_form_valid_dec (d : SignInData) :
  signIn_form_valid d \/ ~ signIn_form_valid d.
Proof.
  unfold signIn_form_valid.
  destruct (truthy (si_email d)) eqn:He;
    [apply truthy_true_iff in He|apply truthy_false_iff in He; right; tauto].
  destruct (truthy (si_password d)) eqn:Hp;
    [apply truthy_true_iff in Hp|apply truthy_false_iff in Hp; right; tauto].
  destruct (truthy (si_role d)) eqn:Hr;
    [apply truthy_true_iff in Hr|apply truthy_false_iff in Hr; right; tauto].
  destruct (decide (si_role d = "admin")) as [Hadmin|Hother]; [|left; tauto].
  destruct (isNeuEmail (si_email d)) eqn:Hneu.
  - apply isNeuEmail_true_iff in Hneu. left. tauto.
  - apply isNeuEmail_false_iff in Hneu. right. tauto.
Qed.

(** X1. Sign-in reaches the identity provider exactly for a valid form:
    then one call is issued, with the address and the password of the
    form, and the page goes home exactly when the provider reports no
    error; for any other form nothing is sent, the provider's state is
    untouched and the page stays. *)
Theorem handleSignIn_calls_iff_valid {AuthState : Type}
    (signIn : string -> string -> AuthState -> AuthState * AuthReply)
    (d : SignInData) (st : AuthState) :
  let o := handleSignIn signIn d st in
  let reply := signIn (si_email d) (si_password d) st in
  (signIn_form_valid d
   /\ ao_calls o = [CallSignIn (si_email d) (si_password d)]
   /\ ao_auth o = reply.1
   /\ ao_navigate o = (if reply.2 is AuthOk then Some RHome else None))
  \/ (~ signIn_form_valid d
      /\ ao_calls o = [] /\ ao_auth o = st /\ ao_navigate o = None).
Proof.
  intros o reply. subst o reply.
  destruct (signIn_form_valid_dec d) as [Hv|Hv]; [left|right];
    (split; [exact Hv|]); unfold handleSignIn.
  - destruct Hv as (He%truthy_true_iff & Hp%truthy_true_iff
                    & Hr%truthy_true_iff & Hneu).
    rewrite He, Hp, Hr. simpl.
    destruct (String.eqb_spec (si_role d) "admin") as [Hadmin|_]; simpl.
    + apply Hneu, isNeuEmail_true_iff in Hadmin. rewrite Hadmin. simpl.
      by destruct (signIn (si_email d) (si_password d) st) as [st' []].
    + by destruct (signIn (si_email d) (si_password d) st) as [st' []].
  - destruct (truthy (si_email d)) eqn:He; [|done].
    destruct (truthy (si_password d)) eqn:Hp; [|done].
    destruct (truthy (si_role d)) eqn:Hr; [|done]. simpl.
    destruct (String.eqb_spec (si_role d) "admin") as [Hadmin|Hother]; simpl.
    + destruct (isNeuEmail (si_email d)) eqn:Hneu; [|done].
      destruct Hv. apply truthy_true_iff in He, Hp, Hr.
      apply isNeuEmail_true_iff in Hneu. by repeat split.
    + destruct Hv. apply truthy_true_iff in He, Hp, Hr. by repeat split.
Qed.

(** The length of a password is counted in UTF-16 code units: seven
    bytes of UTF-8 that spell five characters are too short, and two
    characters outside the basic plane count as four code units. *)
Example js_length_examples :
  js_length "secret" = 6%nat
  /\ String.length "pässé" = 7%nat /\ js_length "pässé" = 5%nat
  /\ String.length "ab😀😀" = 10%nat /\ js_length "ab😀😀" = 6%nat.
Proof. vm_compute. done. Qed.

Example signUp_short_password :
  ao_calls (handleSignUp demo_signUp
              (mkSignUpData "ana@mail.com" "pässé" "Ana" "pässé" "student") [])
  = []
  /\ ao_toasts (handleSignUp demo_signUp
                  (mkSignUpData "ana@mail.com" "pässé" "Ana" "pässé" "student")
                  [])
     = ["Password must be at least 6 characters"].
Proof. vm_compute. done. Qed.

Lemma signUp_form_valid_dec (d : SignUpData) :
  signUp_form_valid d \/ ~ signUp_form_valid d.
Proof.
  unfold signUp_form_valid.
  destruct (truthy (su_email d)) eqn:He;
    [apply truthy_true_iff in He|apply truthy_false_iff in He; right; tauto].
  destruct (truthy (su_password d)) eqn:Hp;
    [apply truthy_true_iff in Hp|apply truthy_false_iff in Hp; right; tauto].
  destruct (truthy (su_fullName d)) eqn:Hf;
    [apply truthy_true_iff in Hf|apply truthy_false_iff in Hf; right; tauto].
  destruct (truthy (su_confirmPassword d)) eqn:Hc;
    [apply truthy_true_iff in Hc|apply truthy_false_iff in Hc; right; tauto].
  destruct (truthy (su_role d)) eqn:Hr;
    [apply truthy_true_iff in Hr|apply truthy_false_iff in Hr; right; tauto].
  destruct (decide (su_password d = su_confirmPassword d)); [|right; tauto].
  destruct (decide (6 <= js_length (su_password d))%nat); [|right; tauto].
  destruct (decide (su_role d = "admin")) as [Hadmin|Hother]; [|left; tauto].
  destruct (isNeuEmail (su_email d)) eqn:Hneu.
  - apply isNeuEmail_true_iff in Hneu. left. tauto.
  - apply isNeuEmail_false_iff in Hneu. right. tauto.
Qed.

(** X2. Sign-up reaches the identity provider exactly for a valid form:
    then one call is issued, with the data of the form, and the page
    goes home exactly when the provider reports no error; for any other
    form (a field empty, an admin address outside the domain, the two
    passwords different, a password under six UTF-16 code units) nothing
    is sent and the provider's state is untouched. *)
Theorem handleSignUp_calls_iff_valid {AuthState : Type}
    (signUp : string -> string -> string -> string -> AuthState
              -> AuthState * AuthReply)
    (d : SignUpData) (st : AuthState) :
  let o := handleSignUp signUp d st in
  let reply :=
    signUp (su_email d) (su_password d) (su_fullName d) (su_role d) st in
  (signUp_form_valid d
   /\ ao_calls o
      = [CallSignUp (su_email d) (su_password d) (su_fullName d) (su_role d)]
   /\ ao_auth o = reply.1
   /\ ao_navigate o = (if reply.2 is AuthOk then Some RHome else None))
  \/ (~ signUp_form_valid d
      /\ ao_calls o = [] /\ ao_auth o = st /\ ao_navigate o = None).
Proof.
  intros o reply. subst o reply.
  destruct (signUp_form_valid_dec d) as [Hv|Hv]; [left|right];
    (split; [exact Hv|]); unfold handleSignUp.
  - destruct Hv as (He%truthy_true_iff & Hp%truthy_true_iff
                    & Hf%truthy_true_iff & Hc%truthy_true_iff
                    & Hr%truthy_true_iff & Hneu & Hsame & Hlen).
    rewrite He, Hp, Hf, Hc, Hr. simpl.
    assert (String.eqb (su_role d) "admin" && negb (isNeuEmail (su_email d))
            = false) as ->.
    { destruct (String.eqb_spec (su_role d) "admin") as [Hadmin|_]; [|done].
      apply Hneu, isNeuEmail_true_iff in Hadmin. by rewrite Hadmin. }
    rewrite <- Hsame, String.eqb_refl. simpl.
    destruct (Nat.ltb_spec (js_length (su_password d)) 6) as [|_]; [lia|].
    destruct (signUp _ _ _ _ st) as [st' [|m|]]; simpl; [done| |done].
    by destruct (includes m "already registered").
  - destruct (truthy (su_email d)) eqn:He; [|done].
    destruct (truthy (su_password d)) eqn:Hp; [|done].
    destruct (truthy (su_fullName d)) eqn:Hf; [|done].
    destruct (truthy (su_confirmPassword d)) eqn:Hc; [|done].
    destruct (truthy (su_role d)) eqn:Hr; [|done]. simpl.
    destruct (String.eqb (su_role d) "admin" && negb (isNeuEmail (su_email d)))
      eqn:Hdomain; [done|].
    destruct (String.eqb_spec (su_password d) (su_confirmPassword d))
      as [Hsame|_]; [|done]. simpl.
    destruct (Nat.ltb_spec (js_length (su_password d)) 6) as [|Hlen];
      [done|].
    destruct Hv. apply truthy_true_iff in He, Hp, Hf, Hc, Hr.
    repeat split; try done. intros Hadmin.
    apply isNeuEmail_true_iff. rewrite Hadmin in Hdomain. simpl in Hdomain.
    by destruct (isNeuEmail (su_email d)).
Qed.

(** ** Moving between the questions *)

(** X3. While the exam has questions and the index of the current
    question points into the list, Previous, Next and every numbered
    button leave it pointing into the list, so the page always has a
    current question; Previous stops at the first question and Next at
    the last. *)
Theorem question_index_stays_in_bounds (st : ExamPage.state) (index : nat) :
  index_in_bounds st ->
  index_in_bounds (ExamPage.previousQuestion st)
  /\ index_in_bounds (ExamPage.nextQuestion st)
  /\ index_in_bounds (ExamPage.jumpToQuestion index st)
  /\ is_Some (ExamPage.currentQuestion st)
  /\ (ExamPage.currentQuestionIndex st = 0 ->
      ExamPage.previousQuestion st = st)
  /\ (ExamPage.currentQuestionIndex st
      = Z.of_nat (length (ExamPage.questions st)) - 1 ->
      ExamPage.nextQuestion st = st).
Proof.
  unfold index_in_bounds. intros Hin.
  split; [|split; [|split; [|split; [|split]]]].
  - unfold ExamPage.previousQuestion. simpl. lia.
  - unfold ExamPage.nextQuestion. simpl. lia.
  - unfold ExamPage.jumpToQuestion.
    destruct (Nat.ltb_spec index (length (ExamPage.questions st))); simpl; lia.
  - unfold ExamPage.currentQuestion.
    destruct (Z.leb_spec 0 (ExamPage.currentQuestionIndex st)); [|lia].
    apply lookup_lt_is_Some. lia.
  - intros H0. unfold ExamPage.previousQuestion. rewrite H0. simpl.
    destruct st; simpl in *. by subst.
  - intros Hlast. unfold ExamPage.nextQuestion.
    replace (Z.min _ _) with (ExamPage.currentQuestionIndex st) by lia.
    by destruct st.
Qed.

Lemma question_index_stays_in_bounds_witness :
  index_in_bounds (ExamPage.nextQuestion demo_started.2)
  /\ is_Some (ExamPage.currentQuestion demo_started.2).
Proof.
  destruct (question_index_stays_in_bounds demo_started.2 0)
    as (_ & Hnext & _ & Hcur & _).
  - unfold index_in_bounds. vm_compute. split; [discriminate|reflexivity].
  - split; [exact Hnext|exact Hcur].
Defined.

(** ** The answer sheet *)

Lemma update_where_update_where {A : Type} (P : A -> Prop)
    `{!forall r, Decision (P r)} (f g : A -> A) (rows : list A) :
  (forall r, P r -> P (f r)) ->
  update_where P g (update_where P f rows)
  = update_where P (fun r => g (f r)) rows.
Proof.
  intros Hkeep. unfold update_where. rewrite <- list_fmap_compose.
  apply list_fmap_ext. intros _ r _. simpl.
  destruct (decide (P r)) as [HP|HP].
  - by rewrite decide_True by by apply Hkeep.
  - by rewrite decide_False.
Qed.

Lemma update_where_none {A : Type} (P : A -> Prop)
    `{!forall r, Decision (P r)} (f : A -> A) (rows : list A) :
  ~ Exists P rows -> update_where P f rows = rows.
Proof.
  intros Hnone. apply not_Exists_Forall in Hnone; [|intros r; apply _].
  unfold update_where. induction Hnone as [|r rows Hr _ IH]; [done|].
  rewrite fmap_cons, IH. by rewrite decide_False.
Qed.

Lemma update_where_Exists {A : Type} (P : A -> Prop)
    `{!forall r, Decision (P r)} (f : A -> A) (rows : list A) :
  (forall r, P r -> P (f r)) ->
  Exists P rows -> Exists P (update_where P f rows).
Proof.
  intros Hkeep (r & Hr & HP)%Exists_exists. apply Exists_exists.
  exists (f r). split; [|by apply Hkeep].
  apply update_where_elem_of. exists r. split; [done|]. by rewrite decide_True.
Qed.

(** An upsert after an upsert of the same key leaves what the second
    alone would have left. *)
Lemma upsert_answer_twice (attemptId questionId x y : string)
    (rows : list StudentAnswer) :
  upsert_answer attemptId questionId y
    (upsert_answer attemptId questionId x rows)
  = upsert_answer attemptId questionId y rows.
Proof.
  unfold upsert_answer at 2 3.
  destruct (decide (Exists (same_answer_key attemptId questionId) rows))
    as [Hex|Hnone].
  - unfold upsert_answer. rewrite decide_True.
    + by rewrite update_where_update_where.
    + by apply update_where_Exists.
  - unfold upsert_answer. rewrite decide_True.
    + unfold update_where. rewrite fmap_app.
      fold (update_where (same_answer_key attemptId questionId)
              (set_selected_answer y) rows).
      rewrite update_where_none by done. simpl.
      by rewrite decide_True.
    + apply Exists_app. right. by constructor.
Qed.

Lemma handleAnswerSelect_stored (userId questionId answer : string)
    (db : Database) (st : ExamPage.state) (a : ExamAttempt) :
  ExamPage.currentAttempt st = Some a ->
  student_answers_write_allowed db userId (a_id a) = true ->
  ExamPage.handleAnswerSelect userId questionId answer db st
  = (set_student_answers
       (upsert_answer (a_id a) questionId answer (student_answers db)) db,
     ExamPage.setAnswers (<[questionId := answer]> (ExamPage.answers st)) st).
Proof.
  intros Hcur Hallowed. unfold ExamPage.handleAnswerSelect.
  by rewrite Hcur, Hallowed.
Qed.

(** X4. Selecting an option and then another for the same question
    leaves the backend and the page exactly as selecting the second
    alone: the last selection wins, and selecting the same option again
    changes nothing. *)
Theorem last_selected_answer_wins (userId questionId x y : string)
    (db : Database) (st : ExamPage.state) (a : ExamAttempt) :
  ExamPage.currentAttempt st = Some a ->
  student_answers_write_allowed db userId (a_id a) = true ->
  let r1 := ExamPage.handleAnswerSelect userId questionId x db st in
  ExamPage.handleAnswerSelect userId questionId y r1.1 r1.2
  = ExamPage.handleAnswerSelect userId questionId y db st.
Proof.
  intros Hcur Hallowed. simpl.
  rewrite (handleAnswerSelect_stored userId questionId x db st a) by done.
  rewrite (handleAnswerSelect_stored userId questionId y db st a) by done.
  rewrite (handleAnswerSelect_stored userId questionId y _ _ a) by done.
  unfold set_student_answers, ExamPage.setAnswers. simpl.
  by rewrite upsert_answer_twice, insert_insert_eq.
Qed.

Lemma last_selected_answer_wins_witness :
  ExamPage.handleAnswerSelect "s1" "q1" "B" (demo_answered "A").1
    (demo_answered "A").2
  = demo_answered "B".
Proof.
  apply (last_selected_answer_wins "s1" "q1" "A" "B" demo_started.1
           demo_started.2 (new_attempt "a1" "e1" "s1" 0 10));
    reflexivity.
Defined.

Lemma existingAnswers_from (rows : list StudentAnswer) (m : gmap string string)
    (questionId answer : string) :
  (forall r, r ∈ rows -> sa_question_id r = questionId ->
     sa_selected_answer r = answer) ->
  (exists r, r ∈ rows /\ sa_question_id r = questionId)
  \/ m !! questionId = Some answer ->
  fold_left (fun m r => <[sa_question_id r := sa_selected_answer r]> m) rows m
  !! questionId = Some answer.
Proof.
  revert m. induction rows as [|r rows IH]; intros m Hall Hsome; simpl.
  - destruct Hsome as [(r & Hr & _)|Hm]; [|done]. by apply elem_of_nil in Hr.
  - apply IH.
    + intros r' Hr'. apply Hall. by apply list_elem_of_further.
    + destruct (decide (sa_question_id r = questionId)) as [Hq|Hq].
      * right. rewrite Hq, lookup_insert_eq. f_equal.
        apply Hall; [apply list_elem_of_here|done].
      * destruct Hsome as [(r' & Hr' & Hq')|Hm].
        -- apply elem_of_cons in Hr' as [->|Hr']; [done|]. left. by exists r'.
        -- right. by rewrite lookup_insert_ne.
Qed.

Lemma single_elem_of {A : Type} (P : A -> Prop) `{!forall r, Decision (P r)}
    (rows : list A) (r : A) :
  single (filter P rows) = Some r -> r ∈ rows /\ P r.
Proof.
  intros Hone%single_Some.
  assert (r ∈ filter P rows) as Hin by (rewrite Hone; apply list_elem_of_here).
  apply list_elem_of_filter in Hin. tauto.
Qed.

(** X5. A selected answer survives a reload: after an answer was
    selected in an attempt in progress, a page that loads the exam for
    the same student resumes the same attempt, creates nothing, and
    shows that answer for the question. *)
Theorem answer_survives_reload (examId userId questionId answer : string)
    (now : Z) (new_id : string) (db : Database) (st st2 : ExamPage.state)
    (e : Exam) (a : ExamAttempt) :
  single (exams_by_id examId db) = Some e ->
  e_is_active e = true ->
  single (in_progress_attempts examId userId db) = Some a ->
  ExamPage.currentAttempt st = Some a ->
  let r1 := ExamPage.handleAnswerSelect userId questionId answer db st in
  let r2 := ExamPage.fetchExamData examId userId now new_id r1.1 st2 in
  r2.1 = r1.1
  /\ ExamPage.currentAttempt r2.2 = Some a
  /\ ExamPage.answers r2.2 !! questionId = Some answer.
Proof.
  intros Hexam Hactive Hattempt Hcur.
  assert (student_answers_write_allowed db userId (a_id a) = true) as Hallowed.
  { apply single_elem_of in Hattempt as [Hin (_ & Hstudent & Hstatus)].
    apply bool_decide_eq_true. apply Exists_exists. by exists a. }
  unfold ExamPage.handleAnswerSelect. rewrite Hcur, Hallowed. simpl.
  unfold ExamPage.fetchExamData.
  change (exams_by_id examId (set_student_answers _ db))
    with (exams_by_id examId db).
  change (in_progress_attempts examId userId (set_student_answers _ db))
    with (in_progress_attempts examId userId db).
  rewrite Hexam, Hactive, Hattempt. simpl.
  do 2 (split; [done|]).
  destruct (upsert_answer_rows (a_id a) questionId answer (student_answers db))
    as ((row & Hrow & Hkey) & Hanswer & _).
  apply existingAnswers_from.
  - intros r [Hattempt' Hr]%list_elem_of_filter Hq. by apply Hanswer.
  - left. exists row. destruct Hkey as [Ha Hq]. split; [|done].
    by apply list_elem_of_filter.
Qed.

Lemma answer_survives_reload_witness :
  ExamPage.answers
    (ExamPage.fetchExamData "e1" "s1" 5 "a2" (demo_answered "B").1
       (ExamPage.initial "e1")).2 !! "q1" = Some "B".
Proof.
  destruct (answer_survives_reload "e1" "s1" "q1" "B" 5 "a2" demo_started.1
              demo_started.2 (ExamPage.initial "e1") demo_exam
              (new_attempt "a1" "e1" "s1" 0 10))
    as (_ & _ & Hanswer); [reflexivity..|].
  exact Hanswer.
Defined.

(** ** Grading *)

(** One round of the loop on one row of the table. *)
Lemma gradeAnswers_pointwise (attemptId : string)
    (rows : list (StudentAnswer * Question)) (score correctAnswers : Z)
    (tbl : list StudentAnswer) :
  (ExamPage.gradeAnswers attemptId (joined <$> rows) score correctAnswers tbl).1
  = (fun t =>
       fold_left
         (fun t row =>
            if decide (same_answer_key attemptId (sa_question_id row.1) t)
            then set_is_correct (verdict row) t else t)
         rows t) <$> tbl.
Proof.
  revert score correctAnswers tbl.
  induction rows as [|[answer q] rows IH]; intros score correctAnswers tbl.
  - simpl. by rewrite list_fmap_id.
  - rewrite fmap_cons. cbn [joined fst snd ExamPage.gradeAnswers].
    rewrite IH. unfold update_where. rewrite <- list_fmap_compose.
    apply list_fmap_ext. intros _ t _. reflexivity.
Qed.

(** What the rounds leave of one row of the attempt: the row with its
    flag, and the flag is the verdict [b] when every row of the loop
    for the same question has verdict [b] and there is one. *)
Lemma grade_row (attemptId : string) (rows : list (StudentAnswer * Question))
    (t : StudentAnswer) (b : bool) :
  (forall row, row ∈ rows -> sa_question_id row.1 = sa_question_id t ->
     verdict row = b) ->
  let t' :=
    fold_left
      (fun t row =>
         if decide (same_answer_key attemptId (sa_question_id row.1) t)
         then set_is_correct (verdict row) t else t)
      rows t in
  same_but_flag t t'
  /\ (sa_attempt_id t = attemptId ->
      (exists row, row ∈ rows /\ sa_question_id row.1 = sa_question_id t)
      \/ sa_is_correct t = Some b ->
      sa_is_correct t' = Some b).
Proof.
  revert t. induction rows as [|row rows IH]; intros t Hall; simpl.
  - split; [done|].
    intros _ [(row & Hrow & _)|Hflag]; [|done]. by apply elem_of_nil in Hrow.
  - assert (forall row', row' ∈ rows ->
              sa_question_id row'.1 = sa_question_id t -> verdict row' = b)
      as Hrest by (intros row' Hin; apply Hall; by apply list_elem_of_further).
    destruct (decide (same_answer_key attemptId (sa_question_id row.1) t))
      as [[Hattempt Hq]|Hkey].
    + destruct (IH (set_is_correct (verdict row) t) Hrest) as (Hsame & Hflag).
      split; [exact Hsame|].
      intros _ _. apply Hflag; [done|]. right. simpl. f_equal.
      apply Hall; [apply list_elem_of_here|done].
    + destruct (IH t Hrest) as (Hsame & Hflag).
      split; [exact Hsame|].
      intros Hattempt [(row' & Hrow' & Hq)|Hb]; apply Hflag; try done.
      * left. exists row'. split; [|done].
        apply elem_of_cons in Hrow' as [->|Hrow']; [|done].
        destruct Hkey. by split.
      * by right.
Qed.

(** The rounds leave the rows of other attempts alone. *)
Lemma grade_row_other (attemptId : string)
    (rows : list (StudentAnswer * Question)) (t : StudentAnswer) :
  sa_attempt_id t <> attemptId ->
  fold_left
    (fun t row =>
       if decide (same_answer_key attemptId (sa_question_id row.1) t)
       then set_is_correct (verdict row) t else t)
    rows t = t.
Proof.
  intros Hother. induction rows as [|row rows IH]; [done|]. simpl.
  rewrite decide_False; [exact IH|]. by intros [? _].
Qed.

Lemma answers_with_questions_elem (attemptId : string) (db : Database)
    (t : StudentAnswer) :
  t ∈ student_answers db -> sa_attempt_id t = attemptId ->
  exists oq, (t, oq) ∈ answers_with_questions attemptId db.
Proof.
  intros Ht Hattempt. eexists. unfold answers_with_questions.
  apply list_elem_of_In, in_map_iff. exists t. split; [reflexivity|].
  apply list_elem_of_In. by apply list_elem_of_filter.
Qed.

(** X6. A successful submit marks every answer of the attempt: with one
    answer per question, each row of the attempt keeps its question and
    its selected answer and gets [is_correct] set to whether the
    selected answer is the correct answer of its question; the answers
    of other attempts are left as they were. *)
Theorem submit_marks_every_answer (now : Z) (db : Database)
    (st : ExamPage.state) (a : ExamAttempt)
    (rows : list (StudentAnswer * Question)) :
  ExamPage.isSubmitting st = false ->
  ExamPage.currentAttempt st = Some a ->
  answers_with_questions (a_id a) db = joined <$> rows ->
  NoDup ((fun row => sa_question_id row.1) <$> rows) ->
  let db' := (ExamPage.handleSubmitExam now db st).1 in
  Forall2
    (fun t t' =>
       same_but_flag t t'
       /\ (sa_attempt_id t <> a_id a -> t' = t)
       /\ (sa_attempt_id t = a_id a ->
           exists q, (t, q) ∈ rows
                     /\ sa_is_correct t' = Some (verdict (t, q))))
    (student_answers db) (student_answers db').
Proof.
  intros Hsub Hcur Hrows Hnodup db'.
  assert (student_answers db'
          = (ExamPage.gradeAnswers (a_id a) (joined <$> rows) 0 0
               (student_answers db)).1) as ->.
  { subst db'. unfold ExamPage.handleSubmitExam. rewrite Hsub, Hcur, Hrows.
    destruct (gradeAnswers_joined (a_id a) rows 0 0 (student_answers db))
      as (tbl' & n & ->). reflexivity. }
  rewrite gradeAnswers_pointwise. apply Forall2_fmap_r, Forall_Forall2_diag.
  apply Forall_forall. intros t Ht. unfold compose. cbn beta.
  destruct (decide (sa_attempt_id t = a_id a)) as [Hattempt|Hother].
  - assert (exists q, (t, q) ∈ rows) as [q Hq].
    { destruct (answers_with_questions_elem (a_id a) db t Ht Hattempt)
        as [oq Hin].
      rewrite Hrows in Hin.
      apply list_elem_of_fmap in Hin as ([t' q] & Heq & Hin).
      unfold joined in Heq. simpl in Heq. injection Heq as -> _. by exists q. }
    destruct (grade_row (a_id a) rows t (verdict (t, q))) as (Hsame & Hflag).
    { intros row Hrow Hsameq. f_equal.
      by apply (NoDup_fmap_elem (fun row => sa_question_id row.1) rows). }
    split; [exact Hsame|]. split; [done|]. intros _. exists q. split; [done|].
    apply Hflag; [done|]. left. by exists (t, q).
  - rewrite grade_row_other by done.
    split; [done|]. split; [done|]. done.
Qed.

Lemma submit_marks_every_answer_witness :
  Forall2 same_but_flag (student_answers (demo_answered "B").1)
    (student_answers (demo_submitted "B").1).
Proof.
  eapply Forall2_impl.
  - apply (submit_marks_every_answer 60000 (demo_answered "B").1
             (demo_answered "B").2 (new_attempt "a1" "e1" "s1" 0 10)
             [(mkStudentAnswer "a1" "q1" "B" None, demo_question)]);
      [reflexivity..|].
    apply (bool_decide_unpack _). vm_compute. exact I.
  - intros t t' [Hsame _]. exact Hsame.
Defined.

(** ** Submitting again *)

Lemma grade_row_same (attemptId : string)
    (rows : list (StudentAnswer * Question)) (t : StudentAnswer) :
  same_but_flag t
    (fold_left
       (fun t row =>
          if decide (same_answer_key attemptId (sa_question_id row.1) t)
          then set_is_correct (verdict row) t else t)
       rows t).
Proof.
  revert t. induction rows as [|row rows IH]; intros t; simpl; [done|].
  destruct (decide (same_answer_key attemptId (sa_question_id row.1) t)).
  - destruct (IH (set_is_correct (verdict row) t)) as (? & ? & ?).
    by repeat split.
  - apply IH.
Qed.

(** A successful submit, step by step. *)
Lemma handleSubmitExam_success (now : Z) (db : Database) (st : ExamPage.state)
    (a : ExamAttempt) (rows : list (StudentAnswer * Question)) :
  ExamPage.isSubmitting st = false ->
  ExamPage.currentAttempt st = Some a ->
  answers_with_questions (a_id a) db = joined <$> rows ->
  exists tbl,
    ExamPage.handleSubmitExam now db st
    = (set_exam_attempts
         (update_where (fun r => a_id r = a_id a)
            (ExamPage.complete_attempt (spec_score rows)
               (ExamPage.percentage_of (ExamPage.exam st) (spec_score rows))
               now)
            (exam_attempts db))
         (set_student_answers tbl db),
       ExamPage.navigate RDashboard
         (ExamPage.toast "Exam submitted successfully!"
            (ExamPage.setIsSubmitting true st)))
    /\ Forall2 same_but_flag (student_answers db) tbl.
Proof.
  intros Hsub Hcur Hrows. unfold ExamPage.handleSubmitExam.
  rewrite Hsub, Hcur, Hrows.
  pose proof (gradeAnswers_pointwise (a_id a) rows 0 0 (student_answers db))
    as Htbl.
  destruct (gradeAnswers_joined (a_id a) rows 0 0 (student_answers db))
    as (tbl & n & Hgrade).
  rewrite Hgrade in Htbl |- *. simpl in Htbl. exists tbl. simpl.
  rewrite Z.add_0_l. split; [done|].
  rewrite Htbl. apply Forall2_fmap_r, Forall_Forall2_diag, Forall_forall.
  intros t _. apply grade_row_same.
Qed.

(** Rows that differ in the flags only are fetched alike. *)
Lemma answers_with_questions_flags (attemptId : string) (db db' : Database) :
  questions db' = questions db ->
  Forall2 same_but_flag (student_answers db) (student_answers db') ->
  Forall2 (fun x y => same_but_flag x.1 y.1 /\ y.2 = x.2)
    (answers_with_questions attemptId db)
    (answers_with_questions attemptId db').
Proof.
  intros Hq Hrows. unfold answers_with_questions. rewrite Hq.
  induction Hrows as [|t t' tbl tbl' (Ha & Hqid & Hsel) _ IH]; [constructor|].
  rewrite !filter_cons, Ha.
  destruct (decide (sa_attempt_id t = attemptId)); [|exact IH].
  simpl. constructor; [|exact IH]. simpl. rewrite Hqid. by repeat split.
Qed.

Lemma joined_flags (rows : list (StudentAnswer * Question))
    (fetched : list (StudentAnswer * option Question)) :
  Forall2 (fun x y => same_but_flag x.1 y.1 /\ y.2 = x.2)
    (joined <$> rows) fetched ->
  exists rows', fetched = joined <$> rows'
                /\ spec_score rows' = spec_score rows.
Proof.
  revert fetched. induction rows as [|[t q] rows IH]; intros fetched Hrel.
  - apply Forall2_nil_inv_l in Hrel as ->. by exists [].
  - rewrite fmap_cons in Hrel.
    apply Forall2_cons_inv_l in Hrel
      as ([t' oq] & fetched' & ((_ & _ & Hsel) & Hoq) & Hrel & ->).
    simpl in Hsel, Hoq. subst oq.
    destruct (IH fetched' Hrel) as (rows' & -> & Hscore).
    exists ((t', q) :: rows'). split; [done|].
    by rewrite !spec_score_cons, Hscore, Hsel.
Qed.

Lemma complete_attempt_twice (score score' : Z) (p p' : Q) (now now' : Z)
    (r : ExamAttempt) :
  ExamPage.complete_attempt score' p' now'
    (ExamPage.complete_attempt score p now r)
  = ExamPage.complete_attempt score' p' now' r.
Proof. reflexivity. Qed.

(** X7. Submitting again: a second press on the page that submitted
    does nothing at all; a second page that holds the same attempt and
    the same exam stores the same result.  After its submit every
    attempt has the status, the score and the percentage that the first
    submit left; the submitted attempt has its completion time renewed
    and every other attempt is exactly as it was. *)
Theorem submit_again_same_result (now now2 : Z) (db : Database)
    (st st2 : ExamPage.state) (a : ExamAttempt)
    (rows : list (StudentAnswer * Question)) :
  ExamPage.isSubmitting st = false ->
  ExamPage.currentAttempt st = Some a ->
  answers_with_questions (a_id a) db = joined <$> rows ->
  ExamPage.isSubmitting st2 = false ->
  ExamPage.currentAttempt st2 = Some a ->
  ExamPage.exam st2 = ExamPage.exam st ->
  let r1 := ExamPage.handleSubmitExam now db st in
  let r2 := ExamPage.handleSubmitExam now2 r1.1 st2 in
  ExamPage.handleSubmitExam now2 r1.1 r1.2 = r1
  /\ Forall2
       (fun t t' =>
          same_attempt t t'
          /\ a_total_marks t' = a_total_marks t
          /\ a_status t' = a_status t
          /\ a_score t' = a_score t
          /\ a_percentage t' = a_percentage t
          /\ (a_id t = a_id a -> a_completed_at t' = Some now2)
          /\ (a_id t <> a_id a -> t' = t))
       (exam_attempts r1.1) (exam_attempts r2.1).
Proof.
  intros Hsub Hcur Hrows Hsub2 Hcur2 Hexam r1 r2. subst r1 r2.
  destruct (handleSubmitExam_success now db st a rows Hsub Hcur Hrows)
    as (tbl & -> & Hflags).
  split; [reflexivity|]. cbn [fst snd].
  destruct (joined_flags rows
              (answers_with_questions (a_id a)
                 (set_exam_attempts
                    (update_where (fun r => a_id r = a_id a)
                       (ExamPage.complete_attempt (spec_score rows)
                          (ExamPage.percentage_of (ExamPage.exam st)
                             (spec_score rows)) now)
                       (exam_attempts db))
                    (set_student_answers tbl db))))
    as (rows' & Hrows' & Hscore).
  { rewrite <- Hrows. by apply answers_with_questions_flags. }
  rewrite (handleSubmitExam_attempts now2 _ st2 a rows') by done.
  rewrite Hscore, Hexam. cbn [exam_attempts set_exam_attempts].
  unfold update_where at 2. apply Forall2_fmap_r, Forall_Forall2_diag.
  apply Forall_forall. intros t (r & Hr & ->)%update_where_elem_of.
  destruct (decide (a_id r = a_id a)) as [Hid|Hid].
  - unfold compose. rewrite decide_True by done.
    split; [by repeat split|]. by repeat split.
  - unfold compose. rewrite decide_False by done.
    split; [by repeat split|]. by repeat split.
Qed.

Lemma submit_again_same_result_witness :
  ExamPage.handleSubmitExam 70000 (demo_submitted "B").1 (demo_submitted "B").2
  = demo_submitted "B"
  /\ Forall2 (fun t t' => a_score t' = a_score t
                          /\ a_percentage t' = a_percentage t)
       (exam_attempts (demo_submitted "B").1)
       (exam_attempts
          (ExamPage.handleSubmitExam 70000 (demo_submitted "B").1
             (demo_answered "B").2).1).
Proof.
  destruct (submit_again_same_result 60000 70000 (demo_answered "B").1
              (demo_answered "B").2 (demo_answered "B").2
              (new_attempt "a1" "e1" "s1" 0 10)
              [(mkStudentAnswer "a1" "q1" "B" None, demo_question)])
    as [Hsame Hagain]; [reflexivity..|].
  split; [exact Hsame|].
  eapply Forall2_impl; [exact Hagain|].
  intros t t' (_ & _ & _ & Hscore & Hpercentage & _). by split.
Defined.

(** ** Taking the exam again *)

(** X8. After a successful submit of the attempt in progress, the
    student has no attempt in progress for the exam, and the next Start
    from the dashboard does not resume the submitted attempt: it
    creates a new one, with the marks of the exam. *)
Theorem start_after_submit_creates_new_attempt (examId userId : string)
    (now now2 : Z) (new_id : string) (db : Database) (st : ExamPage.state)
    (dst : Dashboard.state) (e : Exam) (a : ExamAttempt)
    (rows : list (StudentAnswer * Question)) :
  single (in_progress_attempts examId userId db) = Some a ->
  single (exams_by_id examId db) = Some e ->
  ExamPage.isSubmitting st = false ->
  ExamPage.currentAttempt st = Some a ->
  answers_with_questions (a_id a) db = joined <$> rows ->
  let r := ExamPage.handleSubmitExam now db st in
  let r2 := Dashboard.startExam examId userId now2 new_id r.1 dst in
  in_progress_attempts examId userId r.1 = []
  /\ exam_attempts r2.1
     = (exam_attempts r.1
        ++ [new_attempt new_id examId userId now2 (e_total_marks e)])%list
  /\ Dashboard.location r2.2 = RExam examId.
Proof.
  intros Hattempt Hexam Hsub Hcur Hrows r r2. subst r r2.
  destruct (handleSubmitExam_success now db st a rows Hsub Hcur Hrows)
    as (tbl & -> & _).
  assert (in_progress_attempts examId userId
            (set_exam_attempts
               (update_where (fun r => a_id r = a_id a)
                  (ExamPage.complete_attempt (spec_score rows)
                     (ExamPage.percentage_of (ExamPage.exam st)
                        (spec_score rows)) now)
                  (exam_attempts db))
               (set_student_answers tbl db)) = []) as Hnone.
  { apply in_progress_of_completed. by apply single_Some. }
  split; [exact Hnone|]. unfold Dashboard.startExam. simpl in *.
  rewrite Hnone. simpl.
  change (exams_by_id examId (set_exam_attempts _ (set_student_answers tbl db)))
    with (exams_by_id examId db).
  by rewrite Hexam.
Qed.

Lemma start_after_submit_creates_new_attempt_witness :
  a_status
  <$> exam_attempts
        (Dashboard.startExam "e1" "s1" 70000 "a2" (demo_submitted "B").1
           Dashboard.initial).1
  = ["completed"; "in_progress"].
Proof.
  destruct (start_after_submit_creates_new_attempt "e1" "s1" 60000 70000 "a2"
              (demo_answered "B").1 (demo_answered "B").2 Dashboard.initial
              demo_exam (new_attempt "a1" "e1" "s1" 0 10)
              [(mkStudentAnswer "a1" "q1" "B" None, demo_question)])
    as (_ & Hnew & _); [reflexivity..|].
  unfold demo_submitted. rewrite Hnew. vm_compute. reflexivity.
Defined.

(** ** The countdown *)

Lemma runTimer_tick (k : nat) (now : Z) (db : Database) (st : ExamPage.state) :
  0 < ExamPage.timeRemaining st ->
  ExamPage.runTimer (S k) now db st
  = ExamPage.runTimer k now db
      (ExamPage.setTimeRemaining (ExamPage.timeRemaining st - 1) st).
Proof.
  intros Hpos. simpl. unfold ExamPage.runTimerEffect, ExamPage.timerEffect.
  destruct (Z.ltb_spec 0 (ExamPage.timeRemaining st)); [done|lia].
Qed.

(** X9. The countdown: from [n] seconds on the clock and an attempt on
    the page, [n] runs of the timer effect only take one second each
    off the clock and touch nothing else, on the page or in the
    backend; the run after them is the submit. *)
Theorem countdown_ends_in_submit (n : nat) (now : Z) (db : Database)
    (st : ExamPage.state) :
  ExamPage.timeRemaining st = Z.of_nat n ->
  is_Some (ExamPage.currentAttempt st) ->
  ExamPage.runTimer n now db st = (db, ExamPage.setTimeRemaining 0 st)
  /\ ExamPage.runTimer (S n) now db st
     = ExamPage.handleSubmitExam now db (ExamPage.setTimeRemaining 0 st).
Proof.
  revert st. induction n as [|n IH]; intros st Htime Hcur.
  - assert (ExamPage.setTimeRemaining 0 st = st) as ->.
    { destruct st. simpl in Htime. by subst. }
    split; [done|]. simpl.
    unfold ExamPage.runTimerEffect, ExamPage.timerEffect. rewrite Htime. simpl.
    rewrite bool_decide_eq_true_2 by done.
    by destruct (ExamPage.handleSubmitExam now db st).
  - rewrite !runTimer_tick by lia.
    destruct (IH (ExamPage.setTimeRemaining (ExamPage.timeRemaining st - 1) st))
      as [Hticks Hsubmit]; [simpl; lia|done|].
    split; [exact Hticks|exact Hsubmit].
Qed.

Lemma countdown_ends_in_submit_witness :
  attempt_result
  <$> exam_attempts (ExamPage.runTimer 1801 1800000 (demo_answered "B").1
                       (demo_answered "B").2).1
  = [("completed", Some 10, Some 100%Q)].
Proof.
  destruct (countdown_ends_in_submit 1800 1800000 (demo_answered "B").1
              (demo_answered "B").2)
    as [_ Hsubmit]; [reflexivity|by eexists|].
  rewrite Hsubmit. vm_compute. reflexivity.
Defined.

(** The page a new attempt leaves. *)
Lemma fetchExamData_new_attempt (examId userId : string) (now : Z)
    (new_id : string) (db : Database) (st : ExamPage.state) (e : Exam) :
  single (exams_by_id examId db) = Some e ->
  e_is_active e = true ->
  single (in_progress_attempts examId userId db) = None ->
  let r := ExamPage.fetchExamData examId userId now new_id db st in
  let created := new_attempt new_id examId userId now (e_total_marks e) in
  r.1 = insert_attempt created db
  /\ ExamPage.currentAttempt r.2 = Some created
  /\ ExamPage.timeRemaining r.2 = e_duration_minutes e * 60
  /\ ExamPage.questions r.2 = questions_of_exam examId db
  /\ ExamPage.exam r.2 = Some e
  /\ ExamPage.loading r.2 = false
  /\ ExamPage.isSubmitting r.2 = ExamPage.isSubmitting st.
Proof.
  intros Hexam Hactive Hnone. unfold ExamPage.fetchExamData.
  by rewrite Hexam, Hactive, Hnone.
Qed.

(** X10. The clock of a new attempt at its bounds: for an exam whose
    duration is 0 minutes the first run of the timer effect is already
    the submit; for an exam whose duration is negative the clock starts
    below zero and the timer effect never does anything, however often
    it runs: it neither counts nor submits. *)
Theorem new_attempt_clock_at_bounds (examId userId : string) (now : Z)
    (new_id : string) (db : Database) (st : ExamPage.state) (e : Exam)
    (k : nat) (now' : Z) :
  single (exams_by_id examId db) = Some e ->
  e_is_active e = true ->
  single (in_progress_attempts examId userId db) = None ->
  let r := ExamPage.fetchExamData examId userId now new_id db st in
  (e_duration_minutes e = 0 ->
   ExamPage.runTimerEffect now' r.1 r.2 = ExamPage.handleSubmitExam now' r.1 r.2)
  /\ (e_duration_minutes e < 0 -> ExamPage.runTimer k now' r.1 r.2 = r).
Proof.
  intros Hexam Hactive Hnone r.
  destruct (fetchExamData_new_attempt examId userId now new_id db st e
              Hexam Hactive Hnone) as (_ & Hcur & Htime & _).
  fold r in Hcur, Htime. split.
  - intros H0. unfold ExamPage.runTimerEffect, ExamPage.timerEffect.
    by rewrite Htime, H0, Hcur.
  - intros Hneg. destruct r as [db' st']. simpl in *.
    induction k as [|k IH]; [done|]. simpl.
    unfold ExamPage.runTimerEffect, ExamPage.timerEffect. rewrite Htime.
    destruct (Z.ltb_spec 0 (e_duration_minutes e * 60)); [lia|].
    destruct (Z.eqb_spec (e_duration_minutes e * 60) 0); [lia|]. simpl.
    exact IH.
Qed.

Lemma new_attempt_clock_at_bounds_witness :
  ExamPage.runTimer 3 9000 
    (ExamPage.fetchExamData "e1" "s1" 0 "a1" demo_db_negative_duration
       (ExamPage.initial "e1")).1
    (ExamPage.fetchExamData "e1" "s1" 0 "a1" demo_db_negative_duration
       (ExamPage.initial "e1")).2
  = ExamPage.fetchExamData "e1" "s1" 0 "a1" demo_db_negative_duration
      (ExamPage.initial "e1").
Proof.
  destruct (new_attempt_clock_at_bounds "e1" "s1" 0 "a1"
              demo_db_negative_duration (ExamPage.initial "e1")
              (mkExam "e1" "sub1" "Algebra" (-5) 10 6 true) 3 9000)
    as [_ Hidle]; [reflexivity..|].
  apply Hidle. reflexivity.
Defined.

(** ** What the page shows after the load *)

(** X11. The load and the view: for a signed-in user with a profile,
    mounting the page on an active exam without an attempt in progress
    creates the attempt, whatever is then shown.  The page shows the
    exam to a student when the exam has questions, "not available" to a
    student when it has none, and "access denied" to every other
    role. *)
Theorem load_creates_attempt_whatever_is_shown (examId userId : string)
    (profile : Profile) (now : Z) (new_id : string) (db : Database) (e : Exam) :
  examId <> EmptyString ->
  single (exams_by_id examId db) = Some e ->
  e_is_active e = true ->
  single (in_progress_attempts examId userId db) = None ->
  let r :=
    ExamPage.mountEffect (Some userId) (Some profile) examId now new_id db
      (ExamPage.initial examId) in
  let shown := ExamPage.view (Some (p_role profile)) r.2 in
  exam_attempts r.1
  = (exam_attempts db
     ++ [new_attempt new_id examId userId now (e_total_marks e)])%list
  /\ (p_role profile <> "student" -> shown = ExamPage.ViewAccessDenied)
  /\ (p_role profile = "student" -> exam_questions examId db = [] ->
      shown = ExamPage.ViewNotAvailable)
  /\ (p_role profile = "student" -> exam_questions examId db <> [] ->
      shown = ExamPage.ViewExam).
Proof.
  intros Hid%truthy_true_iff Hexam Hactive Hnone r shown. subst shown r.
  unfold ExamPage.mountEffect. rewrite Hid.
  destruct (fetchExamData_new_attempt examId userId now new_id db
              (ExamPage.initial examId) e Hexam Hactive Hnone)
    as (Hdb & _ & _ & Hqs & He & Hload & _).
  split; [by rewrite Hdb|]. unfold ExamPage.view.
  rewrite Hload, He, Hqs, questions_of_exam_length.
  split; [|split].
  - intros Hrole. rewrite bool_decide_eq_false_2; [done|]. congruence.
  - intros Hrole Hnil. rewrite Hrole, Hnil. reflexivity.
  - intros Hrole Hne. rewrite Hrole.
    destruct (exam_questions examId db); [done|reflexivity].
Qed.

Lemma load_creates_attempt_whatever_is_shown_witness :
  a_student_id
  <$> exam_attempts
        (ExamPage.mountEffect (Some "adm")
           (Some (mkProfile "adm" "Ada" "ada@neu.edu.ph" "admin")) "e1" 0 "a1"
           demo_db (ExamPage.initial "e1")).1
  = ["adm"].
Proof.
  destruct (load_creates_attempt_whatever_is_shown "e1" "adm"
              (mkProfile "adm" "Ada" "ada@neu.edu.ph" "admin") 0 "a1" demo_db
              demo_exam)
    as (Hcreated & _); [discriminate|reflexivity..|].
  rewrite Hcreated. reflexivity.
Defined.

(** ** The history and its figures *)

Lemma maxOf_bounds (first : Z) (rest : list Z) :
  Forall (fun x => x <= Dashboard.maxOf first rest) (first :: rest)
  /\ Dashboard.maxOf first rest ∈ first :: rest.
Proof.
  unfold Dashboard.maxOf. revert first.
  induction rest as [|x rest IH]; intros first; simpl.
  - split; [by repeat constructor|apply list_elem_of_here].
  - destruct (IH (Z.max first x)) as [Hall Hin].
    apply Forall_cons in Hall as [Hmax Hall]. split.
    + repeat constructor; [lia|lia|exact Hall].
    + apply elem_of_cons in Hin as [->|Hin].
      * destruct (Z.max_spec first x) as [[_ ->]|[_ ->]].
        -- apply list_elem_of_further, list_elem_of_here.
        -- apply list_elem_of_here.
      * by do 2 apply list_elem_of_further.
Qed.

Lemma sumZ_le (l : list Z) (hi : Z) :
  Forall (fun x => x <= hi) l -> sumZ l <= Z.of_nat (length l) * hi.
Proof.
  induction 1 as [|x l Hx _ IH]; unfold sumZ in *; simpl length; simpl foldr.
  - lia.
  - rewrite Nat2Z.inj_succ. nia.
Qed.

Lemma sumZ_ge (l : list Z) (lo : Z) :
  Forall (fun x => lo <= x) l -> Z.of_nat (length l) * lo <= sumZ l.
Proof.
  induction 1 as [|x l Hx _ IH]; unfold sumZ in *; simpl length; simpl foldr.
  - lia.
  - rewrite Nat2Z.inj_succ. nia.
Qed.

Lemma totalScore_sum (data : list ExamAttempt) (acc : Z) :
  fold_left (fun sum a => sum + Dashboard.scoreOrZero a) data acc
  = acc + sumZ (Dashboard.scoreOrZero <$> data).
Proof.
  revert acc. induction data as [|a data IH]; intros acc; unfold sumZ in *.
  - simpl. lia.
  - rewrite fmap_cons. simpl. rewrite IH. lia.
Qed.

Lemma round_div_le (a n hi : Z) :
  0 < n -> a <= n * hi -> round_div a n <= hi.
Proof.
  intros Hn Hhi. unfold round_div.
  assert ((2 * a + n) / (2 * n) < hi + 1); [|lia].
  apply Z.div_lt_upper_bound; lia.
Qed.

Lemma round_div_ge (a n lo : Z) :
  0 < n -> n * lo <= a -> lo <= round_div a n.
Proof.
  intros Hn Hlo. unfold round_div. apply Z.div_le_lower_bound; lia.
Qed.

(** X12. The figures of the dashboard: without a completed attempt they
    stay as they are; with completed attempts, each counted with score
    0 when it has none, [completedExams] is their number, [bestScore]
    is the score of one of them and no score exceeds it, and
    [averageScore] lies between the lowest score and the best one. *)
Theorem fetchAttempts_figures (userId : string) (db : Database)
    (stats : Dashboard.Stats) :
  let r := Dashboard.fetchAttempts userId db stats in
  (r.1 = [] /\ r.2 = stats)
  \/ (r.1 <> []
      /\ Dashboard.totalExams r.2 = Dashboard.totalExams stats
      /\ Dashboard.completedExams r.2 = Z.of_nat (length r.1)
      /\ Forall (fun a => Dashboard.scoreOrZero a <= Dashboard.bestScore r.2) r.1
      /\ Exists (fun a => Dashboard.scoreOrZero a = Dashboard.bestScore r.2) r.1
      /\ Dashboard.averageScore r.2 <= Dashboard.bestScore r.2
      /\ forall lowest,
           Forall (fun a => lowest <= Dashboard.scoreOrZero a) r.1 ->
           lowest <= Dashboard.averageScore r.2).
Proof.
  intros r. subst r. unfold Dashboard.fetchAttempts.
  destruct (completed_attempts_of userId db) as [|first rest] eqn:Hdata;
    [by left|right].
  split; [done|]. simpl fst. simpl snd. cbn [Dashboard.totalExams
    Dashboard.completedExams Dashboard.averageScore Dashboard.bestScore].
  destruct (maxOf_bounds (Dashboard.scoreOrZero first)
              (Dashboard.scoreOrZero <$> rest)) as [Hbest Hin].
  rewrite <- fmap_cons in Hbest, Hin.
  set (best := Dashboard.maxOf _ _) in *.
  rewrite Forall_fmap in Hbest.
  rewrite totalScore_sum, Z.add_0_l.
  assert (0 < Z.of_nat (length (first :: rest))) as Hn by (simpl; lia).
  split; [done|]. split; [done|]. split; [exact Hbest|]. split.
  { apply list_elem_of_fmap in Hin as (a & Ha & Hin).
    apply Exists_exists. by exists a. }
  split.
  - apply round_div_le; [done|].
    assert (sumZ (Dashboard.scoreOrZero <$> first :: rest)
            <= Z.of_nat (length (first :: rest)) * best) as Hle; [|exact Hle].
    rewrite <- (length_fmap Dashboard.scoreOrZero).
    apply sumZ_le. by rewrite Forall_fmap.
  - intros lowest Hlowest. apply round_div_ge; [done|].
    assert (Z.of_nat (length (first :: rest)) * lowest
            <= sumZ (Dashboard.scoreOrZero <$> first :: rest)) as Hge;
      [|exact Hge].
    rewrite <- (length_fmap Dashboard.scoreOrZero).
    apply sumZ_ge. by rewrite Forall_fmap.
Qed.

Lemma completed_at_desc_total : Total completed_at_desc.
Proof.
  intros a b. unfold completed_at_desc.
  destruct (a_completed_at a), (a_completed_at b); try tauto. lia.
Qed.

Lemma completed_at_desc_trans : Transitive completed_at_desc.
Proof.
  intros a b c. unfold completed_at_desc.
  destruct (a_completed_at a), (a_completed_at b), (a_completed_at c);
    try tauto. lia.
Qed.

(** In a sorted list, the first element that passes a test comes before
    every element that passes it. *)
Lemma head_filter_sorted {A : Type} (R : relation A) (P : A -> Prop)
    `{!forall x, Decision (P x)} (l : list A) (a : A) :
  Reflexive R -> StronglySorted R l ->
  head (filter P l) = Some a ->
  a ∈ l /\ P a /\ forall a', a' ∈ l -> P a' -> R a a'.
Proof.
  intros Hrefl Hsorted. induction Hsorted as [|x l _ IH Hx]; [done|].
  rewrite filter_cons. destruct (decide (P x)) as [HP|HP]; simpl.
  - intros [= ->]. split; [apply list_elem_of_here|]. split; [done|].
    intros a' [->|Hin]%elem_of_cons _; [apply Hrefl|].
    rewrite Forall_forall in Hx. by apply Hx.
  - intros Hhead. destruct (IH Hhead) as (Hin & Ha & Hfirst).
    split; [by apply list_elem_of_further|]. split; [done|].
    intros a' [->|Hin']%elem_of_cons Ha'; [done|]. by apply Hfirst.
Qed.

Lemma completed_attempts_of_elem (userId : string) (db : Database)
    (a : ExamAttempt) :
  a ∈ completed_attempts_of userId db
  <-> a ∈ exam_attempts db /\ a_student_id a = userId
      /\ a_status a = "completed".
Proof.
  unfold completed_attempts_of.
  rewrite merge_sort_Permutation, list_elem_of_filter. tauto.
Qed.

(** X13. The last score of an exam card: an exam counts as attempted
    exactly when the student has a completed attempt of it, and the
    score shown as the last one is the score of such an attempt that
    was completed no earlier than any other completed attempt of the
    student for the exam. *)
Theorem last_attempt_is_latest (userId examId : string) (db : Database)
    (stats : Dashboard.Stats) :
  let attempts := (Dashboard.fetchAttempts userId db stats).1 in
  let mine a :=
    a ∈ exam_attempts db /\ a_student_id a = userId
    /\ a_status a = "completed" /\ a_exam_id a = examId in
  (Dashboard.hasAttempted examId attempts = true <-> exists a, mine a)
  /\ (Dashboard.getLastAttemptScore examId attempts = None
      <-> ~ exists a, mine a)
  /\ (forall score,
        Dashboard.getLastAttemptScore examId attempts = Some score ->
        exists a, mine a /\ a_score a = score
                  /\ forall a', mine a' -> completed_at_desc a a').
Proof.
  intros attempts mine. subst attempts mine. simpl.
  assert (forall a, a ∈ completed_attempts_of userId db /\ a_exam_id a = examId
                    <-> a ∈ exam_attempts db /\ a_student_id a = userId
                        /\ a_status a = "completed" /\ a_exam_id a = examId)
    as Hmine by (intros a; rewrite completed_attempts_of_elem; tauto).
  split; [|split].
  - unfold Dashboard.hasAttempted. rewrite bool_decide_eq_true, Exists_exists.
    split; intros [a Ha]; exists a; by apply Hmine.
  - unfold Dashboard.getLastAttemptScore.
    destruct (filter (fun a => a_exam_id a = examId)
                (completed_attempts_of userId db)) as [|a l] eqn:Hfilter; simpl.
    + split; [|done]. intros _ [a Ha]. apply Hmine in Ha as [Hin Hexam].
      assert (a ∈ filter (fun a => a_exam_id a = examId)
                    (completed_attempts_of userId db)) as Hin'
        by by apply list_elem_of_filter.
      rewrite Hfilter in Hin'. by apply elem_of_nil in Hin'.
    + split; [done|]. intros Hnone. destruct Hnone. exists a. apply Hmine.
      assert (a ∈ filter (fun a => a_exam_id a = examId)
                    (completed_attempts_of userId db)) as Hin'
        by (rewrite Hfilter; apply list_elem_of_here).
      apply list_elem_of_filter in Hin'. tauto.
  - intros score. unfold Dashboard.getLastAttemptScore.
    destruct (head (filter (fun a => a_exam_id a = examId)
                      (completed_attempts_of userId db))) as [a|] eqn:Hhead;
      [|done].
    simpl. intros [= <-].
    destruct (head_filter_sorted completed_at_desc
                (fun a => a_exam_id a = examId)
                (completed_attempts_of userId db) a) as (Hin & Hexam & Hfirst).
    + intros x. destruct (completed_at_desc_total x x); done.
    + apply (@StronglySorted_merge_sort _ completed_at_desc _
               completed_at_desc_trans completed_at_desc_total).
    + done.
    + exists a. split; [by apply Hmine|]. split; [done|].
      intros a' Ha'. apply Hmine in Ha' as [Hin' Hexam']. by apply Hfirst.
Qed.

(** ** The colour of a score *)

Lemma atLeast_finite (bound score total : Z) :
  0 < total ->
  ExamCard.atLeast (ExamCard.percentage score total) (inject_Z bound) = true
  <-> bound * total <= 100 * score.
Proof.
  intros Hpos. unfold ExamCard.percentage.
  destruct (Z.eqb_spec total 0) as [|_]; [lia|]. simpl.
  rewrite Qle_bool_iff. destruct total as [|t|t]; try lia.
  unfold Qle, Qdiv, Qmult, Qinv, inject_Z. cbn.
  rewrite ?Pos.mul_1_r, ?Z.mul_1_r. lia.
Qed.

Lemma atLeast_finite_false (bound score total : Z) :
  0 < total ->
  ExamCard.atLeast (ExamCard.percentage score total) (inject_Z bound) = false
  <-> 100 * score < bound * total.
Proof.
  intros Hpos. pose proof (atLeast_finite bound score total Hpos) as Htrue.
  destruct (ExamCard.atLeast _ _).
  - split; [done|]. intros Hlt.
    assert (bound * total <= 100 * score); [|lia]. by apply Htrue.
  - split; [|done]. intros _.
    destruct (Z.lt_ge_cases (100 * score) (bound * total)) as [|Hge]; [done|].
    by apply Htrue in Hge.
Qed.

(** X14. The colour of a last score against a positive total: excellent
    from nine tenths of the total, good from three quarters, average
    from three fifths, poor below.  Against a total of 0 the quotient is
    no number or infinite, and the colour is excellent for a positive
    score and poor for any other. *)
Theorem getScoreColor_thresholds (score total : Z) :
  (0 < total ->
   (ExamCard.getScoreColor score total = ExamCard.ScoreExcellent
    <-> 9 * total <= 10 * score)
   /\ (ExamCard.getScoreColor score total = ExamCard.ScoreGood
       <-> 3 * total <= 4 * score /\ 10 * score < 9 * total)
   /\ (ExamCard.getScoreColor score total = ExamCard.ScoreAverage
       <-> 3 * total <= 5 * score /\ 4 * score < 3 * total)
   /\ (ExamCard.getScoreColor score total = ExamCard.ScorePoor
       <-> 5 * score < 3 * total))
  /\ (total = 0 ->
      ExamCard.getScoreColor score total
      = if (0 <? score)%Z then ExamCard.ScoreExcellent else ExamCard.ScorePoor).
Proof.
  split.
  - intros Hpos. unfold ExamCard.getScoreColor.
    change 90%Q with (inject_Z 90). change 75%Q with (inject_Z 75).
    change 60%Q with (inject_Z 60).
    destruct (ExamCard.atLeast _ (inject_Z 90)) eqn:H90;
      [apply atLeast_finite in H90; [|done]
      |apply atLeast_finite_false in H90; [|done]].
    { repeat split; intros; try discriminate; try done; lia. }
    destruct (ExamCard.atLeast _ (inject_Z 75)) eqn:H75;
      [apply atLeast_finite in H75; [|done]
      |apply atLeast_finite_false in H75; [|done]].
    { repeat split; intros; try discriminate; try done; lia. }
    destruct (ExamCard.atLeast _ (inject_Z 60)) eqn:H60;
      [apply atLeast_finite in H60; [|done]
      |apply atLeast_finite_false in H60; [|done]].
    { repeat split; intros; try discriminate; try done; lia. }
    repeat split; intros; try discriminate; try done; lia.
  - intros ->. unfold ExamCard.getScoreColor, ExamCard.percentage. simpl.
    destruct (Z.ltb_spec 0 score); [done|].
    by destruct (Z.ltb_spec score 0).
Qed.

Lemma getScoreColor_thresholds_witness :
  ExamCard.getScoreColor 9 10 = ExamCard.ScoreExcellent.
Proof.
  destruct (getScoreColor_thresholds 9 10) as [Hpos _].
  destruct Hpos as [Hexcellent _]; [lia|]. apply Hexcellent. lia.
Defined.

(** ** The policies at work *)

Lemma passes_admin_policies_iff (db : Database) (uid : string) :
  passes_admin_policies db uid <-> get_current_user_role db uid = Some "admin".
Proof.
  unfold passes_admin_policies, admin_can_manage_all_profiles,
    admins_can_manage_exams, admins_can_manage_questions,
    admins_can_manage_subjects, admins_can_read_all_attempts,
    admins_can_read_all_answers.
  split.
  - intros (Hp & _).
    exact (bool_decide_eq_true_1 _ (Hp (mkProfile uid uid uid uid))).
  - intros Hrole. rewrite (bool_decide_eq_true_2 _ Hrole). by repeat split.
Qed.

Lemma fails_admin_policies_iff (db : Database) (uid : string) :
  fails_admin_policies db uid <-> get_current_user_role db uid <> Some "admin".
Proof.
  unfold fails_admin_policies, admin_can_manage_all_profiles,
    admins_can_manage_exams, admins_can_manage_questions,
    admins_can_manage_subjects, admins_can_read_all_attempts,
    admins_can_read_all_answers.
  split.
  - intros (Hp & _).
    exact (bool_decide_eq_false_1 _ (Hp (mkProfile uid uid uid uid))).
  - intros Hrole. rewrite (bool_decide_eq_false_2 _ Hrole). by repeat split.
Qed.

(** The update of a role goes through for an admin, and for anybody on
    the own row. *)
Lemma profiles_update_role_allowed (db : Database) (uid userId role : string) :
  get_current_user_role db uid = Some "admin" \/ userId = uid ->
  profiles_update_role db uid userId role
  = Some (update_where (fun r => p_id r = userId) (set_role role) (profiles db)).
Proof.
  intros Hwho. unfold profiles_update_role, update_where.
  apply mapM_total. intros row.
  destruct (decide (p_id row = userId)) as [Hid|Hid]; [|done].
  unfold profiles_with_check, profiles_using, admin_can_manage_all_profiles,
    users_can_manage_own_profile. simpl.
  destruct Hwho as [Hadmin| ->].
  - by rewrite (bool_decide_eq_true_2 _ Hadmin).
  - rewrite (bool_decide_eq_true_2 (uid = p_id row)) by done.
    by rewrite orb_true_r.
Qed.

(** The resolver after an update of roles. *)
Lemma get_current_user_role_updated (db : Database) (uid userId role : string) :
  get_current_user_role
    (set_profiles
       (update_where (fun r => p_id r = userId) (set_role role) (profiles db))
       db) uid
  = if decide (uid = userId)
    then (fun _ => role) <$> get_current_user_role db uid
    else get_current_user_role db uid.
Proof.
  unfold get_current_user_role. simpl. unfold update_where.
  induction (profiles db) as [|row rows IH]; [by case_decide|].
  rewrite fmap_cons, !filter_cons.
  destruct (decide (p_id row = userId)) as [Hid|Hid]; simpl.
  - destruct (decide (uid = userId)) as [->|Hne].
    + by rewrite !decide_True.
    + rewrite !decide_False by congruence. exact IH.
  - destruct (decide (p_id row = uid)) as [Huid|Huid].
    + rewrite decide_False by congruence. done.
    + exact IH.
Qed.

(** X15. Any identity that has a profile can make itself an admin: the
    update of its own role to [admin] passes the policies of
    [profiles], and from then on the resolver answers [admin] for it
    and it passes every admin policy, of profiles, exams, questions,
    subjects, attempts and answers. *)
Theorem own_role_update_grants_admin (db : Database) (uid : string)
    (P : Profile) :
  P ∈ profiles db -> p_id P = uid ->
  exists rows,
    profiles_update_role db uid uid "admin" = Some rows
    /\ get_current_user_role (set_profiles rows db) uid = Some "admin"
    /\ passes_admin_policies (set_profiles rows db) uid.
Proof.
  intros HP Hid. eexists. split; [apply profiles_update_role_allowed; by right|].
  assert (get_current_user_role
            (set_profiles
               (update_where (fun r => p_id r = uid) (set_role "admin")
                  (profiles db)) db) uid = Some "admin") as Hrole.
  { rewrite get_current_user_role_updated, decide_True by done.
    unfold get_current_user_role.
    destruct (filter (fun p => p_id p = uid) (profiles db)) as [|row rows] eqn:Hf;
      [|done].
    assert (P ∈ filter (fun p => p_id p = uid) (profiles db)) as Hin
      by by apply list_elem_of_filter.
    rewrite Hf in Hin. by apply elem_of_nil in Hin. }
  split; [exact Hrole|]. by apply passes_admin_policies_iff.
Qed.

Lemma own_role_update_grants_admin_witness :
  fails_admin_policies demo_db "s1"
  /\ exists rows, profiles_update_role demo_db "s1" "s1" "admin" = Some rows
                  /\ passes_admin_policies (set_profiles rows demo_db) "s1".
Proof.
  split; [apply fails_admin_policies_iff; vm_compute; discriminate|].
  destruct (own_role_update_grants_admin demo_db "s1"
              (mkProfile "s1" "Sam" "sam@mail.com" "student"))
    as (rows & Hupdate & _ & Hpasses).
  - vm_compute. apply list_elem_of_here.
  - reflexivity.
  - by exists rows.
Defined.

(** X16. An identity that is not an admin, or has no profile at all,
    passes no admin policy; when it sends the request of the role
    button for another user, the policies hide the row, nothing is
    changed in the backend, and the panel nevertheless reports that the
    role was updated. *)
Theorem non_admin_role_button_changes_nothing (db : Database)
    (uid userId currentRole : string) (st : AdminPanel.state) :
  get_current_user_role db uid <> Some "admin" ->
  userId <> uid ->
  let r := AdminPanel.toggleUserRole uid userId currentRole db st in
  fails_admin_policies db uid
  /\ r.1 = db
  /\ AdminPanel.toasts r.2
     = (AdminPanel.toasts st
        ++ ["User role updated to " +:+ flipped_role currentRole])%list.
Proof.
  intros Hrole Hother. split; [by apply fails_admin_policies_iff|].
  unfold AdminPanel.toggleUserRole.
  assert (profiles_update_role db uid userId (flipped_role currentRole)
          = Some (profiles db)) as Hsame.
  { unfold profiles_update_role. rewrite <- (list_fmap_id (profiles db)) at 2.
    apply mapM_total. intros row.
    destruct (decide (p_id row = userId)) as [Hid|Hid]; [|done].
    unfold profiles_using, admin_can_manage_all_profiles,
      users_can_manage_own_profile.
    rewrite (bool_decide_eq_false_2 _ Hrole).
    rewrite bool_decide_eq_false_2; [done|]. congruence. }
  fold (flipped_role currentRole). rewrite Hsame. simpl.
  split; [by destruct db|done].
Qed.

Lemma non_admin_role_button_changes_nothing_witness :
  (AdminPanel.toggleUserRole "s1" "adm" "admin" demo_db
     (AdminPanel.mkState [])).1 = demo_db.
Proof.
  destruct (non_admin_role_button_changes_nothing demo_db "s1" "adm" "admin"
              (AdminPanel.mkState []))
    as (_ & Hsame & _); [vm_compute; discriminate|discriminate|].
  exact Hsame.
Defined.

Lemma flipped_role_twice (role : string) :
  role = "admin" \/ role = "student" -> flipped_role (flipped_role role) = role.
Proof. by intros [-> | ->]. Qed.

Lemma toggleUserRole_allowed (uid userId currentRole : string)
    (db : Database) (st : AdminPanel.state) :
  get_current_user_role db uid = Some "admin" \/ userId = uid ->
  AdminPanel.toggleUserRole uid userId currentRole db st
  = (set_profiles
       (update_where (fun r => p_id r = userId)
          (set_role (flipped_role currentRole)) (profiles db)) db,
     AdminPanel.toast ("User role updated to " +:+ flipped_role currentRole) st).
Proof.
  intros Hwho. unfold AdminPanel.toggleUserRole.
  fold (flipped_role currentRole).
  by rewrite profiles_update_role_allowed.
Qed.

(** X17. The role button of an admin, pressed twice: the first press
    gives the user the other role, the second press gives back the role
    the user had, and the backend is as it was before, also when the
    admin pressed the button of the own row. *)
Theorem role_button_twice_restores (db : Database) (uid : string)
    (P : Profile) (st : AdminPanel.state) :
  get_current_user_role db uid = Some "admin" ->
  NoDup (p_id <$> profiles db) ->
  P ∈ profiles db ->
  p_role P = "admin" \/ p_role P = "student" ->
  let r1 := AdminPanel.toggleUserRole uid (p_id P) (p_role P) db st in
  let r2 :=
    AdminPanel.toggleUserRole uid (p_id P) (flipped_role (p_role P)) r1.1 r1.2 in
  get_current_user_role r1.1 (p_id P) = Some (flipped_role (p_role P))
  /\ r2.1 = db.
Proof.
  intros Hadmin Hnodup HP Hrole r1 r2. subst r2 r1.
  rewrite (toggleUserRole_allowed uid (p_id P) (p_role P) db st) by by left.
  cbn [fst snd].
  set (db1 := set_profiles _ db).
  assert (get_current_user_role db (p_id P) = Some (p_role P)) as HroleP.
  { unfold get_current_user_role. by rewrite (head_filter_unique_id _ P). }
  assert (get_current_user_role db1 (p_id P) = Some (flipped_role (p_role P)))
    as Hflipped.
  { subst db1. rewrite get_current_user_role_updated, decide_True by done.
    by rewrite HroleP. }
  split; [exact Hflipped|].
  rewrite toggleUserRole_allowed; cycle 1.
  { destruct (decide (p_id P = uid)) as [Hself|Hother]; [by right|left].
    subst db1. rewrite get_current_user_role_updated, decide_False by done.
    exact Hadmin. }
  rewrite flipped_role_twice by done.
  cbn [fst]. subst db1. unfold set_profiles. simpl.
  rewrite update_where_update_where by done.
  assert (update_where (fun r => p_id r = p_id P)
            (fun r => set_role (p_role P) (set_role (flipped_role (p_role P)) r))
            (profiles db) = profiles db) as ->; [|by destruct db].
  unfold update_where. rewrite <- (list_fmap_id (profiles db)) at 2.
  apply list_fmap_ext. intros i row Hrow.
  destruct (decide (p_id row = p_id P)) as [Hid|Hid]; [|done].
  assert (row = P) as ->.
  { apply (NoDup_fmap_elem p_id (profiles db)); try done.
    by apply list_elem_of_lookup_2 in Hrow. }
  by destruct P.
Qed.

Lemma role_button_twice_restores_witness :
  (AdminPanel.toggleUserRole "adm" "s1" "admin"
     (AdminPanel.toggleUserRole "adm" "s1" "student" demo_db
        (AdminPanel.mkState [])).1
     (AdminPanel.toggleUserRole "adm" "s1" "student" demo_db
        (AdminPanel.mkState [])).2).1
  = demo_db.
Proof.
  destruct (role_button_twice_restores demo_db "adm"
              (mkProfile "s1" "Sam" "sam@mail.com" "student")
              (AdminPanel.mkState []))
    as [_ Hrestored].
  - reflexivity.
  - apply (bool_decide_unpack _). vm_compute. exact I.
  - vm_compute. apply list_elem_of_here.
  - by right.
  - exact Hrestored.
Defined.

(** ** The list of questions *)

Lemma order_number_le_total : Total order_number_le.
Proof. intros a b. unfold order_number_le. lia. Qed.

Lemma order_number_le_trans : Transitive order_number_le.
Proof. intros a b c. unfold order_number_le. lia. Qed.

Lemma questions_of_exam_sorted (examId : string) (db : Database) :
  StronglySorted order_number_le (questions_of_exam examId db)
  /\ questions_of_exam examId db ≡ₚ exam_questions examId db.
Proof.
  unfold questions_of_exam. split.
  - apply (@StronglySorted_merge_sort _ order_number_le _
             order_number_le_trans order_number_le_total).
  - apply merge_sort_Permutation.
Qed.

(** ** Editing, creating and deleting a question *)

(** X19. Opening the dialog on a question and saving it unchanged
    leaves the backend as it was, when the identifiers of the questions
    are unique. *)
Theorem edit_without_change_is_noop (examId new_id : string) (db : Database)
    (st : QuestionManager.state) (q : Question) :
  NoDup (q_id <$> questions db) ->
  q ∈ questions db ->
  q_correct_answer q <> EmptyString ->
  (QuestionManager.handleSubmit examId new_id db
     (QuestionManager.handleEdit q st)).1 = db.
Proof.
  intros Hnodup Hq Hcorrect%truthy_true_iff.
  unfold QuestionManager.handleSubmit. simpl. rewrite Hcorrect. simpl.
  unfold update_question.
  assert (update_where (fun q0 => q_id q0 = q_id q)
            (fun q0 =>
               question_of_form (q_id q0) (q_exam_id q0)
                 (mkQuestionForm (q_question_text q) (q_option_a q)
                    (q_option_b q) (q_option_c q) (q_option_d q)
                    (q_correct_answer q) (q_marks q) (q_order_number q)))
            (questions db) = questions db) as ->; [|by destruct db].
  unfold update_where. rewrite <- (list_fmap_id (questions db)) at 2.
  apply list_fmap_ext. intros i row Hrow.
  destruct (decide (q_id row = q_id q)) as [Hid|Hid]; [|done].
  assert (row = q) as ->.
  { apply (NoDup_fmap_elem q_id (questions db)); try done.
    by apply list_elem_of_lookup_2 in Hrow. }
  by destruct q.
Qed.

Lemma edit_without_change_is_noop_witness :
  (QuestionManager.handleSubmit "e1" "q2" demo_db
     (QuestionManager.handleEdit demo_question QuestionManager.initial)).1
  = demo_db.
Proof.
  apply edit_without_change_is_noop.
  - apply (bool_decide_unpack _). vm_compute. exact I.
  - vm_compute. apply list_elem_of_here.
  - discriminate.
Defined.

Lemma sumZ_app (l1 l2 : list Z) : sumZ (l1 ++ l2) = sumZ l1 + sumZ l2.
Proof.
  unfold sumZ. induction l1 as [|x l1 IH]; simpl; [done|]. rewrite IH. lia.
Qed.

Lemma handleSubmit_create (examId new_id : string) (db : Database)
    (st : QuestionManager.state) :
  QuestionManager.editingQuestion st = None ->
  truthy (f_correct_answer (QuestionManager.questionForm st)) = true ->
  let db' :=
    insert_question new_id examId (QuestionManager.questionForm st) db in
  QuestionManager.handleSubmit examId new_id db st
  = (db',
     QuestionManager.fetchQuestions examId db'
       (QuestionManager.resetForm
          (QuestionManager.setIsDialogOpen false
             (QuestionManager.toast "Question created successfully" st)))).
Proof.
  intros Hnew Hcorrect. unfold QuestionManager.handleSubmit.
  by rewrite Hcorrect, Hnew.
Qed.

(** X20. Creating a question: once the manager has settled, the exam
    has the questions it had and the new one, with the content of the
    form and the identifier the backend gave it, and [total_marks] of
    the exam is the sum of the marks it had plus the marks of the new
    question, whatever [total_marks] was before. *)
Theorem create_question_raises_total (examId new_id : string) (db : Database)
    (st : QuestionManager.state) :
  QuestionManager.editingQuestion st = None ->
  f_correct_answer (QuestionManager.questionForm st) <> EmptyString ->
  let form := QuestionManager.questionForm st in
  let r :=
    QuestionManager.settled examId
      (QuestionManager.handleSubmit examId new_id db st) in
  exam_questions examId r.1
  = (exam_questions examId db ++ [question_of_form new_id examId form])%list
  /\ QuestionManager.questions r.2 ≡ₚ exam_questions examId r.1
  /\ forall e, e ∈ exams r.1 -> e_id e = examId ->
       e_total_marks e
       = sumZ (q_marks <$> exam_questions examId db) + f_marks form.
Proof.
  intros Hnew Hcorrect%truthy_true_iff form r. subst form r.
  rewrite handleSubmit_create by done. cbv zeta.
  set (db' := insert_question new_id examId (QuestionManager.questionForm st) db).
  set (st' := QuestionManager.resetForm _).
  assert (exam_questions examId db'
          = (exam_questions examId db
             ++ [question_of_form new_id examId (QuestionManager.questionForm st)])
            %list) as Hqs.
  { subst db'. unfold exam_questions, insert_question. simpl.
    rewrite filter_app, filter_cons, filter_nil. simpl.
    by rewrite decide_True. }
  destruct (fetch_then_effect examId db' st') as (Hq & Hsync & _).
  cbv zeta in Hq, Hsync.
  assert (exam_questions examId
            (QuestionManager.settled examId
               (db', QuestionManager.fetchQuestions examId db' st')).1
          = exam_questions examId db') as Hsame
    by (unfold exam_questions; by rewrite Hq).
  split; [by rewrite Hsame|]. split.
  - rewrite Hsame.
    unfold QuestionManager.settled, QuestionManager.questionsEffect. simpl.
    apply questions_of_exam_sorted.
  - intros e He Hid.
    assert (exam_questions examId db' <> []) as Hne
      by (rewrite Hqs; by destruct (exam_questions examId db)).
    rewrite (Hsync Hne e He Hid).
    rewrite Hsame, Hqs, fmap_app, sumZ_app. unfold sumZ. simpl. lia.
Qed.

Lemma create_question_raises_total_witness :
  e_total_marks <$> exams demo_second_question.1 = [15].
Proof.
  destruct (create_question_raises_total "e1" "q2"
              (QuestionManager.mount "e1" demo_db).1
              (QuestionManager.setQuestionForm
                 (mkQuestionForm "3 + 3 = ?" "5" "6" "7" "8" "B" 5 2)
                 (QuestionManager.mount "e1" demo_db).2))
    as (_ & _ & Htotal); [reflexivity|discriminate|].
  assert (demo_exam_after :
            set_total_marks 15 demo_exam ∈ exams demo_second_question.1)
    by (vm_compute; apply list_elem_of_here).
  specialize (Htotal _ demo_exam_after eq_refl).
  vm_compute. reflexivity.
Defined.

Lemma filter_all {A : Type} (P : A -> Prop) `{!forall x, Decision (P x)}
    (l : list A) :
  Forall P l -> filter P l = l.
Proof.
  induction 1 as [|x l Hx _ IH]; [done|].
  by rewrite filter_cons, decide_True, IH.
Qed.

(** The marks of an exam without one of its questions. *)
Lemma marks_without_question (examId : string) (l : list Question)
    (q : Question) :
  NoDup (q_id <$> l) -> q ∈ l -> q_exam_id q = examId ->
  sumZ (q_marks
        <$> filter (fun x => q_exam_id x = examId)
              (filter (fun x => ~ q_id x = q_id q) l))
  + q_marks q
  = sumZ (q_marks <$> filter (fun x => q_exam_id x = examId) l).
Proof.
  induction l as [|x l IH]; intros Hnodup Hq Hexam.
  - by apply elem_of_nil in Hq.
  - rewrite fmap_cons in Hnodup. apply NoDup_cons in Hnodup as [Hx Hnodup].
    apply elem_of_cons in Hq as [->|Hq].
    + rewrite filter_cons, decide_False by (intros Hne; by apply Hne).
      rewrite (filter_all (fun y => ~ q_id y = q_id x)).
      * rewrite (filter_cons _ x), decide_True by done.
        rewrite fmap_cons. unfold sumZ. simpl. lia.
      * apply Forall_forall. intros y Hy Hid. apply Hx. rewrite <- Hid.
        apply list_elem_of_fmap. by exists y.
    + assert (q_id x <> q_id q) as Hne.
      { intros Hid. apply Hx. rewrite Hid. apply list_elem_of_fmap. by exists q. }
      rewrite (filter_cons (fun x => ~ q_id x = q_id q)), decide_True by done.
      rewrite !(filter_cons (fun x => q_exam_id x = examId) x).
      destruct (decide (q_exam_id x = examId)).
      * rewrite !fmap_cons. unfold sumZ in *. simpl.
        specialize (IH Hnodup Hq Hexam). lia.
      * by apply IH.
Qed.

(** X21. Deleting a question of the exam, with unique identifiers: the
    table loses that question and no other, the list of the manager no
    longer has it, and when the exam has a question left
    [total_marks] of the exam is the sum of the marks it had less the
    marks of the deleted question. *)
Theorem delete_question_lowers_total (examId : string) (db : Database)
    (st : QuestionManager.state) (q : Question) :
  NoDup (q_id <$> questions db) ->
  q ∈ questions db ->
  q_exam_id q = examId ->
  let r :=
    QuestionManager.settled examId
      (QuestionManager.handleDelete true examId (q_id q) db st) in
  (forall q', q' ∈ questions r.1 <-> q' ∈ questions db /\ q' <> q)
  /\ (q ∉ QuestionManager.questions r.2)
  /\ (exam_questions examId r.1 <> [] ->
      forall e, e ∈ exams r.1 -> e_id e = examId ->
        e_total_marks e
        = sumZ (q_marks <$> exam_questions examId db) - q_marks q).
Proof.
  intros Hnodup Hq Hexam r. subst r.
  unfold QuestionManager.handleDelete. simpl negb. cbv iota.
  set (db' := delete_question (q_id q) db).
  set (st' := QuestionManager.toast _ st).
  destruct (fetch_then_effect examId db' st') as (Hqs & Hsync & _).
  cbv zeta in Hqs, Hsync.
  assert (forall q', q' ∈ questions db' <-> q' ∈ questions db /\ q' <> q)
    as Hleft.
  { intros q'. subst db'. unfold delete_question, delete_where. simpl.
    rewrite list_elem_of_filter. split.
    - intros [Hid Hin]. split; [done|]. by intros ->.
    - intros [Hin Hne]. split; [|done]. intros Hid. apply Hne.
      by apply (NoDup_fmap_elem q_id (questions db)). }
  assert (exam_questions examId
            (QuestionManager.settled examId
               (db', QuestionManager.fetchQuestions examId db' st')).1
          = exam_questions examId db') as Hsame
    by (unfold exam_questions; by rewrite Hqs).
  split; [by rewrite Hqs|]. split.
  - unfold QuestionManager.settled, QuestionManager.questionsEffect. simpl.
    destruct (questions_of_exam_sorted examId db') as [_ Hperm].
    rewrite Hperm. unfold exam_questions. rewrite list_elem_of_filter.
    intros [_ Hin]. apply Hleft in Hin. by destruct Hin.
  - rewrite Hsame. intros Hne e He Hid. rewrite (Hsync Hne e He Hid), Hsame.
    pose proof (marks_without_question examId (questions db) q Hnodup Hq Hexam)
      as Hmarks.
    subst db'. unfold exam_questions, delete_question, delete_where. simpl. lia.
Qed.

Lemma delete_question_lowers_total_witness :
  q_id
  <$> questions
        (QuestionManager.settled "e1"
           (QuestionManager.handleDelete true "e1" "q2" demo_second_question.1
              demo_second_question.2)).1
  = ["q1"].
Proof.
  destruct (delete_question_lowers_total "e1" demo_second_question.1
              demo_second_question.2
              (mkQuestion "q2" "e1" "3 + 3 = ?" "5" "6" "7" "8" "B" 5 2))
    as (Hleft & _).
  - apply (bool_decide_unpack _). vm_compute. exact I.
  - vm_compute. apply list_elem_of_further, list_elem_of_here.
  - reflexivity.
  - assert (demo_question
            ∈ questions
                (QuestionManager.settled "e1"
                   (QuestionManager.handleDelete true "e1" "q2"
                      demo_second_question.1 demo_second_question.2)).1) as Hin.
    { apply Hleft. split; [|discriminate].
      vm_compute. apply list_elem_of_here. }
    vm_compute. reflexivity.
Defined.

(** X22. Opening the question manager on an exam: when the exam has
    questions, [total_marks] of the exam becomes the sum of their marks,
    whatever was typed when the exam was created; when it has none, the
    backend is left untouched.  The other tables are never written. *)
Theorem mount_syncs_total_marks (examId : string) (db : Database) :
  let r := QuestionManager.mount examId db in
  QuestionManager.questions r.2 ≡ₚ exam_questions examId db
  /\ questions r.1 = questions db
  /\ exam_attempts r.1 = exam_attempts db
  /\ (exam_questions examId db <> [] -> marks_in_sync examId r.1)
  /\ (exam_questions examId db = [] -> r.1 = db).
Proof.
  intros r. subst r. unfold QuestionManager.mount.
  change (QuestionManager.questionsEffect examId db QuestionManager.initial)
    with (db, QuestionManager.effectDone QuestionManager.initial).
  cbv iota beta.
  destruct (fetch_then_effect examId db
              (QuestionManager.effectDone QuestionManager.initial))
    as (Hqs & Hsync & Hsame).
  cbv zeta in Hqs, Hsync, Hsame.
  split.
  { unfold QuestionManager.settled, QuestionManager.questionsEffect. simpl.
    apply questions_of_exam_sorted. }
  split; [exact Hqs|]. split.
  { unfold QuestionManager.settled. by rewrite questionsEffect_attempts. }
  split; [exact Hsync|exact Hsame].
Qed.

(** ** Deactivating an exam *)

(** X23. Once an admin has switched an exam off, the dashboard no
    longer lists it, and a student who opens its page is sent back to
    the dashboard: the load creates no attempt, resumes none and leaves
    the backend as it is. *)
Theorem deactivated_exam_cannot_be_started (id userId : string) (now : Z)
    (new_id : string) (updates : ExamUpdates) (db : Database)
    (ast : AdminPanel.state) (dst : Dashboard.state) (st : ExamPage.state) :
  u_is_active updates = Some false ->
  let db' := (AdminPanel.updateExam id updates db ast).1 in
  let r := ExamPage.fetchExamData id userId now new_id db' st in
  Forall (fun e => e_id e <> id)
    (Dashboard.exams (Dashboard.fetchExams db' dst))
  /\ r.1 = db'
  /\ ExamPage.location r.2 = RDashboard
  /\ ExamPage.currentAttempt r.2 = ExamPage.currentAttempt st.
Proof.
  intros Hoff db' r. subst r db'. simpl.
  assert (forall e, e ∈ exams (update_exam id updates db) -> e_id e = id ->
                    e_is_active e = false) as Hinactive.
  { intros e (r & Hr & ->)%update_where_elem_of Hid.
    destruct (decide (e_id r = id)) as [_|Hne]; [|done].
    simpl. by rewrite Hoff. }
  split.
  - apply Forall_forall. intros e [Hactive Hin]%list_elem_of_filter Hid.
    rewrite (Hinactive e Hin Hid) in Hactive. discriminate.
  - unfold ExamPage.fetchExamData.
    destruct (single (exams_by_id id (update_exam id updates db)))
      as [e|] eqn:Hexam; [|done].
    apply exams_by_id_single in Hexam as [Hin Hid].
    by rewrite (Hinactive e Hin Hid).
Qed.

Lemma deactivated_exam_cannot_be_started_witness :
  Forall (fun e => e_id e <> "e1")
    (Dashboard.exams (Dashboard.fetchExams demo_deactivated Dashboard.initial))
  /\ (ExamPage.fetchExamData "e1" "s1" 0 "a1" demo_deactivated
        (ExamPage.initial "e1")).1 = demo_deactivated.
Proof.
  destruct (deactivated_exam_cannot_be_started "e1" "s1" 0 "a1" deactivate
              demo_db (AdminPanel.mkState []) Dashboard.initial
              (ExamPage.initial "e1"))
    as (Hlisted & Hsame & _); [reflexivity|].
  split; [exact Hlisted|exact Hsame].
Defined.

(** ** The clock *)

Lemma fields_no_colon s : no_colon s = true -> fields s = [s].
Proof.
  induction s as [|c s IH]; cbn; [done|].
  destruct (Ascii.eqb c ":"); cbn; [done|].
  intros H. now rewrite (IH H).
Qed.

Lemma fields_app s t :
  no_colon s = true -> fields (s +:+ ":" +:+ t) = s :: fields t.
Proof.
  induction s as [|c s IH]; [done|].
  change (String c s +:+ ":" +:+ t) with (String c (s +:+ ":" +:+ t)).
  cbn [fields no_colon].
  destruct (Ascii.eqb c ":"); [done|].
  intros H. now rewrite (IH H).
Qed.

Lemma string_of_uint_no_colon d :
  no_colon (NilEmpty.string_of_uint d) = true.
Proof. induction d; cbn; auto. Qed.

Lemma toString_no_colon n : 0 <= n -> no_colon (ExamPage.toString n) = true.
Proof.
  intros Hn. unfold ExamPage.toString, Z.to_int.
  destruct n as [|p|p]; [done| |lia].
  cbn. destruct (Pos.to_uint p); cbn; auto using string_of_uint_no_colon.
Qed.

Lemma readNumber_toString n : readNumber (ExamPage.toString n) = Some n.
Proof.
  unfold readNumber, ExamPage.toString.
  destruct (decide (n = 0)) as [->|Hn]; [done|].
  rewrite NilZero.isi.
  - cbn. now rewrite DecimalZ.of_to.
  - intros E. apply (f_equal Z.of_int) in E. rewrite DecimalZ.of_to in E. cbn in E. lia.
  - intros E. apply (f_equal Z.of_int) in E. rewrite DecimalZ.of_to in E. cbn in E. lia.
Qed.

Lemma padded_field x :
  0 <= x < 60 ->
  no_colon (ExamPage.padStart2 (ExamPage.toString x)) = true /\
  readNumber (ExamPage.padStart2 (ExamPage.toString x)) = Some x.
Proof.
  intros Hx.
  assert (A : Forall (fun x => no_colon (ExamPage.padStart2 (ExamPage.toString x)) = true /\
                        readNumber (ExamPage.padStart2 (ExamPage.toString x)) = Some x)
                (seqZ 0 60)).
  { apply (bool_decide_unpack _). vm_compute. exact I. }
  rewrite Forall_forall in A. apply A, elem_of_seqZ. lia.
Qed.

Lemma formatTime_parts s :
  0 <= s ->
  0 <= s / 3600 /\ 0 <= Z.rem s 3600 / 60 < 60 /\ 0 <= Z.rem s 60 < 60 /\
  s / 3600 * 3600 + Z.rem s 3600 / 60 * 60 + Z.rem s 60 = s.
Proof.
  intros Hs.
  rewrite !Z.rem_mod_nonneg by lia.
  pose proof (Z.div_mod s 3600 ltac:(lia)) as D1.
  pose proof (Z.mod_pos_bound s 3600 ltac:(lia)) as B1.
  pose proof (Z.div_mod (s mod 3600) 60 ltac:(lia)) as D2.
  pose proof (Z.mod_pos_bound (s mod 3600) 60 ltac:(lia)) as B2.
  assert (E : (s mod 3600) mod 60 = s mod 60).
  { apply Z.mod_mod_divide. exists 60. lia. }
  rewrite E in *.
  pose proof (Z.div_pos s 3600 Hs ltac:(lia)).
  pose proof (Z.div_pos (s mod 3600) 60 ltac:(lia) ltac:(lia)).
  assert (s mod 3600 / 60 < 60) by (apply Z.div_lt_upper_bound; lia).
  lia.
Qed.

Lemma readTime_formatTime s : 0 <= s -> readTime (ExamPage.formatTime s) = Some s.
Proof.
  intros Hs. destruct (formatTime_parts s Hs) as (Hh & Hm & Hx & E).
  unfold ExamPage.formatTime, readTime. cbv zeta.
  destruct (padded_field _ Hm) as [Cm Rm].
  destruct (padded_field _ Hx) as [Cx Rx].
  destruct (Z.ltb_spec 0 (s / 3600)).
  - rewrite fields_app by (apply toString_no_colon; lia).
    rewrite fields_app by done.
    rewrite fields_no_colon by done.
    rewrite readNumber_toString, Rm, Rx. cbn. f_equal. lia.
  - rewrite fields_app by (apply toString_no_colon; lia).
    rewrite fields_no_colon by done.
    rewrite readNumber_toString, Rx. cbn. f_equal. lia.
Qed.

(** X24.  The clock text of a non-negative number of seconds reads back
    as that number: the fields between the colons, as hours (when
    shown), minutes and seconds, add up to it.  So two different
    remaining times are never shown as the same clock text. *)
Theorem clock_text_determines_seconds (a : Z) :
  0 <= a ->
  readTime (ExamPage.formatTime a) = Some a
  /\ (forall b, 0 <= b ->
        ExamPage.formatTime a = ExamPage.formatTime b -> a = b).
Proof.
  intros Ha. split; [now apply readTime_formatTime|].
  intros b Hb E.
  pose proof (readTime_formatTime a Ha) as Ra.
  rewrite E, (readTime_formatTime b Hb) in Ra. congruence.
Qed.

Lemma clock_text_determines_seconds_witness :
  ExamPage.formatTime 3725 = "1:02:05" /\ readTime "1:02:05" = Some 3725.
Proof.
  split; [reflexivity|].
  destruct (clock_text_determines_seconds 3725) as [H _]; [lia|exact H].
Defined.
